(** * oc-mcp: resource correlation and log search of the OpenShift MCP server

    A shallow embedding of [openshift_mcp_server.py]: the ownership
    resolver ([get_operator_pods]), the multi-source search
    ([search_all_logs], [search_gpu_logs]), the capability filters
    ([get_gpu_nodes], [get_gpu_workloads], [get_nvidia_operators]), the
    health reports and the OCM client ([OCMManager.make_request]).

    Conventions of the embedding.
    - Text is [string] (bytes); [lower] is ASCII lower-casing, which is what
      [str.lower] does on the ASCII names of cluster objects.
    - A call that may raise returns [exc A]; the handlers of the source
      ([try ... except]) are the [match] on it.
    - A tool returns [tool_out A]: the fixed text "OpenShift API not
      available", a JSON document (kept as the value that [json.dumps]
      serialises), or an error text.  [json_loads] fails on the two texts.
    - The cluster is a snapshot: the same call with the same arguments gives
      the same answer during one tool invocation.
    - Cluster objects are well formed: a field that the source reads
      without a guard is present; a field that the source guards
      ([if x:]) is an [option].  Three reads are not covered by this: the
      labels of a deployment, which the cluster leaves out when there are
      none, the attribute [namespace] of an event, which the event class
      of the client does not have, and the fetch of a build log, whose call
      lacks a required argument; each of them raises as the source does.
    - The HTTP client of [OCMManager.make_request] is taken to open and
      close without error. *)

From Stdlib Require Import ZArith List Bool Ascii String Lia.
From stdpp Require Import base option gmap strings list fin_maps.

Open Scope string_scope.
Open Scope list_scope.

(** ** Python string primitives *)

Module Py.

Definition lower_ascii (c : ascii) : ascii :=
  let n := N_of_ascii c in
  if ((65 <=? n) && (n <=? 90))%N then ascii_of_N (n + 32) else c.

(** [s.lower()] *)
Fixpoint lower (s : string) : string :=
  match s with
  | EmptyString => EmptyString
  | String c s' => String (lower_ascii c) (lower s')
  end.

(** [s.startswith(p)] *)
Definition startswith (s p : string) : bool := String.prefix p s.

(** [needle in hay] *)
Fixpoint str_in (needle hay : string) {struct hay} : bool :=
  String.prefix needle hay
  || match hay with
     | EmptyString => false
     | String _ hay' => str_in needle hay'
     end.

(** [needle.lower() in hay.lower()] *)
Definition in_lower (needle hay : string) : bool :=
  str_in (lower needle) (lower hay).

Definition newline : ascii := ascii_of_N 10.

(** [s.split('\n')] *)
Fixpoint split_lines (s : string) : list string :=
  match s with
  | EmptyString => [EmptyString]
  | String c s' =>
      if Ascii.eqb c newline then EmptyString :: split_lines s'
      else match split_lines s' with
           | [] => [String c EmptyString]
           | l :: ls => String c l :: ls
           end
  end.

(** ['\n'.join(ls)] *)
Fixpoint join_lines (ls : list string) : string :=
  match ls with
  | [] => EmptyString
  | [l] => l
  | l :: ls' => l +:+ String newline (join_lines ls')
  end.

(** [l[:n]] for [n >= 0] *)
Definition slice_to {A} (n : nat) (l : list A) : list A := firstn n l.

End Py.

Import Py.

(** ** Exceptions and tool results *)

Inductive exc (A : Type) : Type :=
| Ok (a : A)
| Raise (e : string).
Arguments Ok {A} a.
Arguments Raise {A} e.

#[global] Instance exc_ret : MRet exc := fun A a => Ok a.
#[global] Instance exc_bind : MBind exc := fun A B f m =>
  match m with
  | Ok a => f a
  | Raise e => Raise e
  end.

Inductive tool_out (A : Type) : Type :=
| NotAvailable
| Json (a : A)
| ErrorText (s : string).
Arguments NotAvailable {A}.
Arguments Json {A} a.
Arguments ErrorText {A} s.

(** [json.loads] of a tool's answer: the two plain texts are no JSON. *)
Definition json_loads {A} (t : tool_out A) : exc A :=
  match t with
  | Json a => Ok a
  | NotAvailable => Raise "Expecting value: line 1 column 1 (char 0)"
  | ErrorText _ => Raise "Expecting value: line 1 column 1 (char 0)"
  end.

(** [try: body / except Exception as e: return f"<prefix>{e}"] *)
Definition catch_all {A} (prefix : string) (body : exc A) : tool_out A :=
  match body with
  | Ok a => Json a
  | Raise e => ErrorText (prefix +:+ e)
  end.

(** ** Cluster objects *)

Record OwnerReference := {
  owner_kind : string;
  owner_name : string
}.

Record Resources := {
  res_requests : option (gmap string string);
  res_limits : option (gmap string string)
}.

Record Container := {
  container_resources : option Resources
}.

Record Pod := {
  pod_name : string;
  pod_namespace : string;
  pod_phase : string;
  pod_container_statuses : option (list bool);   (* the [ready] flags *)
  pod_creation_timestamp : string;
  pod_node_name : string;
  pod_owner_references : option (list OwnerReference);
  pod_containers : option (list Container)
}.

Record CSV := {
  csv_name : string;
  csv_display_name : string;
  csv_version : string;
  csv_description : string;
  csv_phase : string;
  csv_owned : list (string * string)
}.

Record Deployment := {
  dep_name : string;
  dep_namespace : string;
  dep_labels : option (gmap string string);   (* [None] without labels *)
  dep_replicas : Z;
  dep_ready_replicas : option Z;
  dep_image : option string;
  dep_creation_timestamp : string;
  dep_owner_references : option (list OwnerReference)
}.

Record Event := {
  ev_involved_name : string;
  ev_message : string;
  ev_reason : string;
  ev_type : string;
  ev_last_timestamp : string
}.

Record Build := {
  build_name : string;
  build_namespace : string
}.

Record Condition := {
  cond_type : string;
  cond_status : string;
  cond_reason : string;
  cond_message : string
}.

Record Taint := {
  taint_key : string;
  taint_value : string;
  taint_effect : string
}.

Record Node := {
  node_name : string;
  node_labels : option (gmap string string);
  node_annotations : option (gmap string string);
  node_taints : option (list Taint);
  node_allocatable : option (gmap string string);
  node_conditions : option (list Condition)
}.

Record Subscription := {
  sub_name : string;
  sub_namespace : string;
  sub_package : string;
  sub_channel : string;
  sub_source : string;
  sub_source_namespace : string;
  sub_current_csv : option string;     (* [status.currentCSV], [None] without status *)
  sub_creation_timestamp : string
}.

Record HelmRepo := {
  helm_name : string;
  helm_namespace : string;
  helm_url : string;
  helm_creation_timestamp : string
}.

(** ** The cluster gateway ([OpenShiftManager])

    One field per call of the source on [openshift_manager]; a raised
    [ApiException] or [ResourceNotFoundError] is a [Raise]. *)

Record Gateway := {
  v1_present : bool;                 (* [self.v1 is not None] *)
  dynamic_client_present : bool;     (* [self.dynamic_client is not None] *)
  (* resources.get(kind='ClusterServiceVersion').get(namespace=p) *)
  list_csv : string -> exc (list CSV);
  (* resources.get(kind='ClusterServiceVersion').get(name=n, namespace=p) *)
  get_csv : string -> string -> exc CSV;
  list_subscription_for_all_namespaces : exc (list Subscription);
  list_namespaced_subscription : string -> exc (list Subscription);
  list_helm_chart_repository : exc (list HelmRepo);
  list_deployment_for_all_namespaces : exc (list Deployment);
  list_namespaced_deployment : string -> exc (list Deployment);
  list_pod_for_all_namespaces : exc (list Pod);
  list_namespaced_pod : string -> exc (list Pod);
  (* read_namespaced_pod_log(name, namespace, tail_lines) *)
  read_namespaced_pod_log : string -> string -> Z -> exc string;
  list_event_for_all_namespaces : Z -> exc (list Event);
  list_namespaced_event : string -> Z -> exc (list Event);
  list_build_for_all_namespaces : exc (list Build);
  list_namespaced_build : string -> exc (list Build);
  list_node : exc (list Node)
}.

(** [OpenShiftManager.is_available] *)
Definition is_available (gw : Gateway) : bool :=
  v1_present gw && dynamic_client_present gw.

(** [if not openshift_manager.is_available(): return "OpenShift API not available"] *)
Definition when_available {A} (gw : Gateway) (body : tool_out A) : tool_out A :=
  if negb (is_available gw) then NotAvailable else body.

(** [dynamic_client.get(api_version=..., kind='BuildLog', name=...,
    namespace=...)]: the call gives no [resource], the first parameter of
    [DynamicClient.get], so it raises a [TypeError] before the cluster is
    asked, for every build. *)
Definition get_build_log (gw : Gateway) (name namespace : string) : exc string :=
  Raise "get() missing 1 required positional argument: 'resource'".

(** ** Ownership resolver: [get_operator_pods] *)

Record PodEntry := {
  pe_name : string;
  pe_namespace : string;
  pe_status : string;
  pe_ready : nat;
  pe_containers : nat;
  pe_created : string;
  pe_node : string
}.

Definition pod_entry (pod : Pod) : PodEntry :=
  {| pe_name := pod_name pod;
     pe_namespace := pod_namespace pod;
     pe_status := pod_phase pod;
     pe_ready := match pod_container_statuses pod with
                 | Some (c :: cs) => List.length (List.filter (fun r => r) (c :: cs))
                 | _ => 0
                 end;
     pe_containers := match pod_container_statuses pod with
                      | Some (c :: cs) => List.length (c :: cs)
                      | _ => 0
                      end;
     pe_created := pod_creation_timestamp pod;
     pe_node := pod_node_name pod |}.

(** The first CSV whose name contains [operator_name] (case-sensitive). *)
Definition find_target_csv (operator_name : string) (csvs : list CSV) : option CSV :=
  List.find (fun csv => str_in operator_name (csv_name csv)) csvs.

Definition owned_by_csv (target_csv : CSV) (owner : OwnerReference) : bool :=
  String.eqb (owner_kind owner) "ClusterServiceVersion"
  && String.eqb (owner_name owner) (csv_name target_csv).

(** The loop over [deployments.items]: one append per matching owner. *)
Definition operator_deployments (target_csv : CSV) (deployments : list Deployment)
  : list Deployment :=
  flat_map (fun deploy =>
    match dep_owner_references deploy with
    | Some owners =>
        flat_map (fun owner =>
          if owned_by_csv target_csv owner then [deploy] else []) owners
    | None => []
    end) deployments.

(** The loop over [pods.items] of method 1: one append per owner
    reference and per deployment that match. *)
Definition owner_chain_pods (deploys : list Deployment) (pods : list Pod)
  : list PodEntry :=
  flat_map (fun pod =>
    match pod_owner_references pod with
    | Some owners =>
        flat_map (fun owner =>
          if String.eqb (owner_kind owner) "ReplicaSet" then
            flat_map (fun deploy =>
              if startswith (owner_name owner) (dep_name deploy +:+ "-")
              then [pod_entry pod] else []) deploys
          else []) owners
    | None => []
    end) pods.

(** The loop of method 2. *)
Definition name_match_pods (operator_name : string) (pods : list Pod)
  : list PodEntry :=
  flat_map (fun pod =>
    if in_lower operator_name (pod_name pod) then [pod_entry pod] else []) pods.

(** Method 1 up to the end of [if target_csv:]. *)
Definition method1 (gw : Gateway) (operator_name project : string)
  : exc (list PodEntry) :=
  csvs ← list_csv gw project;
  match find_target_csv operator_name csvs with
  | Some target_csv =>
      deployments ← list_namespaced_deployment gw project;
      pods ← list_namespaced_pod gw project;
      mret (owner_chain_pods (operator_deployments target_csv deployments) pods)
  | None => mret []
  end.

(** [if not operator_pods:] and the loop of method 2. *)
Definition method2 (gw : Gateway) (operator_name project : string)
    (operator_pods : list PodEntry) : exc (list PodEntry) :=
  match operator_pods with
  | [] =>
      pods ← list_namespaced_pod gw project;
      mret (name_match_pods operator_name pods)
  | _ :: _ => mret operator_pods
  end.

Definition get_operator_pods (gw : Gateway) (operator_name project : string)
  : tool_out (list PodEntry) :=
  when_available gw
    (catch_all "Error getting operator pods: "
       (operator_pods ← method1 gw operator_name project;
        method2 gw operator_name project operator_pods)).

(** ** Multi-source search: [search_all_logs] *)

Inductive Hit :=
| PodLogHit (source : string) (matches : list string)
| EventHit (source message reason event_type timestamp : string)
| BuildLogHit (source : string) (matches : list string)
| ErrorHit (message : string).

(** [f"{namespace}/{name}"] *)
Definition source_ref (namespace name : string) : string :=
  namespace +:+ "/" +:+ name.

(** [[line for line in text.split('\n') if query.lower() in line.lower()]] *)
Definition matching_lines (query text : string) : list string :=
  List.filter (fun line => in_lower query line) (split_lines text).

(** [resource_types in ["all", kind]] *)
Definition wants (resource_types kind : string) : bool :=
  String.eqb resource_types "all" || String.eqb resource_types kind.

(** The body of the loop over [pods.items[:20]]; a failed fetch is
    [except: continue]. *)
Definition pod_log_hit (gw : Gateway) (query : string) (lines : Z) (pod : Pod)
  : list Hit :=
  match read_namespaced_pod_log gw (pod_name pod) (pod_namespace pod) lines with
  | Ok logs =>
      if in_lower query logs then
        [PodLogHit (source_ref (pod_namespace pod) (pod_name pod))
                   (slice_to 5 (matching_lines query logs))]
      else []
  | Raise _ => []
  end.

Definition pods_in (gw : Gateway) (project : string) : exc (list Pod) :=
  if String.eqb project "all" then list_pod_for_all_namespaces gw
  else list_namespaced_pod gw project.

Definition search_pod_logs (gw : Gateway) (query project : string) (lines : Z)
  : list Hit :=
  match pods_in gw project with
  | Ok pods => flat_map (pod_log_hit gw query lines) (slice_to 20 pods)
  | Raise e => [ErrorHit ("Pod log search error: " +:+ e)]
  end.

(** [event.namespace]: the event class of the client ([CoreV1Event]) has no
    attribute of that name, so the read raises an [AttributeError]. *)
Definition event_namespace (event : Event) : exc string :=
  Raise "'CoreV1Event' object has no attribute 'namespace'".

(** The body of the loop over [events.items]. *)
Definition event_hit (query : string) (event : Event) : exc (list Hit) :=
  if in_lower query (ev_message event) then
    namespace ← event_namespace event;
    mret [EventHit (source_ref namespace (ev_involved_name event))
                   (ev_message event) (ev_reason event) (ev_type event)
                   (ev_last_timestamp event)]
  else mret [].

(** The loop over [events.items] inside its [try]: an exception ends the
    loop, the entries appended before it stay, and the handler appends one
    entry of type "error". *)
Fixpoint events_loop (query : string) (events : list Event) : list Hit :=
  match events with
  | [] => []
  | event :: rest =>
      match event_hit query event with
      | Ok hits => hits ++ events_loop query rest
      | Raise e => [ErrorHit ("Event search error: " +:+ e)]
      end
  end.

Definition events_in (gw : Gateway) (project : string) : exc (list Event) :=
  if String.eqb project "all" then list_event_for_all_namespaces gw 200
  else list_namespaced_event gw project 200.

Definition search_events (gw : Gateway) (query project : string) : list Hit :=
  match events_in gw project with
  | Ok events => events_loop query events
  | Raise e => [ErrorHit ("Event search error: " +:+ e)]
  end.

(** The body of the loop over [builds.items[:10]]; a failed fetch is
    [except: continue]. *)
Definition build_log_hit (gw : Gateway) (query : string) (build : Build)
  : list Hit :=
  match get_build_log gw (build_name build) (build_namespace build) with
  | Ok build_logs =>
      if in_lower query build_logs then
        [BuildLogHit (source_ref (build_namespace build) (build_name build))
                     (slice_to 3 (matching_lines query build_logs))]
      else []
  | Raise _ => []
  end.

Definition builds_in (gw : Gateway) (project : string) : exc (list Build) :=
  if String.eqb project "all" then list_build_for_all_namespaces gw
  else list_namespaced_build gw project.

Definition search_build_logs (gw : Gateway) (query project : string) : list Hit :=
  match builds_in gw project with
  | Ok builds => flat_map (build_log_hit gw query) (slice_to 10 builds)
  | Raise _ => []
  end.

Definition search_all_logs (gw : Gateway)
    (query project resource_types : string) (lines : Z) : tool_out (list Hit) :=
  when_available gw
    (Json
       ((if wants resource_types "pod"
         then search_pod_logs gw query project lines else [])
        ++ (if wants resource_types "event"
            then search_events gw query project else [])
        ++ (if wants resource_types "build"
            then search_build_logs gw query project else []))).

(** ** [search_gpu_logs] *)

Record TaggedHit := {
  th_hit : Hit;
  th_source_type : string
}.

(** One of the three [try: ... except: pass] blocks: search, decode, tag. *)
Definition tagged_search (source_type : string) (answer : tool_out (list Hit))
  : list TaggedHit :=
  match json_loads answer with
  | Ok items => List.map (fun item => {| th_hit := item; th_source_type := source_type |}) items
  | Raise _ => []
  end.

Definition search_gpu_logs (gw : Gateway) (query log_type : string) (lines : Z)
  : tool_out (list TaggedHit) :=
  when_available gw
    (Json
       (tagged_search "nvidia-gpu-operator"
          (search_all_logs gw query "nvidia-gpu-operator" log_type lines)
        ++ tagged_search "opendatahub"
             (search_all_logs gw query "opendatahub" log_type lines)
        ++ (if existsb (fun keyword => in_lower keyword query)
                 ["gpu"; "nvidia"; "cuda"; "dcgm"; "mig"]
            then tagged_search "cluster-wide"
                   (search_all_logs gw query "all" log_type (lines / 5))
            else []))).

(** ** Capability filters *)

(** The body [if keep(key): out[key] = value] of a loop over a dictionary. *)
Definition collect_step (keep : string -> bool)
    (out : gmap string string) (kv : string * string) : gmap string string :=
  if keep kv.1 then <[kv.1 := kv.2]> out else out.

(** A loop [for key, value in items.items(): if keep(key): out[key] = value]. *)
Definition dict_collect (keep : string -> bool)
    (items out : gmap string string) : gmap string string :=
  foldl (collect_step keep) out (map_to_list items).

(** The same loop when the dictionary is guarded by [if items:]. *)
Definition dict_collect_opt (keep : string -> bool)
    (items : option (gmap string string)) (out : gmap string string)
  : gmap string string :=
  match items with
  | Some m => dict_collect keep m out
  | None => out
  end.

(** A dictionary is true when it is not empty. *)
Definition dict_true (d : gmap string string) : bool :=
  negb (bool_decide (d = ∅)).

(** ["nvidia.com" in resource or "gpu" in resource.lower()] *)
Definition is_gpu_resource (resource : string) : bool :=
  str_in "nvidia.com" resource || str_in "gpu" (lower resource).

(** ["nvidia" in label.lower() or "gpu" in label.lower()] *)
Definition is_nvidia_label (label : string) : bool :=
  str_in "nvidia" (lower label) || str_in "gpu" (lower label).

Definition taints_of (taints : option (list Taint)) : list Taint :=
  match taints with
  | Some ts => ts
  | None => []
  end.

Definition conditions_of (types : list string) (conds : option (list Condition))
  : list Condition :=
  match conds with
  | Some cs => List.filter (fun c => existsb (String.eqb (cond_type c)) types) cs
  | None => []
  end.

(** *** [get_gpu_nodes] *)

Record GpuNodeInfo := {
  gn_name : string;
  gn_labels : option (gmap string string);
  gn_taints : list Taint;
  gn_gpu_resources : gmap string string;
  gn_nvidia_labels : gmap string string;
  gn_conditions : list Condition
}.

Definition gpu_node_info (node : Node) : GpuNodeInfo :=
  {| gn_name := node_name node;
     gn_labels := node_labels node;
     gn_taints := taints_of (node_taints node);
     gn_gpu_resources := dict_collect_opt is_gpu_resource (node_allocatable node) ∅;
     gn_nvidia_labels := dict_collect_opt is_nvidia_label (node_labels node) ∅;
     gn_conditions := conditions_of ["Ready"; "GPUReady"; "NvidiaGPU"] (node_conditions node) |}.

Definition gpu_node_selected (info : GpuNodeInfo) : bool :=
  dict_true (gn_gpu_resources info) || dict_true (gn_nvidia_labels info).

Definition get_gpu_nodes (gw : Gateway) : tool_out (list GpuNodeInfo) :=
  when_available gw
    (catch_all "Error getting GPU nodes: "
       (nodes ← list_node gw;
        mret (List.filter gpu_node_selected (List.map gpu_node_info nodes)))).

(** *** [get_gpu_workloads] *)

Record GpuPodInfo := {
  gp_name : string;
  gp_namespace : string;
  gp_status : string;
  gp_node : string;
  gp_gpu_requests : gmap string string;
  gp_gpu_limits : gmap string string;
  gp_created : string
}.

(** The state of the scan of one pod: the two dictionaries and [has_gpu]. *)
Record GpuScan := {
  scan_requests : gmap string string;
  scan_limits : gmap string string;
  scan_has_gpu : bool
}.

(** A loop [for resource, quantity in items.items()] of the scan, guarded
    by [if items:]; it fills one dictionary and raises the flag. *)
Definition gpu_items_loop (items : option (gmap string string))
    (st : gmap string string * bool) : gmap string string * bool :=
  match items with
  | Some m =>
      foldl (fun st kv =>
               if is_gpu_resource kv.1 then (<[kv.1 := kv.2]> st.1, true) else st)
            st (map_to_list m)
  | None => st
  end.

(** One container: the loop over its requests, then over its limits. *)
Definition scan_container (st : GpuScan) (container : Container) : GpuScan :=
  match container_resources container with
  | Some res =>
      let rq := gpu_items_loop (res_requests res) (scan_requests st, scan_has_gpu st) in
      let lm := gpu_items_loop (res_limits res) (scan_limits st, rq.2) in
      {| scan_requests := rq.1; scan_limits := lm.1; scan_has_gpu := lm.2 |}
  | None => st
  end.

Definition containers_of (pod : Pod) : list Container :=
  match pod_containers pod with
  | Some cs => cs
  | None => []
  end.

Definition scan_pod (pod : Pod) : GpuScan :=
  foldl scan_container
        {| scan_requests := ∅; scan_limits := ∅; scan_has_gpu := false |}
        (containers_of pod).

Definition gpu_pod_info (pod : Pod) : GpuPodInfo :=
  {| gp_name := pod_name pod;
     gp_namespace := pod_namespace pod;
     gp_status := pod_phase pod;
     gp_node := pod_node_name pod;
     gp_gpu_requests := scan_requests (scan_pod pod);
     gp_gpu_limits := scan_limits (scan_pod pod);
     gp_created := pod_creation_timestamp pod |}.

Definition gpu_workloads_of (pods : list Pod) : list GpuPodInfo :=
  flat_map (fun pod =>
    if scan_has_gpu (scan_pod pod) then [gpu_pod_info pod] else []) pods.

Definition get_gpu_workloads (gw : Gateway) (project : string)
  : tool_out (list GpuPodInfo) :=
  when_available gw
    (catch_all "Error getting GPU workloads: "
       (pods ← pods_in gw project;
        mret (gpu_workloads_of pods))).

(** ** Operator discovery: [get_all_operators], [get_nvidia_operators] *)

Record CsvInfo := {
  ci_display_name : string;
  ci_version : string;
  ci_description : string;
  ci_phase : string;
  ci_owned_resources : list (string * string)
}.

(** The dictionaries appended to [all_operators], by their ["type"]. *)
Inductive OperatorEntry :=
| OlmOperator (name namespace package channel source source_namespace : string)
              (installed_csv : option string) (csv_info : option CsvInfo)
              (created : string)
| HelmOperator (name namespace url created : string)
| CustomOperator (name namespace : string) (replicas : Z)
                 (ready_replicas : option Z) (image : option string)
                 (created : string)
| OperatorError (message : string).

(** [operator.get("name", default)] with the empty text as default *)
Definition op_name (operator : OperatorEntry) : string :=
  match operator with
  | OlmOperator name _ _ _ _ _ _ _ _ => name
  | HelmOperator name _ _ _ => name
  | CustomOperator name _ _ _ _ _ => name
  | OperatorError _ => EmptyString
  end.

(** [operator.get("package", default)] with the empty text as default *)
Definition op_package (operator : OperatorEntry) : string :=
  match operator with
  | OlmOperator _ _ package _ _ _ _ _ _ => package
  | _ => EmptyString
  end.

(** [operator.get("namespace", default)] *)
Definition op_namespace (default : string) (operator : OperatorEntry) : string :=
  match operator with
  | OlmOperator _ namespace _ _ _ _ _ _ _ => namespace
  | HelmOperator _ namespace _ _ => namespace
  | CustomOperator _ namespace _ _ _ _ => namespace
  | OperatorError _ => default
  end.

Definition csv_info_of (csv : CSV) : CsvInfo :=
  {| ci_display_name := csv_display_name csv;
     ci_version := csv_version csv;
     ci_description := csv_description csv;
     ci_phase := csv_phase csv;
     ci_owned_resources := csv_owned csv |}.

(** The body of the loop over [subscriptions.items]. *)
Definition olm_entry (gw : Gateway) (sub : Subscription) : OperatorEntry :=
  let csv_info :=
    match sub_current_csv sub with
    | Some (String c n) =>
        match get_csv gw (String c n) (sub_namespace sub) with
        | Ok csv => Some (csv_info_of csv)
        | Raise _ => None
        end
    | _ => None
    end in
  OlmOperator (sub_name sub) (sub_namespace sub) (sub_package sub)
              (sub_channel sub) (sub_source sub) (sub_source_namespace sub)
              (sub_current_csv sub) csv_info (sub_creation_timestamp sub).

Definition olm_operators (gw : Gateway) (project : string) : list OperatorEntry :=
  match (if String.eqb project "all" then list_subscription_for_all_namespaces gw
         else list_namespaced_subscription gw project) with
  | Ok subscriptions => List.map (olm_entry gw) subscriptions
  | Raise e => [OperatorError ("Error getting OLM operators: " +:+ e)]
  end.

Definition helm_operators (gw : Gateway) : list OperatorEntry :=
  match list_helm_chart_repository gw with
  | Ok repos =>
      List.map (fun repo => HelmOperator (helm_name repo) (helm_namespace repo)
                                         (helm_url repo) (helm_creation_timestamp repo))
               repos
  | Raise _ => []
  end.

(** The test of the loop over [deployments.items].  The labels are read
    only when neither name test holds ([or] stops at the first true
    operand), and [labels.get] raises when the deployment has no labels. *)
Definition looks_like_operator (deploy : Deployment) : exc bool :=
  if str_in "operator" (lower (dep_name deploy))
     || str_in "controller" (lower (dep_name deploy))
  then Ok true
  else match dep_labels deploy with
       | Some labels =>
           Ok (bool_decide (labels !! "app.kubernetes.io/component" = Some "operator"))
       | None => Raise "'NoneType' object has no attribute 'get'"
       end.

Definition custom_entry (deploy : Deployment) : OperatorEntry :=
  CustomOperator (dep_name deploy) (dep_namespace deploy)
                 (dep_replicas deploy) (dep_ready_replicas deploy)
                 (dep_image deploy) (dep_creation_timestamp deploy).

(** The loop over [deployments.items] inside its [try]: an exception ends
    the loop, the entries appended before it stay, and the handler appends
    one entry of type "error". *)
Fixpoint custom_loop (deployments : list Deployment) : list OperatorEntry :=
  match deployments with
  | [] => []
  | deploy :: rest =>
      match looks_like_operator deploy with
      | Ok true => custom_entry deploy :: custom_loop rest
      | Ok false => custom_loop rest
      | Raise e => [OperatorError ("Error getting custom operators: " +:+ e)]
      end
  end.

Definition custom_operators (gw : Gateway) (project : string) : list OperatorEntry :=
  match (if String.eqb project "all" then list_deployment_for_all_namespaces gw
         else list_namespaced_deployment gw project) with
  | Ok deployments => custom_loop deployments
  | Raise e => [OperatorError ("Error getting custom operators: " +:+ e)]
  end.

Definition get_all_operators (gw : Gateway) (project : string)
  : tool_out (list OperatorEntry) :=
  when_available gw
    (Json (olm_operators gw project ++ helm_operators gw ++ custom_operators gw project)).

Definition nvidia_keywords : list string :=
  ["nvidia"; "gpu"; "cuda"; "mellanox"; "connectx"].

(** The lower-cased display name read under [if operator.get("csv_info"):]. *)
Definition op_display_name_lower (operator : OperatorEntry) : string :=
  match operator with
  | OlmOperator _ _ _ _ _ _ _ (Some info) _ => lower (ci_display_name info)
  | _ => EmptyString
  end.

Definition is_nvidia_operator (operator : OperatorEntry) : bool :=
  let name := lower (op_name operator) in
  let package := lower (op_package operator) in
  let display_name := op_display_name_lower operator in
  existsb (fun keyword =>
             str_in keyword name || str_in keyword package
             || str_in keyword display_name) nvidia_keywords.

Definition get_nvidia_operators (gw : Gateway) (project : string)
  : tool_out (list OperatorEntry) :=
  when_available gw
    (catch_all "Error getting NVIDIA operators: "
       (operators_data ← json_loads (get_all_operators gw project);
        mret (List.filter is_nvidia_operator operators_data))).

(** ** BlueField filters: [get_bluefield_dpu_nodes], [get_bluefield_dpu_workloads] *)

Record DpuNodeInfo := {
  dn_name : string;
  dn_labels : option (gmap string string);
  dn_annotations : option (gmap string string);
  dn_taints : list Taint;
  dn_dpu_resources : gmap string string;
  dn_bluefield_labels : gmap string string;
  dn_network_resources : gmap string string;
  dn_conditions : list Condition;
  dn_dpu_info : gmap string string
}.

Definition is_dpu_resource (resource : string) : bool :=
  str_in "nvidia.com/dpu" resource || str_in "nvidia.com/bluefield" resource
  || str_in "nvidia.com/sriov" resource || str_in "mellanox.com" resource.

Definition is_bluefield_label (label : string) : bool :=
  str_in "bluefield" (lower label) || str_in "dpu" (lower label)
  || str_in "mellanox" (lower label) || str_in "connectx" (lower label).

Definition is_network_resource (resource : string) : bool :=
  str_in "sriov" (lower resource) || str_in "rdma" (lower resource)
  || str_in "net" (lower resource).

Definition is_dpu_annotation (annotation : string) : bool :=
  str_in "dpu" (lower annotation) || str_in "bluefield" (lower annotation)
  || str_in "mellanox" (lower annotation).

Definition dpu_node_info (node : Node) : DpuNodeInfo :=
  {| dn_name := node_name node;
     dn_labels := node_labels node;
     dn_annotations := node_annotations node;
     dn_taints := taints_of (node_taints node);
     dn_dpu_resources := dict_collect_opt is_dpu_resource (node_allocatable node) ∅;
     dn_bluefield_labels := dict_collect_opt is_bluefield_label (node_labels node) ∅;
     dn_network_resources := dict_collect_opt is_network_resource (node_allocatable node) ∅;
     dn_conditions := conditions_of ["Ready"; "NetworkUnavailable"; "DPUReady"] (node_conditions node);
     dn_dpu_info := dict_collect_opt is_dpu_annotation (node_annotations node) ∅ |}.

Definition dpu_node_selected (info : DpuNodeInfo) : bool :=
  dict_true (dn_dpu_resources info) || dict_true (dn_bluefield_labels info)
  || dict_true (dn_network_resources info).

Definition get_bluefield_dpu_nodes (gw : Gateway) : tool_out (list DpuNodeInfo) :=
  when_available gw
    (catch_all "Error getting BlueField DPU nodes: "
       (nodes ← list_node gw;
        mret (List.filter dpu_node_selected (List.map dpu_node_info nodes)))).

Record DpuDicts := {
  dd_dpu : gmap string string;
  dd_sriov : gmap string string;
  dd_rdma : gmap string string
}.

(** The [if / elif / elif] of one resource key. *)
Definition dpu_item (st : DpuDicts * bool) (kv : string * string) : DpuDicts * bool :=
  if str_in "nvidia.com/dpu" kv.1 || str_in "nvidia.com/bluefield" kv.1 then
    ({| dd_dpu := <[kv.1 := kv.2]> (dd_dpu st.1);
        dd_sriov := dd_sriov st.1; dd_rdma := dd_rdma st.1 |}, true)
  else if str_in "sriov" (lower kv.1) then
    ({| dd_dpu := dd_dpu st.1;
        dd_sriov := <[kv.1 := kv.2]> (dd_sriov st.1); dd_rdma := dd_rdma st.1 |}, true)
  else if str_in "rdma" (lower kv.1) then
    ({| dd_dpu := dd_dpu st.1; dd_sriov := dd_sriov st.1;
        dd_rdma := <[kv.1 := kv.2]> (dd_rdma st.1) |}, true)
  else st.

Definition dpu_items_loop (items : option (gmap string string))
    (st : DpuDicts * bool) : DpuDicts * bool :=
  match items with
  | Some m => foldl dpu_item st (map_to_list m)
  | None => st
  end.

Record DpuScan := {
  ds_requests : DpuDicts;
  ds_limits : DpuDicts;
  ds_has_dpu : bool
}.

Definition dpu_scan_container (st : DpuScan) (container : Container) : DpuScan :=
  match container_resources container with
  | Some res =>
      let rq := dpu_items_loop (res_requests res) (ds_requests st, ds_has_dpu st) in
      let lm := dpu_items_loop (res_limits res) (ds_limits st, rq.2) in
      {| ds_requests := rq.1; ds_limits := lm.1; ds_has_dpu := lm.2 |}
  | None => st
  end.

Definition no_dicts : DpuDicts := {| dd_dpu := ∅; dd_sriov := ∅; dd_rdma := ∅ |}.

Definition dpu_scan_pod (pod : Pod) : DpuScan :=
  foldl dpu_scan_container
        {| ds_requests := no_dicts; ds_limits := no_dicts; ds_has_dpu := false |}
        (containers_of pod).

Record DpuPodInfo := {
  dp_name : string;
  dp_namespace : string;
  dp_status : string;
  dp_node : string;
  dp_requests : DpuDicts;
  dp_limits : DpuDicts;
  dp_created : string
}.

Definition dpu_pod_info (pod : Pod) : DpuPodInfo :=
  {| dp_name := pod_name pod;
     dp_namespace := pod_namespace pod;
     dp_status := pod_phase pod;
     dp_node := pod_node_name pod;
     dp_requests := ds_requests (dpu_scan_pod pod);
     dp_limits := ds_limits (dpu_scan_pod pod);
     dp_created := pod_creation_timestamp pod |}.

Definition get_bluefield_dpu_workloads (gw : Gateway) (project : string)
  : tool_out (list DpuPodInfo) :=
  when_available gw
    (catch_all "Error getting BlueField DPU workloads: "
       (pods ← pods_in gw project;
        mret (flat_map (fun pod =>
                if ds_has_dpu (dpu_scan_pod pod) then [dpu_pod_info pod] else [])
              pods))).

(** ** Health reports *)

(** The values of a [summary] dictionary. *)
Inductive SVal :=
| SBool (b : bool)
| SInt (n : Z)
| SStr (s : string).

Definition len {A} (l : list A) : Z := Z.of_nat (List.length l).

(** The first element of a [for ...: if ...: ...; break] search. *)
Definition first_operator (fragment : string) (operators_data : list OperatorEntry)
  : option OperatorEntry :=
  List.find (fun operator => str_in fragment (op_name operator)) operators_data.

(** *** [get_gpu_operator_health] *)

Record GpuHealthReport := {
  gh_operator_status : option OperatorEntry;       (* [None] is the empty [{}] *)
  gh_pods_status : list PodEntry;
  gh_recent_errors : list Hit;
  gh_gpu_nodes : list GpuNodeInfo;
  gh_driver_status : list Hit;
  gh_device_plugin_status : list Hit;
  gh_summary : gmap string SVal
}.

(** [operator_status.get("csv_info", {}).get("phase") == "Succeeded"]: an OLM
    entry always has the key, and its value may be [None]. *)
Definition operator_healthy (operator_status : option OperatorEntry) : exc bool :=
  match operator_status with
  | Some (OlmOperator _ _ _ _ _ _ _ (Some info) _) =>
      Ok (String.eqb (ci_phase info) "Succeeded")
  | Some (OlmOperator _ _ _ _ _ _ _ None _) =>
      Raise "'NoneType' object has no attribute 'get'"
  | _ => Ok false
  end.

Definition is_some {A} (o : option A) : bool :=
  match o with
  | Some _ => true
  | None => false
  end.

Definition gpu_summary (now : string) (operator_status : option OperatorEntry)
    (healthy : bool) (pods_status : list PodEntry) (gpu_nodes : list GpuNodeInfo)
    (recent_errors : list Hit) : gmap string SVal :=
  list_to_map
    [("operator_installed", SBool (is_some operator_status));
     ("operator_healthy", SBool healthy);
     ("total_pods", SInt (len pods_status));
     ("running_pods",
       SInt (len (List.filter (fun p => String.eqb (pe_status p) "Running") pods_status)));
     ("gpu_nodes_count", SInt (len gpu_nodes));
     ("recent_errors_count", SInt (len recent_errors));
     ("timestamp", SStr now)].

Definition gpu_health_body (gw : Gateway) (now : string) : exc GpuHealthReport :=
  operators_data ← json_loads (get_nvidia_operators gw "all");
  let operator_status := first_operator "gpu-operator" operators_data in
  pods_status ←
    match operator_status with
    | Some operator =>
        json_loads (get_operator_pods gw "gpu-operator"
                      (op_namespace "nvidia-gpu-operator" operator))
    | None => mret []
    end;
  recent_errors ← json_loads (search_all_logs gw "ERROR" "nvidia-gpu-operator" "all" 50);
  gpu_nodes ← json_loads (get_gpu_nodes gw);
  driver_status ← json_loads (search_all_logs gw "nvidia-driver" "nvidia-gpu-operator" "pod" 20);
  device_plugin_status ←
    json_loads (search_all_logs gw "device-plugin" "nvidia-gpu-operator" "pod" 20);
  healthy ← operator_healthy operator_status;
  mret {| gh_operator_status := operator_status;
          gh_pods_status := pods_status;
          gh_recent_errors := recent_errors;
          gh_gpu_nodes := gpu_nodes;
          gh_driver_status := driver_status;
          gh_device_plugin_status := device_plugin_status;
          gh_summary := gpu_summary now operator_status healthy pods_status
                                    gpu_nodes recent_errors |}.

Definition get_gpu_operator_health (gw : Gateway) (now : string)
  : tool_out GpuHealthReport :=
  when_available gw
    (catch_all "Error getting GPU operator health: " (gpu_health_body gw now)).

(** *** [get_bluefield_dpu_health] *)

Record DpuHealthReport := {
  dh_network_operator_status : option OperatorEntry;
  dh_dpu_nodes : list DpuNodeInfo;
  dh_dpu_workloads : list DpuPodInfo;
  dh_recent_dpu_errors : list TaggedHit;
  dh_ofed_driver_status : list TaggedHit;
  dh_rdma_device_status : list TaggedHit;
  dh_summary : gmap string SVal
}.

Definition dpu_summary (network_operator_status : option OperatorEntry)
    (dpu_nodes : list DpuNodeInfo) (dpu_workloads : list DpuPodInfo)
    (recent_dpu_errors : list TaggedHit) : gmap string SVal :=
  list_to_map
    [("network_operator_installed", SBool (is_some network_operator_status));
     ("dpu_nodes_count", SInt (len dpu_nodes));
     ("dpu_workloads_count", SInt (len dpu_workloads));
     ("recent_errors_count", SInt (len recent_dpu_errors));
     ("health_status",
       SStr (match recent_dpu_errors with
             | [] => "healthy"
             | _ :: _ => "degraded"
             end))].

Definition dpu_health_body (gw : Gateway) : exc DpuHealthReport :=
  operators_data ← json_loads (get_nvidia_operators gw "all");
  let network_operator_status := first_operator "network-operator" operators_data in
  dpu_nodes ← json_loads (get_bluefield_dpu_nodes gw);
  dpu_workloads ← json_loads (get_bluefield_dpu_workloads gw "all");
  recent_dpu_errors ← json_loads (search_gpu_logs gw "ERROR" "all" 50);
  ofed_driver_status ← json_loads (search_gpu_logs gw "ofed" "all" 20);
  rdma_device_status ← json_loads (search_gpu_logs gw "rdma" "all" 20);
  mret {| dh_network_operator_status := network_operator_status;
          dh_dpu_nodes := dpu_nodes;
          dh_dpu_workloads := dpu_workloads;
          dh_recent_dpu_errors := recent_dpu_errors;
          dh_ofed_driver_status := ofed_driver_status;
          dh_rdma_device_status := rdma_device_status;
          dh_summary := dpu_summary network_operator_status dpu_nodes
                                    dpu_workloads recent_dpu_errors |}.

Definition get_bluefield_dpu_health (gw : Gateway) : tool_out DpuHealthReport :=
  when_available gw
    (catch_all "Error getting BlueField DPU health: " (dpu_health_body gw)).

(** ** The managed-cluster client: [OCMManager] and its two tools *)

Module OCM.

#[local] Unset Elimination Schemes.
Inductive json :=
| JNull
| JBool (b : bool)
| JNum (n : Z)
| JStr (s : string)
| JArr (items : list json)
| JObj (fields : list (string * json)).
#[local] Set Elimination Schemes.

(** Truth value of a decoded document. *)
Definition truthy (j : json) : bool :=
  match j with
  | JNull => false
  | JBool b => b
  | JNum n => negb (n =? 0)%Z
  | JStr s => negb (String.eqb s EmptyString)
  | JArr items => match items with [] => false | _ => true end
  | JObj fields => match fields with [] => false | _ => true end
  end.

(** A decoded object keeps the last value of a repeated key. *)
Fixpoint obj_lookup (key : string) (fields : list (string * json)) : option json :=
  match fields with
  | [] => None
  | (k, v) :: rest =>
      match obj_lookup key rest with
      | Some v' => Some v'
      | None => if String.eqb k key then Some v else None
      end
  end.

(** [d.get(key, default)]: an [AttributeError] when [d] is no object. *)
Definition dict_get (d : json) (key : string) (default : json) : exc json :=
  match d with
  | JObj fields =>
      Ok (match obj_lookup key fields with
          | Some v => v
          | None => default
          end)
  | _ => Raise "object has no attribute 'get'"
  end.

Definition is_str (s : string) (j : json) : bool :=
  match j with
  | JStr s' => String.eqb s s'
  | _ => false
  end.

(** [key in data] *)
Definition contains_key (key : string) (data : json) : exc bool :=
  match data with
  | JObj fields => Ok (is_some (obj_lookup key fields))
  | JArr items => Ok (existsb (is_str key) items)
  | JStr s => Ok (str_in key s)
  | _ => Raise "argument is not iterable"
  end.

(** [data[key]] for a text key *)
Definition getitem (data : json) (key : string) : exc json :=
  match data with
  | JObj fields =>
      match obj_lookup key fields with
      | Some v => Ok v
      | None => Raise "KeyError"
      end
  | _ => Raise "indices must be integers"
  end.

(** The elements visited by [for x in v]. *)
Definition iterate (v : json) : exc (list json) :=
  match v with
  | JArr items => Ok items
  | JObj fields => Ok (List.map (fun kv => JStr kv.1) fields)
  | JStr s => Ok (List.map (fun c => JStr (String c EmptyString)) (list_ascii_of_string s))
  | _ => Raise "object is not iterable"
  end.

Record Response := {
  raise_for_status : exc unit;
  response_json : exc json
}.

Record Env := {
  client_id : option string;             (* [os.environ.get("OCM_CLIENT_ID")] *)
  offline_token : option string;
  access_token_url : option string;
  mcp_transport : string;                (* [MCP_TRANSPORT] *)
  ocm_api_base : string;                 (* [OCM_API_BASE] *)
  (* the header "X-OCM-Offline-Token" of the current request *)
  header_offline_token : exc (option string);
  (* client.post(url, data={grant_type, client_id, refresh_token}) *)
  http_post : string -> option string -> option string -> exc Response;
  (* client.get(url, headers={"Authorization": f"Bearer {token}", ...}) *)
  http_get : string -> json -> exc Response
}.

Definition set (v : option string) : bool :=
  match v with
  | Some (String _ _) => true
  | _ => false
  end.

(** [OCMManager.is_available] *)
Definition is_available (env : Env) : bool :=
  forallb set [client_id env; offline_token env; access_token_url env].

(** The refresh token chosen before the [try]. *)
Definition refresh_token (env : Env) : exc (option string) :=
  if String.eqb (mcp_transport env) "stdio" then Ok (offline_token env)
  else header_offline_token env.

(** The first three lines of the [try]: the token exchange. *)
Definition token_exchange (env : Env) (refresh : option string) : exc json :=
  response ← http_post env (default EmptyString (access_token_url env)) (client_id env) refresh;
  _ ← raise_for_status response;
  body ← response_json response;
  dict_get body "access_token" JNull.

(** The last three lines of the [try]: the authenticated GET. *)
Definition authenticated_get (env : Env) (url : string) (token : json) : exc json :=
  response ← http_get env url token;
  _ ← raise_for_status response;
  response_json response.

(** [OCMManager.make_request]: [Ok None] is the returned [None]; a [Raise]
    is an exception that leaves the method.  The client of
    [async with httpx.AsyncClient()], which is opened and closed outside the
    [try], is taken to open and close without error. *)
Definition make_request (env : Env) (url : string) : exc (option json) :=
  if negb (is_available env) then Ok None
  else
    refresh ← refresh_token env;
    match (token ← token_exchange env refresh; authenticated_get env url token) with
    | Ok data => Ok (Some data)
    | Raise _ => Ok None
    end.

Inductive out (A : Type) : Type :=
| Text (s : string)
| Dumped (a : A).
Arguments Text {A} s.
Arguments Dumped {A} a.

(** [for x in data["items"]: rows.append(row(x))] *)
Fixpoint rows_of {A} (row : json -> exc A) (items : list json) : exc (list A) :=
  match items with
  | [] => Ok []
  | x :: rest =>
      r ← row x;
      rs ← rows_of row rest;
      Ok (r :: rs)
  end.

(** The common shape of the two tools after [make_request]. *)
Definition listing {A} (data : option json) (nothing : string)
    (row : json -> exc A) : exc (out (list A)) :=
  match data with
  | None => Ok (Text nothing)
  | Some d =>
      if negb (truthy d) then Ok (Text nothing)
      else
        has_items ← contains_key "items" d;
        if negb has_items then Ok (Text nothing)
        else
          v ← getitem d "items";
          items ← iterate v;
          rows ← rows_of row items;
          Ok (Dumped rows)
  end.

Record ClusterRow := {
  cl_name : json; cl_id : json; cl_api_url : json; cl_console_url : json;
  cl_state : json; cl_openshift_version : json; cl_product : json;
  cl_cloud_provider : json; cl_region : json
}.

(** [cluster.get(outer, {}).get(inner, "N/A")] *)
Definition nested_get (cluster : json) (outer inner : string) : exc json :=
  o ← dict_get cluster outer (JObj []);
  dict_get o inner (JStr "N/A").

Definition cluster_row (cluster : json) : exc ClusterRow :=
  name ← dict_get cluster "name" (JStr "N/A");
  id ← dict_get cluster "id" (JStr "N/A");
  api_url ← nested_get cluster "api" "url";
  console_url ← nested_get cluster "console" "url";
  state ← dict_get cluster "state" (JStr "N/A");
  openshift_version ← dict_get cluster "openshift_version" (JStr "N/A");
  product ← nested_get cluster "product" "id";
  cloud_provider ← nested_get cluster "cloud_provider" "id";
  region ← nested_get cluster "region" "id";
  Ok {| cl_name := name; cl_id := id; cl_api_url := api_url;
        cl_console_url := console_url; cl_state := state;
        cl_openshift_version := openshift_version; cl_product := product;
        cl_cloud_provider := cloud_provider; cl_region := region |}.

Definition ocm_get_clusters (env : Env) : exc (out (list ClusterRow)) :=
  if negb (is_available env) then
    Ok (Text "OCM API not available. Set OCM_CLIENT_ID, OCM_OFFLINE_TOKEN, and ACCESS_TOKEN_URL.")
  else
    data ← make_request env (ocm_api_base env +:+ "/api/clusters_mgmt/v1/clusters");
    listing data "No clusters found or invalid response." cluster_row.

Record LogRow := {
  lg_service_name : json; lg_id : json; lg_description : json;
  lg_timestamp : json; lg_severity : json; lg_summary : json
}.

Definition log_row (log : json) : exc LogRow :=
  service_name ← dict_get log "service_name" (JStr "N/A");
  id ← dict_get log "id" (JStr "N/A");
  description ← dict_get log "description" (JStr EmptyString);
  timestamp ← dict_get log "timestamp" (JStr "N/A");
  severity ← dict_get log "severity" (JStr "N/A");
  summary ← dict_get log "summary" (JStr EmptyString);
  Ok {| lg_service_name := service_name; lg_id := id;
        lg_description := description; lg_timestamp := timestamp;
        lg_severity := severity; lg_summary := summary |}.

Definition ocm_get_cluster_logs (env : Env) (cluster_id : string)
  : exc (out (list LogRow)) :=
  if negb (is_available env) then Ok (Text "OCM API not available")
  else
    data ← make_request env
             (ocm_api_base env +:+ "/api/service_logs/v1/clusters/cluster_logs?cluster_id="
              +:+ cluster_id);
    listing data "No logs found or invalid response." log_row.

End OCM.

(** ** Definitions that follow the specification *)

(** Modelled from the spec: the gateway call
    [getPodLogs(namespace, name, tailLines)], which lives in the cluster
    and not in this repository: the answer is the text of the last
    [tailLines] lines of the stored log. *)
Definition tail_of (lines : Z) (log : list string) : list string :=
  skipn (List.length log - Z.to_nat lines) log.

Definition get_pod_logs (store : string -> string -> option (list string))
    (name namespace : string) (tail_lines : Z) : exc string :=
  match store namespace name with
  | Some log => Ok (join_lines (tail_of tail_lines log))
  | None => Raise "NotFound"
  end.

(** A gateway whose pod logs come from [store]. *)
Definition with_log_store (gw : Gateway)
    (store : string -> string -> option (list string)) : Gateway :=
  {| v1_present := v1_present gw;
     dynamic_client_present := dynamic_client_present gw;
     list_csv := list_csv gw;
     get_csv := get_csv gw;
     list_subscription_for_all_namespaces := list_subscription_for_all_namespaces gw;
     list_namespaced_subscription := list_namespaced_subscription gw;
     list_helm_chart_repository := list_helm_chart_repository gw;
     list_deployment_for_all_namespaces := list_deployment_for_all_namespaces gw;
     list_namespaced_deployment := list_namespaced_deployment gw;
     list_pod_for_all_namespaces := list_pod_for_all_namespaces gw;
     list_namespaced_pod := list_namespaced_pod gw;
     read_namespaced_pod_log := get_pod_logs store;
     list_event_for_all_namespaces := list_event_for_all_namespaces gw;
     list_namespaced_event := list_namespaced_event gw;
     list_build_for_all_namespaces := list_build_for_all_namespaces gw;
     list_namespaced_build := list_namespaced_build gw;
     list_node := list_node gw |}.

(** The spec's single classifier: some name, label key or value, annotation
    key or value, or resource key contains some keyword, without regard to
    case. *)
Record Candidate := {
  cand_name : string;
  cand_labels : gmap string string;
  cand_annotations : gmap string string;
  cand_resource_keys : list string
}.

Definition pair_texts (m : gmap string string) : list string :=
  flat_map (fun kv => [kv.1; kv.2]) (map_to_list m).

Definition candidate_texts (c : Candidate) : list string :=
  cand_name c :: pair_texts (cand_labels c) ++ pair_texts (cand_annotations c)
  ++ cand_resource_keys c.

Definition spec_classify (c : Candidate) (taxonomy : list string) : bool :=
  existsb (fun text => existsb (fun keyword => in_lower keyword text) taxonomy)
          (candidate_texts c).

Definition gpu_taxonomy : list string := ["nvidia.com"; "gpu"; "cuda"].

Definition keys_of (m : option (gmap string string)) : list string :=
  match m with
  | Some d => List.map fst (map_to_list d)
  | None => []
  end.

Definition node_candidate (node : Node) : Candidate :=
  {| cand_name := node_name node;
     cand_labels := default ∅ (node_labels node);
     cand_annotations := default ∅ (node_annotations node);
     cand_resource_keys := keys_of (node_allocatable node) |}.

(** The spec's tag of a resolution: the strategy that produced the pods. *)
Inductive ResolutionMethod := OwnerChain | NameHeuristic | NoMethod.

Definition resolution_method (gw : Gateway) (operator_name project : string)
  : exc ResolutionMethod :=
  operator_pods ← method1 gw operator_name project;
  match operator_pods with
  | _ :: _ => mret OwnerChain
  | [] =>
      found ← method2 gw operator_name project [];
      mret (match found with
            | [] => NoMethod
            | _ :: _ => NameHeuristic
            end)
  end.

(** A container of [pod] declares, as a request or as a limit, the
    resource [key] with quantity [quantity]. *)
Definition declares (pick : Resources -> option (gmap string string))
    (pod : Pod) (key quantity : string) : Prop :=
  ∃ container res items,
    In container (containers_of pod)
    ∧ container_resources container = Some res
    ∧ pick res = Some items
    ∧ items !! key = Some quantity.

(** The key contains "nvidia.com", or contains "gpu" in any letter case. *)
Definition gpu_key (key : string) : Prop :=
  (∃ a b, key = a +:+ "nvidia.com" +:+ b)
  ∨ (∃ a b, lower key = a +:+ "gpu" +:+ b).

Definition declares_gpu (pod : Pod) : Prop :=
  ∃ key quantity,
    gpu_key key
    ∧ (declares res_requests pod key quantity ∨ declares res_limits pod key quantity).

(** ** Sample clusters *)

Definition quiet_gateway : Gateway :=
  {| v1_present := true;
     dynamic_client_present := true;
     list_csv := fun _ => Ok [];
     get_csv := fun _ _ => Raise "NotFound";
     list_subscription_for_all_namespaces := Ok [];
     list_namespaced_subscription := fun _ => Ok [];
     list_helm_chart_repository := Ok [];
     list_deployment_for_all_namespaces := Ok [];
     list_namespaced_deployment := fun _ => Ok [];
     list_pod_for_all_namespaces := Ok [];
     list_namespaced_pod := fun _ => Ok [];
     read_namespaced_pod_log := fun _ _ _ => Raise "NotFound";
     list_event_for_all_namespaces := fun _ => Ok [];
     list_namespaced_event := fun _ _ => Ok [];
     list_build_for_all_namespaces := Ok [];
     list_namespaced_build := fun _ => Ok [];
     list_node := Ok [] |}.

(** A cluster with the given answers for CSVs, deployments and pods. *)
Definition workload_gateway (csvs : exc (list CSV))
    (deployments : list Deployment) (pods : list Pod) : Gateway :=
  {| v1_present := true;
     dynamic_client_present := true;
     list_csv := fun _ => csvs;
     get_csv := fun _ _ => Raise "NotFound";
     list_subscription_for_all_namespaces := Ok [];
     list_namespaced_subscription := fun _ => Ok [];
     list_helm_chart_repository := Ok [];
     list_deployment_for_all_namespaces := Ok deployments;
     list_namespaced_deployment := fun _ => Ok deployments;
     list_pod_for_all_namespaces := Ok pods;
     list_namespaced_pod := fun _ => Ok pods;
     read_namespaced_pod_log := fun _ _ _ => Raise "NotFound";
     list_event_for_all_namespaces := fun _ => Ok [];
     list_namespaced_event := fun _ _ => Ok [];
     list_build_for_all_namespaces := Ok [];
     list_namespaced_build := fun _ => Ok [];
     list_node := Ok [] |}.

Definition sample_csv (name : string) : CSV :=
  {| csv_name := name; csv_display_name := name; csv_version := "1.0.0";
     csv_description := EmptyString; csv_phase := "Succeeded"; csv_owned := [] |}.

Definition sample_deployment (name : string) (owners : option (list OwnerReference))
  : Deployment :=
  {| dep_name := name; dep_namespace := "apps"; dep_labels := Some {[ "app" := name ]};
     dep_replicas := 1; dep_ready_replicas := Some 1%Z; dep_image := None;
     dep_creation_timestamp := "2024-01-01"; dep_owner_references := owners |}.

Definition sample_pod (name : string) (owners : option (list OwnerReference))
    (containers : option (list Container)) : Pod :=
  {| pod_name := name; pod_namespace := "apps"; pod_phase := "Running";
     pod_container_statuses := Some [true]; pod_creation_timestamp := "2024-01-01";
     pod_node_name := "node-1"; pod_owner_references := owners;
     pod_containers := containers |}.

Definition owned_by (kind name : string) : option (list OwnerReference) :=
  Some [ {| owner_kind := kind; owner_name := name |} ].

(** The workload "web" of the CSV "web.v1", one pod of its replica set
    "web-7f9c9" and one pod of the foreign replica set "webhook-abc". *)
Definition web_deployment : Deployment :=
  sample_deployment "web" (owned_by "ClusterServiceVersion" "web.v1").
Definition web_pod : Pod :=
  sample_pod "web-7f9c9-x2x4z" (owned_by "ReplicaSet" "web-7f9c9") None.
Definition webhook_pod : Pod :=
  sample_pod "webhook-abc-k8s2p" (owned_by "ReplicaSet" "webhook-abc") None.
Definition web_cluster : Gateway :=
  workload_gateway (Ok [sample_csv "web.v1"]) [web_deployment] [web_pod; webhook_pod].


(** The CSV "web.v1" without any workload of its own. *)
Definition csv_without_workload : Gateway :=
  workload_gateway (Ok [sample_csv "web.v1"]) [] [web_pod; webhook_pod].

(** No CSV at all, and the pod of "web" alone. *)
Definition lone_pod_cluster : Gateway :=
  workload_gateway (Ok []) [] [web_pod].

(** The CSV lookup fails while a pod named after the operator runs. *)
Definition gpu_operator_pod : Pod := sample_pod "gpu-operator-7d9f" None None.
Definition csv_down_cluster : Gateway :=
  workload_gateway (Raise "503 Service Unavailable") [] [gpu_operator_pod].

(** Three pods whose logs mention an error; the log of the second one
    cannot be fetched. *)
Definition three_pod_store (namespace name : string) : option (list string) :=
  if String.eqb name "p1" then Some ["INFO started"; "ERROR disk full"]
  else if String.eqb name "p3" then Some ["error: retrying"; "INFO done"]
  else None.

Definition three_pod_cluster : Gateway :=
  with_log_store
    (workload_gateway (Ok []) []
       [sample_pod "p1" None None; sample_pod "p2" None None; sample_pod "p3" None None])
    three_pod_store.

(** A log of twenty lines; the query text is on the fifteenth line from
    the end. *)
Definition twenty_lines : list string :=
  ["l01"; "l02"; "l03"; "l04"; "l05"; "needle here"; "l07"; "l08"; "l09"; "l10";
   "l11"; "l12"; "l13"; "l14"; "l15"; "l16"; "l17"; "l18"; "l19"; "l20"].

Definition twenty_line_cluster : Gateway :=
  with_log_store (workload_gateway (Ok []) [] [sample_pod "p1" None None])
                 (fun _ _ => Some twenty_lines).

(** The log store that keeps only the last [lines] lines of every log. *)
Definition truncated (store : string -> string -> option (list string))
    (lines : Z) (namespace name : string) : option (list string) :=
  tail_of lines <$> store namespace name.

(** ** Auxiliary views of the scans *)

(** The part of the scan of [get_gpu_workloads] that fills one dictionary:
    [pick] is [res_requests] or [res_limits]. *)
Definition scan_dict (pick : Resources -> option (gmap string string))
    (out : gmap string string) (containers : list Container) : gmap string string :=
  foldl (fun out container =>
           match container_resources container with
           | Some res => dict_collect_opt is_gpu_resource (pick res) out
           | None => out
           end) out containers.

(** Some key of the dictionary passes [keep]. *)
Definition dict_hits (keep : string -> bool) (items : option (gmap string string))
  : bool :=
  match items with
  | Some m => existsb (fun kv => keep kv.1) (map_to_list m)
  | None => false
  end.

Definition container_hits (container : Container) : bool :=
  match container_resources container with
  | Some res =>
      dict_hits is_gpu_resource (res_requests res)
      || dict_hits is_gpu_resource (res_limits res)
  | None => false
  end.

(** A gateway that lists the given nodes. *)
Definition with_nodes (gw : Gateway) (nodes : exc (list Node)) : Gateway :=
  {| v1_present := v1_present gw;
     dynamic_client_present := dynamic_client_present gw;
     list_csv := list_csv gw;
     get_csv := get_csv gw;
     list_subscription_for_all_namespaces := list_subscription_for_all_namespaces gw;
     list_namespaced_subscription := list_namespaced_subscription gw;
     list_helm_chart_repository := list_helm_chart_repository gw;
     list_deployment_for_all_namespaces := list_deployment_for_all_namespaces gw;
     list_namespaced_deployment := list_namespaced_deployment gw;
     list_pod_for_all_namespaces := list_pod_for_all_namespaces gw;
     list_namespaced_pod := list_namespaced_pod gw;
     read_namespaced_pod_log := read_namespaced_pod_log gw;
     list_event_for_all_namespaces := list_event_for_all_namespaces gw;
     list_namespaced_event := list_namespaced_event gw;
     list_build_for_all_namespaces := list_build_for_all_namespaces gw;
     list_namespaced_build := list_namespaced_build gw;
     list_node := nodes |}.

(** A pod with a GPU limit next to a pod without one. *)
Definition trainer_pod : Pod :=
  sample_pod "trainer-0" None
    (Some [ {| container_resources :=
                 Some {| res_requests := Some {[ "cpu" := "2" ]};
                         res_limits := Some {[ "nvidia.com/gpu" := "1" ]} |} |} ]).

Definition plain_pod : Pod :=
  sample_pod "web-0" None
    (Some [ {| container_resources :=
                 Some {| res_requests := Some {[ "cpu" := "1" ]};
                         res_limits := None |} |} ]).

Definition gpu_cluster : Gateway :=
  workload_gateway (Ok []) [] [trainer_pod; plain_pod].

(** A node that is a GPU node by its name and by a label value only. *)
Definition gpu_named_node : Node :=
  {| node_name := "gpu-worker-1";
     node_labels := Some {[ "accelerator" := "NVIDIA-A100" ]};
     node_annotations := None;
     node_taints := None;
     node_allocatable := Some {[ "cpu" := "64" ]};
     node_conditions := None |}.

Definition gpu_named_cluster : Gateway :=
  with_nodes quiet_gateway (Ok [gpu_named_node]).

(** The wall-clock time of the sample reports. *)
Definition sample_now : string := "2024-01-01T00:00:00".

(** ** Failure of a managed-cluster request *)

(** The token exchange fails, or it succeeds and the authenticated GET of
    [url] fails. *)
Definition request_fails (env : OCM.Env) (url : string) (refresh : option string)
  : Prop :=
  (∃ e, OCM.token_exchange env refresh = Raise e)
  ∨ (∃ token e, OCM.token_exchange env refresh = Ok token
                ∧ OCM.authenticated_get env url token = Raise e).

Definition clusters_url (env : OCM.Env) : string :=
  OCM.ocm_api_base env +:+ "/api/clusters_mgmt/v1/clusters".

Definition cluster_logs_url (env : OCM.Env) (cluster_id : string) : string :=
  OCM.ocm_api_base env +:+ "/api/service_logs/v1/clusters/cluster_logs?cluster_id="
  +:+ cluster_id.

(** An OCM environment on the stdio transport with the given HTTP answers. *)
Definition ocm_env (post : exc OCM.Response) (get : exc OCM.Response) : OCM.Env :=
  {| OCM.client_id := Some "cloud-services";
     OCM.offline_token := Some "offline";
     OCM.access_token_url := Some "https://sso.example/token";
     OCM.mcp_transport := "stdio";
     OCM.ocm_api_base := "https://api.openshift.com";
     OCM.header_offline_token := Raise "no request context";
     OCM.http_post := fun _ _ _ => post;
     OCM.http_get := fun _ _ => get |}.

Definition token_response : OCM.Response :=
  {| OCM.raise_for_status := Ok tt;
     OCM.response_json := Ok (OCM.JObj [("access_token", OCM.JStr "bearer")]) |}.

Definition unauthorized_response : OCM.Response :=
  {| OCM.raise_for_status := Raise "401 Unauthorized";
     OCM.response_json := Ok (OCM.JObj []) |}.

Definition clusters_response : OCM.Response :=
  {| OCM.raise_for_status := Ok tt;
     OCM.response_json :=
       Ok (OCM.JObj [("items", OCM.JArr [OCM.JObj [("name", OCM.JStr "prod")]])]) |}.

(** The token endpoint cannot be reached. *)
Definition sso_down : OCM.Env := ocm_env (Raise "ConnectTimeout") (Ok clusters_response).
(** The token is issued and the API refuses the GET. *)
Definition api_refuses : OCM.Env := ocm_env (Ok token_response) (Ok unauthorized_response).
(** Both steps succeed. *)
Definition ocm_up : OCM.Env := ocm_env (Ok token_response) (Ok clusters_response).

(** ** More sample clusters *)

(** The pods "a", "b", ... of a cluster with [n] pods. *)
Definition letter_pods (n : nat) : list Pod :=
  List.map (fun i => sample_pod (String (ascii_of_nat (97 + i)) EmptyString) None None)
           (seq 0 n).

(** Twenty-one pods, each with the same one-line log. *)
Definition crowded_cluster : Gateway :=
  with_log_store (workload_gateway (Ok []) [] (letter_pods 21))
                 (fun _ _ => Some ["ERROR out of memory"]).

(** The string holds no line break. *)
Fixpoint one_line (s : string) : bool :=
  match s with
  | EmptyString => true
  | String c s' => negb (Ascii.eqb c newline) && one_line s'
  end.





(** Two lines "up" and "down" in one log; the query "up" with a line break
    and "down" after it spans both. *)
Definition two_line_query : string :=
  String "u" (String "p" (String newline "down")).

Definition two_line_cluster : Gateway :=
  with_log_store (workload_gateway (Ok []) [] [sample_pod "p1" None None])
                 (fun _ _ => Some ["up"; "down"]).

(** ** [search_bluefield_dpu_logs] *)

Definition gpu_keywords : list string := ["gpu"; "nvidia"; "cuda"; "dcgm"; "mig"].

Definition dpu_keywords : list string :=
  ["bluefield"; "dpu"; "mellanox"; "connectx"; "ofed"; "rdma"; "sriov"].

Definition search_bluefield_dpu_logs (gw : Gateway) (query log_type : string)
    (lines : Z) : tool_out (list TaggedHit) :=
  when_available gw
    (Json
       (tagged_search "nvidia-network-operator"
          (search_all_logs gw query "nvidia-network-operator" log_type lines)
        ++ tagged_search "openshift-sriov-network-operator"
             (search_all_logs gw query "openshift-sriov-network-operator" log_type lines)
        ++ (if existsb (fun keyword => in_lower keyword query) dpu_keywords
            then tagged_search "cluster-wide"
                   (search_all_logs gw query "all" log_type (lines / 7))
            else []))).

(** The query mentions one of the keywords, letter case ignored. *)
Definition mentions (keywords : list string) (query : string) : Prop :=
  ∃ keyword a b, In keyword keywords ∧ lower query = a +:+ keyword +:+ b.

(** A hit of the search of one scope, with the window it was made with. *)
Definition found_in (gw : Gateway) (query scope log_type : string) (lines : Z)
    (hit : Hit) : Prop :=
  ∃ hits, search_all_logs gw query scope log_type lines = Json hits ∧ In hit hits.

(** One pod whose log has the single line [line]. *)
Definition one_log_cluster (line : string) : Gateway :=
  with_log_store (workload_gateway (Ok []) [] [sample_pod "p1" None None])
                 (fun _ _ => Some [line]).

Definition tag (source_type : string) (hit : Hit) : TaggedHit :=
  {| th_hit := hit; th_source_type := source_type |}.

(** A gateway with another answer for the subscription listings. *)
Definition with_subscriptions (gw : Gateway) (subs : exc (list Subscription))
  : Gateway :=
  {| v1_present := v1_present gw;
     dynamic_client_present := dynamic_client_present gw;
     list_csv := list_csv gw;
     get_csv := get_csv gw;
     list_subscription_for_all_namespaces := subs;
     list_namespaced_subscription := fun _ => subs;
     list_helm_chart_repository := list_helm_chart_repository gw;
     list_deployment_for_all_namespaces := list_deployment_for_all_namespaces gw;
     list_namespaced_deployment := list_namespaced_deployment gw;
     list_pod_for_all_namespaces := list_pod_for_all_namespaces gw;
     list_namespaced_pod := list_namespaced_pod gw;
     read_namespaced_pod_log := read_namespaced_pod_log gw;
     list_event_for_all_namespaces := list_event_for_all_namespaces gw;
     list_namespaced_event := list_namespaced_event gw;
     list_build_for_all_namespaces := list_build_for_all_namespaces gw;
     list_namespaced_build := list_namespaced_build gw;
     list_node := list_node gw |}.

(** The subscription of the GPU operator; its CSV cannot be read on
    [quiet_gateway]. *)
Definition gpu_subscription : Subscription :=
  {| sub_name := "gpu-operator-certified"; sub_namespace := "nvidia-gpu-operator";
     sub_package := "gpu-operator-certified"; sub_channel := "stable";
     sub_source := "certified-operators";
     sub_source_namespace := "openshift-marketplace";
     sub_current_csv := Some "gpu-operator-certified.v24.3.0";
     sub_creation_timestamp := "2024-01-01T00:00:00Z" |}.

Definition subscribed_cluster : Gateway :=
  with_subscriptions quiet_gateway (Ok [gpu_subscription]).

(** Neither subscriptions nor deployments can be listed. *)
Definition blind_cluster : Gateway :=
  {| v1_present := true;
     dynamic_client_present := true;
     list_csv := fun _ => Ok [];
     get_csv := fun _ _ => Raise "NotFound";
     list_subscription_for_all_namespaces := Raise "403 Forbidden";
     list_namespaced_subscription := fun _ => Raise "403 Forbidden";
     list_helm_chart_repository := Ok [];
     list_deployment_for_all_namespaces := Raise "403 Forbidden";
     list_namespaced_deployment := fun _ => Raise "403 Forbidden";
     list_pod_for_all_namespaces := Ok [];
     list_namespaced_pod := fun _ => Ok [];
     read_namespaced_pod_log := fun _ _ _ => Raise "NotFound";
     list_event_for_all_namespaces := fun _ => Ok [];
     list_namespaced_event := fun _ _ => Ok [];
     list_build_for_all_namespaces := Ok [];
     list_namespaced_build := fun _ => Ok [];
     list_node := Ok [] |}.

(** The integer under a key of a summary. *)
Definition count_of (summary : gmap string SVal) (key : string) : option Z :=
  match summary !! key with
  | Some (SInt n) => Some n
  | _ => None
  end.

(** ** Auxiliary views of the DPU scan *)

(** The three branches of the [if / elif / elif] of [dpu_item], each with the
    tests of the branches before it negated. *)
Definition keep_dpu (key : string) : bool :=
  str_in "nvidia.com/dpu" key || str_in "nvidia.com/bluefield" key.

Definition keep_sriov (key : string) : bool :=
  negb (keep_dpu key) && str_in "sriov" (lower key).

Definition keep_rdma (key : string) : bool :=
  negb (keep_dpu key) && negb (str_in "sriov" (lower key)) && str_in "rdma" (lower key).

Definition keep_any (key : string) : bool :=
  keep_dpu key || keep_sriov key || keep_rdma key.

(** The part of a scan over containers that fills one dictionary with the
    keys that pass [keep]. *)
Definition scan_with (keep : string -> bool)
    (pick : Resources -> option (gmap string string))
    (out : gmap string string) (containers : list Container) : gmap string string :=
  foldl (fun out container =>
           match container_resources container with
           | Some res => dict_collect_opt keep (pick res) out
           | None => out
           end) out containers.

Definition scan_dicts (pick : Resources -> option (gmap string string))
    (out : DpuDicts) (containers : list Container) : DpuDicts :=
  {| dd_dpu := scan_with keep_dpu pick (dd_dpu out) containers;
     dd_sriov := scan_with keep_sriov pick (dd_sriov out) containers;
     dd_rdma := scan_with keep_rdma pick (dd_rdma out) containers |}.

Definition dpu_container_hits (container : Container) : bool :=
  match container_resources container with
  | Some res => dict_hits keep_any (res_requests res) || dict_hits keep_any (res_limits res)
  | None => false
  end.

(** A pod that asks for a BlueField device. *)
Definition bluefield_pod : Pod :=
  sample_pod "dpu-agent-0" None
    (Some [ {| container_resources :=
                 Some {| res_requests := Some {[ "nvidia.com/bluefield-3" := "1" ]};
                         res_limits := Some {[ "openshift.io/sriov-rdma" := "2" ]} |} |} ]).

Definition bluefield_cluster : Gateway :=
  workload_gateway (Ok []) [] [bluefield_pod; plain_pod].

(** A node with DPU annotations only, and a node with a network resource. *)
Definition annotated_node : Node :=
  {| node_name := "worker-1"; node_labels := None;
     node_annotations := Some {[ "nvidia.com/dpu-mode" := "embedded" ]};
     node_taints := None; node_allocatable := Some {[ "cpu" := "64" ]};
     node_conditions := None |}.

Definition gpu_node : Node :=
  {| node_name := "worker-2";
     node_labels := Some {[ "nvidia.com/gpu.present" := "true" ]};
     node_annotations := None; node_taints := None;
     node_allocatable := Some (<[ "nvidia.com/gpu" := "8" ]> {[ "cpu" := "64" ]});
     node_conditions :=
       Some [ {| cond_type := "Ready"; cond_status := "True";
                 cond_reason := "KubeletReady"; cond_message := "ok" |};
              {| cond_type := "MemoryPressure"; cond_status := "False";
                 cond_reason := "KubeletHasSufficientMemory"; cond_message := "ok" |} ] |}.

Definition node_cluster : Gateway :=
  with_nodes quiet_gateway (Ok [annotated_node; gpu_node]).

(** ** [get_comprehensive_logs] *)

Definition nl : string := String newline EmptyString.

(** [f"=== Pod Logs: {resource_name} ===\n{logs}\n"] *)
Definition pod_section (resource_name logs : string) : string :=
  "=== Pod Logs: " +:+ resource_name +:+ " ===" +:+ nl +:+ logs +:+ nl.

(** The body of the loop over the pods of an operator: the log of the pod,
    or the error of its fetch, under the same heading. *)
Definition operator_pod_section (gw : Gateway) (lines : Z) (pod : PodEntry) : string :=
  match read_namespaced_pod_log gw (pe_name pod) (pe_namespace pod) lines with
  | Ok logs => "=== Operator Pod: " +:+ pe_name pod +:+ " ===" +:+ nl +:+ logs +:+ nl
  | Raise e =>
      "=== Operator Pod: " +:+ pe_name pod +:+ " ===" +:+ nl +:+ "Error: " +:+ e +:+ nl
  end.

Definition pod_log_sections (gw : Gateway)
    (resource_type resource_name project : string) (lines : Z) : list string :=
  match (if String.eqb resource_type "pod" then
           logs ← read_namespaced_pod_log gw resource_name project lines;
           mret [pod_section resource_name logs]
         else if String.eqb resource_type "operator" then
           pods ← json_loads (get_operator_pods gw resource_name project);
           mret (List.map (operator_pod_section gw lines) pods)
         else mret []) with
  | Ok sections => sections
  | Raise e => ["Error getting pod logs: " +:+ e]
  end.

(** [f"[{event.last_timestamp}] {event.type}: {event.reason} - {event.message}"] *)
Definition event_line (event : Event) : string :=
  "[" +:+ ev_last_timestamp event +:+ "] " +:+ ev_type event +:+ ": "
  +:+ ev_reason event +:+ " - " +:+ ev_message event.

(** [list_events] is [v1.list_namespaced_event(project)], called here
    without a limit. *)
Definition event_sections (list_events : string -> exc (list Event))
    (resource_name project : string) : list string :=
  match list_events project with
  | Ok events =>
      match List.map event_line
              (List.filter (fun event => in_lower resource_name (ev_involved_name event))
                           events) with
      | [] => []
      | line :: more =>
          ["=== Related Events ===" +:+ nl +:+ join_lines (line :: more) +:+ nl]
      end
  | Raise e => ["Error getting events: " +:+ e]
  end.

(** The loop over [builds.items]: the first log that cannot be fetched ends
    the loop ([except: pass] around the whole loop) and keeps what was
    appended before. *)
Fixpoint build_sections (gw : Gateway) (resource_name project : string)
    (builds : list Build) : list string :=
  match builds with
  | [] => []
  | build :: rest =>
      if in_lower resource_name (build_name build) then
        match get_build_log gw (build_name build) project with
        | Ok build_logs =>
            ("=== Build Logs: " +:+ build_name build +:+ " ===" +:+ nl
             +:+ build_logs +:+ nl)
            :: build_sections gw resource_name project rest
        | Raise _ => []
        end
      else build_sections gw resource_name project rest
  end.

Definition build_log_sections (gw : Gateway) (resource_name project : string)
  : list string :=
  match list_namespaced_build gw project with
  | Ok builds => build_sections gw resource_name project builds
  | Raise _ => []
  end.

(** [log_type in ["all", kind]] *)
Definition log_type_in (log_type kind : string) : bool :=
  String.eqb log_type "all" || String.eqb log_type kind.

Definition comprehensive_sections (gw : Gateway)
    (list_events : string -> exc (list Event))
    (resource_type resource_name project log_type : string) (lines : Z)
  : list string :=
  (if log_type_in log_type "pod"
   then pod_log_sections gw resource_type resource_name project lines else [])
  ++ (if log_type_in log_type "events"
      then event_sections list_events resource_name project else [])
  ++ (if log_type_in log_type "build"
      then build_log_sections gw resource_name project else []).

Definition no_logs_found (resource_type resource_name project : string) : string :=
  "No logs found for " +:+ resource_type +:+ "/" +:+ resource_name
  +:+ " in project " +:+ project.

Definition get_comprehensive_logs (gw : Gateway)
    (list_events : string -> exc (list Event))
    (resource_type resource_name project log_type : string) (lines : Z) : string :=
  if negb (is_available gw) then "OpenShift API not available"
  else
    match comprehensive_sections gw list_events resource_type resource_name
            project log_type lines with
    | [] => no_logs_found resource_type resource_name project
    | section :: more => join_lines (section :: more)
    end.

(** The section of [pod] starts with the heading of that pod. *)
Definition headed (pod : PodEntry) (section : string) : Prop :=
  ∃ body, section = "=== Operator Pod: " +:+ pe_name pod +:+ " ===" +:+ nl +:+ body.

(** ** Well-formed cluster items of the OCM answer *)

(** The value under [outer] is absent or an object. *)
Definition nested_ok (fields : list (string * OCM.json)) (outer : string) : bool :=
  match OCM.obj_lookup outer fields with
  | None => true
  | Some (OCM.JObj _) => true
  | Some _ => false
  end.

Definition cluster_ok (cluster : OCM.json) : bool :=
  match cluster with
  | OCM.JObj fields =>
      forallb (nested_ok fields) ["api"; "console"; "product"; "cloud_provider"; "region"]
  | _ => false
  end.

(** An OCM environment that reads the refresh token from the request
    header, outside of any request. *)
Definition sse_env : OCM.Env :=
  {| OCM.client_id := Some "cloud-services";
     OCM.offline_token := Some "offline";
     OCM.access_token_url := Some "https://sso.example/token";
     OCM.mcp_transport := "sse";
     OCM.ocm_api_base := "https://api.openshift.com";
     OCM.header_offline_token := Raise "Context is not available outside of a request";
     OCM.http_post := fun _ _ _ => Ok token_response;
     OCM.http_get := fun _ _ => Ok clusters_response |}.

Definition json_response (body : OCM.json) : OCM.Response :=
  {| OCM.raise_for_status := Ok tt; OCM.response_json := Ok body |}.

(** The API answers the GET with [body]. *)
Definition ocm_answering (body : OCM.json) : OCM.Env :=
  ocm_env (Ok token_response) (Ok (json_response body)).

(** Deployments named like a controller and like a plain workload. *)
Definition controller_cluster : Gateway :=
  workload_gateway (Ok [])
    [sample_deployment "cert-manager-Controller" None; sample_deployment "web" None] [].

(** Two cluster items: one with a name and an API URL, one bare. *)
Definition two_clusters : list OCM.json :=
  [OCM.JObj [("name", OCM.JStr "prod");
             ("api", OCM.JObj [("url", OCM.JStr "https://api.prod:6443")])];
   OCM.JObj [("id", OCM.JStr "c2")]].

(** Operator pods "op-a" and "op-b"; only the log of "op-a" can be read. *)
Definition operator_pod_a : Pod :=
  sample_pod "op-a" (owned_by "ReplicaSet" "op-5d4f") None.
Definition operator_pod_b : Pod :=
  sample_pod "op-b" (owned_by "ReplicaSet" "op-5d4f") None.

Definition operator_cluster : Gateway :=
  with_log_store
    (workload_gateway (Ok [sample_csv "op.v1"])
       [sample_deployment "op" (owned_by "ClusterServiceVersion" "op.v1")]
       [operator_pod_a; operator_pod_b])
    (fun _ name => if String.eqb name "op-a" then Some ["started"] else None).

(** A gateway with another answer for the build listings. *)
Definition with_builds (gw : Gateway) (builds : exc (list Build)) : Gateway :=
  {| v1_present := v1_present gw;
     dynamic_client_present := dynamic_client_present gw;
     list_csv := list_csv gw;
     get_csv := get_csv gw;
     list_subscription_for_all_namespaces := list_subscription_for_all_namespaces gw;
     list_namespaced_subscription := list_namespaced_subscription gw;
     list_helm_chart_repository := list_helm_chart_repository gw;
     list_deployment_for_all_namespaces := list_deployment_for_all_namespaces gw;
     list_namespaced_deployment := list_namespaced_deployment gw;
     list_pod_for_all_namespaces := list_pod_for_all_namespaces gw;
     list_namespaced_pod := list_namespaced_pod gw;
     read_namespaced_pod_log := read_namespaced_pod_log gw;
     list_event_for_all_namespaces := list_event_for_all_namespaces gw;
     list_namespaced_event := list_namespaced_event gw;
     list_build_for_all_namespaces := builds;
     list_namespaced_build := fun _ => builds;
     list_node := list_node gw |}.

(** Three builds of "app". *)
Definition app_build (name : string) : Build :=
  {| build_name := name; build_namespace := "apps" |}.

Definition build_cluster : Gateway :=
  with_builds quiet_gateway
    (Ok [app_build "app-1"; app_build "app-2"; app_build "app-3"]).



(** A deployment without labels. *)
Definition bare_deployment (name : string) : Deployment :=
  {| dep_name := name; dep_namespace := "apps"; dep_labels := None;
     dep_replicas := 1; dep_ready_replicas := Some 1%Z; dep_image := None;
     dep_creation_timestamp := "2024-01-01"; dep_owner_references := None |}.

(** An operator deployment, a deployment without labels, and another
    operator deployment after it. *)
Definition unlabelled_cluster : Gateway :=
  workload_gateway (Ok [])
    [sample_deployment "cert-manager-operator" None; bare_deployment "web";
     sample_deployment "node-controller" None] [].

(** * Properties *)

(** ** Strings *)

Lemma append_cons (c : ascii) (a b : string) :
  String c a +:+ b = String c (a +:+ b).
Proof. reflexivity. Qed.
Lemma prefix_spec (p s : string) :
  String.prefix p s = true ↔ ∃ t, s = p +:+ t.
Proof.
  revert s. induction p as [|c p IH]; intros s.
  - split; [intros _; exists s; reflexivity | intros _; by destruct s].
  - destruct s as [|d s]; simpl.
    + split; [intros H; discriminate | intros [t Ht]; discriminate].
    + destruct (Ascii.ascii_dec c d) as [->|Hne].
      * rewrite IH. split; intros [t Ht]; exists t;
          rewrite append_cons in *; congruence.
      * split; [intros H; discriminate |].
        intros [t Ht]. rewrite append_cons in Ht. congruence.
Qed.
Lemma str_in_nil (needle : string) :
  str_in needle EmptyString = String.prefix needle EmptyString.
Proof. unfold str_in. apply orb_false_r. Qed.

Lemma str_in_cons (needle : string) (c : ascii) (hay : string) :
  str_in needle (String c hay)
  = String.prefix needle (String c hay) || str_in needle hay.
Proof. reflexivity. Qed.

Lemma str_in_spec (needle hay : string) :
  str_in needle hay = true ↔ ∃ a b, hay = a +:+ needle +:+ b.
Proof.
  induction hay as [|c hay IH].
  - rewrite str_in_nil, prefix_spec. split.
    + intros [t Ht]. by exists EmptyString, t.
    + intros [a [b Hab]]. destruct a; [by exists b | discriminate].
  - rewrite str_in_cons, orb_true_iff, prefix_spec, IH. split.
    + intros [[t Ht] | [a [b Hab]]].
      * by exists EmptyString, t.
      * exists (String c a), b. rewrite append_cons. by rewrite Hab.
    + intros [a [b Hab]]. destruct a as [|d a].
      * left. by exists b.
      * right. exists a, b. rewrite append_cons in Hab. congruence.
Qed.

Lemma str_in_false (needle hay : string) :
  str_in needle hay = false ↔ ¬ ∃ a b, hay = a +:+ needle +:+ b.
Proof.
  rewrite <- str_in_spec. destruct (str_in needle hay); split; done.
Qed.

Example lower_sample : lower "GPU-Operator_42" = "gpu-operator_42".
Proof. reflexivity. Qed.

Example split_sample :
  split_lines (String "a" (String newline (String "b" (String newline EmptyString))))
  = ["a"; "b"; EmptyString].
Proof. reflexivity. Qed.

Example join_sample :
  join_lines ["a"; "b"; EmptyString]
  = String "a" (String newline (String "b" (String newline EmptyString))).
Proof. reflexivity. Qed.

Example str_in_sample :
  str_in EmptyString "abc" = true ∧ str_in "bc" "abc" = true ∧ str_in "ac" "abc" = false.
Proof. by repeat split. Qed.

(** ** Ownership resolver *)

Section Resolver.

Variable gw : Gateway.
Variables operator_name project : string.

Lemma flat_map_singleton_if {A B} (keep : A → bool) (f : A → B) (l : list A) :
  flat_map (fun x => if keep x then [f x] else []) l
  = List.map f (List.filter keep l).
Proof.
  induction l as [|x l IH]; [done |]. simpl.
  destruct (keep x); simpl; by rewrite IH.
Qed.

Lemma filter_none {A} (keep : A → bool) (l : list A) :
  (∀ x, In x l → keep x = false) → List.filter keep l = [].
Proof.
  induction l as [|x l IH]; [done |]. intros H. simpl.
  rewrite (H x) by (by left). apply IH. intros y Hy. apply H. by right.
Qed.

Lemma name_match_pods_filter (pods : list Pod) :
  name_match_pods operator_name pods
  = List.map pod_entry
      (List.filter (fun pod => in_lower operator_name (pod_name pod)) pods).
Proof. apply flat_map_singleton_if. Qed.

Lemma get_operator_pods_unavailable :
  is_available gw = false →
  get_operator_pods gw operator_name project = NotAvailable.
Proof. intros H. unfold get_operator_pods, when_available. by rewrite H. Qed.

Lemma get_operator_pods_available :
  is_available gw = true →
  get_operator_pods gw operator_name project
  = catch_all "Error getting operator pods: "
      (operator_pods ← method1 gw operator_name project;
       method2 gw operator_name project operator_pods).
Proof. intros H. unfold get_operator_pods, when_available. by rewrite H. Qed.

Lemma method1_no_csv (csvs : list CSV) :
  list_csv gw project = Ok csvs →
  find_target_csv operator_name csvs = None →
  method1 gw operator_name project = Ok [].
Proof. intros H1 H2. unfold method1. rewrite H1. simpl. by rewrite H2. Qed.

End Resolver.

(** Method 2 on an empty list of method 1. *)
Lemma method2_fallback (gw : Gateway) (operator_name project : string)
    (pods : list Pod) :
  list_namespaced_pod gw project = Ok pods →
  method2 gw operator_name project []
  = Ok (List.map pod_entry
          (List.filter (fun pod => str_in (lower operator_name) (lower (pod_name pod)))
                       pods)).
Proof.
  intros Hpods. unfold method2. rewrite Hpods. simpl.
  by rewrite name_match_pods_filter.
Qed.

(** C1. When the owner-chain strategy yields no pod, [get_operator_pods]
    answers with the pods of the project whose name contains the operator
    name, letter case ignored: exactly those, in gateway order. *)
Theorem fallback_is_name_matching (gw : Gateway) (operator_name project : string)
    (pods : list Pod) :
  is_available gw = true →
  method1 gw operator_name project = Ok [] →
  list_namespaced_pod gw project = Ok pods →
  get_operator_pods gw operator_name project
  = Json (List.map pod_entry
            (List.filter (fun pod => str_in (lower operator_name) (lower (pod_name pod)))
                         pods))
  ∧ ∀ e, In e (List.map pod_entry
                 (List.filter (fun pod => str_in (lower operator_name)
                                                 (lower (pod_name pod))) pods))
         ↔ ∃ pod a b, In pod pods
                      ∧ lower (pod_name pod) = a +:+ lower operator_name +:+ b
                      ∧ e = pod_entry pod.
Proof.
  intros Hav Hm1 Hpods. split.
  - rewrite get_operator_pods_available by done.
    rewrite Hm1.
    change (Ok [] ≫= _) with (method2 gw operator_name project []).
    by rewrite (method2_fallback gw _ _ pods).
  - intros e. rewrite in_map_iff. split.
    + intros (pod & <- & Hin). apply filter_In in Hin as [Hin Hname].
      apply str_in_spec in Hname as (a & b & Hab). by exists pod, a, b.
    + intros (pod & a & b & Hin & Hab & ->). exists pod. split; [done |].
      apply filter_In. split; [done |]. apply str_in_spec. by exists a, b.
Qed.

Lemma fallback_is_name_matching_witness :
  get_operator_pods csv_without_workload "web" "apps"
  = Json [pod_entry web_pod; pod_entry webhook_pod].
Proof.
  apply (fallback_is_name_matching csv_without_workload "web" "apps"
           [web_pod; webhook_pod]); reflexivity.
Defined.

(** C2. In the owner-chain strategy a pod is attributed to a workload
    exactly when one of its owner references has kind "ReplicaSet" and a
    name that starts with the workload's name and a hyphen.  For the
    workload "web", the pod of replica set "web-7f9c9" is kept and the pod
    of replica set "webhook-abc" is not. *)
Theorem owner_chain_attribution (deploys : list Deployment) (pods : list Pod)
    (e : PodEntry) :
  (In e (owner_chain_pods deploys pods) ↔
     ∃ pod owners owner deploy suffix,
       In pod pods
       ∧ pod_owner_references pod = Some owners
       ∧ In owner owners
       ∧ In deploy deploys
       ∧ owner_kind owner = "ReplicaSet"
       ∧ owner_name owner = (dep_name deploy +:+ "-") +:+ suffix
       ∧ e = pod_entry pod)
  ∧ owner_chain_pods [web_deployment] [web_pod; webhook_pod] = [pod_entry web_pod]
  ∧ get_operator_pods web_cluster "web" "apps" = Json [pod_entry web_pod].
Proof.
  split; [| split; reflexivity].
  unfold owner_chain_pods. rewrite in_flat_map. split.
  - intros [pod [Hpod Hin]].
    destruct (pod_owner_references pod) as [owners|] eqn:Hown; [| done].
    apply in_flat_map in Hin as [owner [Howner Hin]].
    destruct (String.eqb (owner_kind owner) "ReplicaSet") eqn:Hkind; [| done].
    apply in_flat_map in Hin as [deploy [Hdeploy Hin]].
    destruct (startswith _ _) eqn:Hstart; [| done].
    destruct Hin as [<- | []].
    apply String.eqb_eq in Hkind.
    apply prefix_spec in Hstart as [suffix Hsuffix].
    by exists pod, owners, owner, deploy, suffix.
  - intros (pod & owners & owner & deploy & suffix
            & Hpod & Hown & Howner & Hdeploy & Hkind & Hname & ->).
    exists pod. split; [done |]. rewrite Hown.
    apply in_flat_map. exists owner. split; [done |].
    rewrite Hkind. simpl.
    apply in_flat_map. exists deploy. split; [done |].
    assert (startswith (owner_name owner) (dep_name deploy +:+ "-") = true) as ->.
    { apply prefix_spec. by exists suffix. }
    by left.
Qed.

Lemma owner_chain_attribution_witness :
  In (pod_entry web_pod) (owner_chain_pods [web_deployment] [web_pod; webhook_pod]).
Proof.
  apply (owner_chain_attribution [web_deployment] [web_pod; webhook_pod]).
  exists web_pod, [ {| owner_kind := "ReplicaSet"; owner_name := "web-7f9c9" |} ],
         {| owner_kind := "ReplicaSet"; owner_name := "web-7f9c9" |},
         web_deployment, "7f9c9".
  repeat split; try reflexivity; by left.
Defined.

(** C3, as the code has it.  A gateway error in the CSV lookup is not
    swallowed: the call stops there, tries no name heuristic, and answers
    with the text "Error getting operator pods: <error>"; without a gateway
    it answers "OpenShift API not available". *)
Theorem csv_lookup_error_is_reported (gw : Gateway) (operator_name project e : string) :
  list_csv gw project = Raise e →
  get_operator_pods gw operator_name project
  = if is_available gw then ErrorText ("Error getting operator pods: " +:+ e)
    else NotAvailable.
Proof.
  intros Hcsv. unfold get_operator_pods, when_available, method1.
  rewrite Hcsv. by destruct (is_available gw).
Qed.

Lemma csv_lookup_error_is_reported_witness :
  get_operator_pods csv_down_cluster "gpu-operator" "apps"
  = ErrorText "Error getting operator pods: 503 Service Unavailable".
Proof.
  apply (csv_lookup_error_is_reported csv_down_cluster "gpu-operator" "apps"
           "503 Service Unavailable").
  reflexivity.
Defined.

(** C3, as the claim states it, fails: with the CSV lookup down and a pod
    named after the operator in the project, the answer is the error text
    and not the pods of the name heuristic. *)
Lemma csv_lookup_error_not_swallowed :
  list_csv csv_down_cluster "apps" = Raise "503 Service Unavailable"
  ∧ list_namespaced_pod csv_down_cluster "apps" = Ok [gpu_operator_pod]
  ∧ name_match_pods "gpu-operator" [gpu_operator_pod] = [pod_entry gpu_operator_pod]
  ∧ get_operator_pods csv_down_cluster "gpu-operator" "apps"
    ≠ Json (name_match_pods "gpu-operator" [gpu_operator_pod])
  ∧ get_operator_pods csv_down_cluster "gpu-operator" "apps"
    = ErrorText "Error getting operator pods: 503 Service Unavailable".
Proof. by repeat split. Qed.

(** C8, as the code has it.  The answer is the bare list of pod entries,
    without a tag of the strategy: the owner chain on one cluster and the
    name heuristic on another give the same answer.  When neither strategy
    finds a pod the call answers with the empty list, which is a regular
    answer and no error. *)
Theorem nothing_found_is_empty_list (gw : Gateway) (operator_name project : string)
    (pods : list Pod) :
  is_available gw = true →
  method1 gw operator_name project = Ok [] →
  list_namespaced_pod gw project = Ok pods →
  (∀ pod, In pod pods → str_in (lower operator_name) (lower (pod_name pod)) = false) →
  get_operator_pods gw operator_name project = Json []
  ∧ get_operator_pods web_cluster "web" "apps"
    = get_operator_pods lone_pod_cluster "web" "apps"
  ∧ resolution_method web_cluster "web" "apps" = Ok OwnerChain
  ∧ resolution_method lone_pod_cluster "web" "apps" = Ok NameHeuristic.
Proof.
  intros Hav Hm1 Hpods Hnone. split; [| by repeat split].
  rewrite get_operator_pods_available by done.
  rewrite Hm1.
  change (Ok [] ≫= _) with (method2 gw operator_name project []).
  rewrite (method2_fallback gw _ _ pods) by done.
  by rewrite filter_none.
Qed.

Lemma nothing_found_is_empty_list_witness :
  get_operator_pods web_cluster "etcd" "apps" = Json [].
Proof.
  apply (nothing_found_is_empty_list web_cluster "etcd" "apps" [web_pod; webhook_pod]);
    try reflexivity.
  intros pod [<- | [<- | []]]; reflexivity.
Defined.

(** C8, as the claim states it, fails: no tag can be read off the answer,
    since the same answer comes out of the owner chain on one cluster and
    out of the name heuristic on another. *)
Lemma answer_has_no_method_tag :
  ¬ ∃ tag : tool_out (list PodEntry) → ResolutionMethod,
      ∀ gw operator_name project,
        resolution_method gw operator_name project
        = Ok (tag (get_operator_pods gw operator_name project)).
Proof.
  intros [tag Htag].
  pose proof (Htag web_cluster "web" "apps") as H1.
  pose proof (Htag lone_pod_cluster "web" "apps") as H2.
  vm_compute in H1, H2. congruence.
Qed.

(** ** Multi-source search *)

Section Search.

Variable gw : Gateway.
Variables query project resource_types : string.
Variable lines : Z.

Lemma search_all_logs_available :
  is_available gw = true →
  search_all_logs gw query project resource_types lines
  = Json ((if wants resource_types "pod"
           then search_pod_logs gw query project lines else [])
          ++ (if wants resource_types "event"
              then search_events gw query project else [])
          ++ (if wants resource_types "build"
              then search_build_logs gw query project else [])).
Proof. intros H. unfold search_all_logs, when_available. by rewrite H. Qed.




(** No build log can be fetched, so no build gives an entry. *)
Lemma build_log_hit_nothing (build : Build) : build_log_hit gw query build = [].
Proof. reflexivity. Qed.

Lemma search_build_logs_nothing : search_build_logs gw query project = [].
Proof.
  unfold search_build_logs. destruct (builds_in gw project) as [builds|]; [|done].
  induction (slice_to 10 builds) as [|build rest IH]; [done|].
  cbn [flat_map]. rewrite build_log_hit_nothing. exact IH.
Qed.

(** The loop over the events stops at the first event whose message holds
    the query, and leaves one error entry. *)
Lemma events_loop_spec (events : list Event) :
  events_loop query events
  = if existsb (fun event => in_lower query (ev_message event)) events
    then [ErrorHit "Event search error: 'CoreV1Event' object has no attribute 'namespace'"]
    else [].
Proof.
  induction events as [|event rest IH]; [done|].
  cbn [events_loop existsb]. unfold event_hit.
  destruct (in_lower query (ev_message event)); [reflexivity|].
  cbn [mret exc_ret orb app]. exact IH.
Qed.

Lemma search_events_spec :
  search_events gw query project
  = match events_in gw project with
    | Ok events =>
        if existsb (fun event => in_lower query (ev_message event)) events
        then [ErrorHit "Event search error: 'CoreV1Event' object has no attribute 'namespace'"]
        else []
    | Raise e => [ErrorHit ("Event search error: " +:+ e)]
    end.
Proof.
  unfold search_events.
  destruct (events_in gw project); [apply events_loop_spec | done].
Qed.

End Search.



(** ** The tail window *)

Section Tail.

Variable gw : Gateway.
Variable store : string → string → option (list string).

Lemma tail_of_app (lines : Z) (older tail : list string) :
  List.length tail = Z.to_nat lines →
  tail_of lines (older ++ tail) = tail.
Proof.
  intros Hlen. unfold tail_of. rewrite length_app, <- Hlen.
  replace (List.length older + List.length tail - List.length tail)
    with (List.length older) by lia.
  apply drop_app_length.
Qed.

Lemma tail_of_idempotent (lines : Z) (log : list string) :
  tail_of lines (tail_of lines log) = tail_of lines log.
Proof.
  unfold tail_of. rewrite length_skipn.
  replace (List.length log - (List.length log - Z.to_nat lines) - Z.to_nat lines)
    with 0 by lia.
  reflexivity.
Qed.

Lemma get_pod_logs_truncated (lines : Z) (name namespace : string) :
  get_pod_logs (truncated store lines) name namespace lines
  = get_pod_logs store name namespace lines.
Proof.
  unfold get_pod_logs, truncated.
  destruct (store namespace name) as [log|]; simpl; [| done].
  by rewrite tail_of_idempotent.
Qed.

Lemma pod_log_hit_truncated (query : string) (lines : Z) (pod : Pod) :
  pod_log_hit (with_log_store gw (truncated store lines)) query lines pod
  = pod_log_hit (with_log_store gw store) query lines pod.
Proof. unfold pod_log_hit. simpl. by rewrite get_pod_logs_truncated. Qed.

Lemma search_pod_logs_truncated (query project : string) (lines : Z) :
  search_pod_logs (with_log_store gw (truncated store lines)) query project lines
  = search_pod_logs (with_log_store gw store) query project lines.
Proof.
  unfold search_pod_logs.
  change (pods_in (with_log_store gw (truncated store lines)) project)
    with (pods_in (with_log_store gw store) project).
  destruct (pods_in _ _); [| done].
  apply flat_map_ext. intros pod. apply pod_log_hit_truncated.
Qed.

(** Only the pod-log source reads the log store. *)
Lemma search_all_logs_with_store (logs : string → string → option (list string))
    (query project resource_types : string) (lines : Z) :
  search_all_logs (with_log_store gw logs) query project resource_types lines
  = when_available gw
      (Json ((if wants resource_types "pod"
              then search_pod_logs (with_log_store gw logs) query project lines
              else [])
             ++ (if wants resource_types "event"
                 then search_events gw query project else [])
             ++ (if wants resource_types "build"
                 then search_build_logs gw query project else []))).
Proof. reflexivity. Qed.

Lemma search_all_logs_truncated (query project resource_types : string) (lines : Z) :
  search_all_logs (with_log_store gw (truncated store lines))
    query project resource_types lines
  = search_all_logs (with_log_store gw store) query project resource_types lines.
Proof.
  rewrite !search_all_logs_with_store. by rewrite search_pod_logs_truncated.
Qed.

End Tail.

(** C5. The query is matched against the text that the gateway returns for
    [tail_lines = lines] and against nothing else: a pod whose last [lines]
    log lines do not contain the query gives no hit, whatever the older
    lines contain, and the whole search is the search over the logs cut to
    their last [lines] lines. *)
Theorem search_sees_only_the_tail (gw : Gateway)
    (store : string → string → option (list string))
    (query project resource_types : string) (lines : Z)
    (pod : Pod) (older tail : list string) :
  store (pod_namespace pod) (pod_name pod) = Some (older ++ tail) →
  List.length tail = Z.to_nat lines →
  str_in (lower query) (lower (join_lines tail)) = false →
  pod_log_hit (with_log_store gw store) query lines pod = []
  ∧ search_all_logs (with_log_store gw store) query project resource_types lines
    = search_all_logs (with_log_store gw (truncated store lines))
        query project resource_types lines.
Proof.
  intros Hstore Hlen Hmiss. split.
  - unfold pod_log_hit. simpl. unfold get_pod_logs. rewrite Hstore.
    rewrite tail_of_app by done. unfold in_lower. by rewrite Hmiss.
  - symmetry. apply search_all_logs_truncated.
Qed.

Lemma search_sees_only_the_tail_witness :
  nth_error (rev twenty_lines) 14 = Some "needle here"
  ∧ pod_log_hit twenty_line_cluster "needle" 10 (sample_pod "p1" None None) = []
  ∧ search_all_logs twenty_line_cluster "needle" "apps" "all" 10 = Json []
  ∧ search_all_logs twenty_line_cluster "needle" "apps" "all" 20
    = Json [PodLogHit "apps/p1" ["needle here"]].
Proof.
  split; [reflexivity |]. split; [| split; reflexivity].
  apply (search_sees_only_the_tail
           (workload_gateway (Ok []) [] [sample_pod "p1" None None])
           (fun _ _ => Some twenty_lines) "needle" "apps" "all" 10
           (sample_pod "p1" None None) (firstn 10 twenty_lines) (skipn 10 twenty_lines));
    reflexivity.
Defined.

(** ** Dictionary loops *)

Section Dicts.

Variable keep : string → bool.

Lemma collect_list_other (l : list (string * string)) (out : gmap string string)
    (k : string) :
  keep k = false ∨ k ∉ l.*1 →
  foldl (collect_step keep) out l !! k = out !! k.
Proof.
  revert out. induction l as [|[k' v'] l IH]; intros out Hk; [done |].
  simpl. rewrite IH.
  - unfold collect_step. simpl. destruct (keep k') eqn:Hk'; [| done].
    apply lookup_insert_ne. intros ->.
    destruct Hk as [Hk | Hk]; [congruence |].
    apply Hk. simpl. by left.
  - destruct Hk as [Hk | Hk]; [by left | right].
    intros Hin. apply Hk. simpl. by right.
Qed.

Lemma collect_list_kept (l : list (string * string)) (out : gmap string string)
    (k v : string) :
  NoDup l.*1 → (k, v) ∈ l → keep k = true →
  foldl (collect_step keep) out l !! k = Some v.
Proof.
  revert out. induction l as [|[k' v'] l IH]; intros out Hnd Hin Hk.
  - by apply elem_of_nil in Hin.
  - simpl in Hnd. apply NoDup_cons in Hnd as [Hfresh Hnd].
    apply elem_of_cons in Hin as [Heq | Hin]; simpl.
    + inversion Heq; subst k' v'.
      rewrite collect_list_other by (by right).
      unfold collect_step. simpl. rewrite Hk. apply lookup_insert_eq.
    + by apply IH.
Qed.

(** What the loop leaves under each key. *)
Lemma dict_collect_lookup (items out : gmap string string) (k : string) :
  dict_collect keep items out !! k
  = if keep k then match items !! k with
                   | Some v => Some v
                   | None => out !! k
                   end
    else out !! k.
Proof.
  unfold dict_collect.
  destruct (keep k) eqn:Hk.
  - destruct (items !! k) as [v|] eqn:Hget.
    + apply collect_list_kept; [apply NoDup_fst_map_to_list | | done].
      by apply elem_of_map_to_list.
    + apply collect_list_other. right. intros Hin.
      apply list_elem_of_fmap in Hin as [[k' v'] [Hk' Hin]]. simpl in Hk'. subst k'.
      apply elem_of_map_to_list in Hin. congruence.
  - apply collect_list_other. by left.
Qed.

Lemma dict_collect_opt_lookup (items : option (gmap string string))
    (out : gmap string string) (k : string) :
  dict_collect_opt keep items out !! k
  = match items with
    | Some m => if keep k then match m !! k with
                               | Some v => Some v
                               | None => out !! k
                               end
                else out !! k
    | None => out !! k
    end.
Proof. destruct items; [apply dict_collect_lookup | done]. Qed.

(** The loop started on the empty dictionary keeps the passing entries. *)
Lemma dict_collect_opt_empty (items : option (gmap string string)) (k v : string) :
  dict_collect_opt keep items ∅ !! k = Some v
  ↔ ∃ m, items = Some m ∧ m !! k = Some v ∧ keep k = true.
Proof.
  rewrite dict_collect_opt_lookup. destruct items as [m|].
  - destruct (keep k) eqn:Hk.
    + destruct (m !! k) as [v'|] eqn:Hget.
      * split; [intros [= ->]; by exists m | intros (m' & [= <-] & Hv & _); congruence].
      * rewrite lookup_empty. split; [done | intros (m' & [= <-] & Hv & _); congruence].
    + rewrite lookup_empty. split; [done | intros (m' & _ & _ & ?); congruence].
  - rewrite lookup_empty. split; [done | intros (m' & ? & _); congruence].
Qed.

Lemma dict_true_spec (d : gmap string string) :
  dict_true d = true ↔ ∃ k v, d !! k = Some v.
Proof.
  unfold dict_true. rewrite negb_true_iff, bool_decide_eq_false.
  split.
  - intros Hne. apply map_choose in Hne as (k & v & Hkv). by exists k, v.
  - intros (k & v & Hkv) ->. by rewrite lookup_empty in Hkv.
Qed.

Lemma dict_hits_spec (items : option (gmap string string)) :
  dict_hits keep items = true
  ↔ ∃ m k v, items = Some m ∧ m !! k = Some v ∧ keep k = true.
Proof.
  unfold dict_hits. destruct items as [m|].
  - rewrite existsb_exists. split.
    + intros [[k v] [Hin Hk]]. exists m, k, v. split; [done |]. split; [| done].
      apply elem_of_map_to_list. by apply list_elem_of_In.
    + intros (m' & k & v & [= <-] & Hget & Hk). exists (k, v). split; [| done].
      apply list_elem_of_In. by apply elem_of_map_to_list.
  - split; [done | intros (m & k & v & ? & _); congruence].
Qed.

End Dicts.

(** ** GPU workloads *)

Section GpuScan.

Lemma is_gpu_resource_spec (key : string) :
  is_gpu_resource key = true ↔ gpu_key key.
Proof.
  unfold is_gpu_resource, gpu_key. by rewrite orb_true_iff, !str_in_spec.
Qed.

(** One loop over a dictionary: the dictionary it fills and the flag. *)
Lemma gpu_items_loop_split (items : option (gmap string string))
    (out : gmap string string) (flag : bool) :
  gpu_items_loop items (out, flag)
  = (dict_collect_opt is_gpu_resource items out,
     flag || dict_hits is_gpu_resource items).
Proof.
  destruct items as [m|]; simpl; [| by rewrite orb_false_r].
  unfold dict_collect. generalize (map_to_list m) as l. intros l.
  revert out flag. induction l as [|[k v] l IH]; intros out flag; simpl.
  - by rewrite orb_false_r.
  - unfold collect_step at 2. simpl.
    destruct (is_gpu_resource k); simpl; rewrite IH; [| done].
    by rewrite orb_true_r.
Qed.

Lemma scan_container_split (st : GpuScan) (container : Container) :
  scan_container st container
  = {| scan_requests := scan_dict res_requests (scan_requests st) [container];
       scan_limits := scan_dict res_limits (scan_limits st) [container];
       scan_has_gpu := scan_has_gpu st || container_hits container |}.
Proof.
  unfold scan_container, container_hits, scan_dict. simpl.
  destruct (container_resources container) as [res|].
  - rewrite !gpu_items_loop_split. simpl. by rewrite orb_assoc.
  - destruct st. simpl. by rewrite orb_false_r.
Qed.

Lemma scan_split (containers : list Container) (st : GpuScan) :
  foldl scan_container st containers
  = {| scan_requests := scan_dict res_requests (scan_requests st) containers;
       scan_limits := scan_dict res_limits (scan_limits st) containers;
       scan_has_gpu := scan_has_gpu st || existsb container_hits containers |}.
Proof.
  revert st. induction containers as [|c cs IH]; intros st; simpl.
  - destruct st. simpl. by rewrite orb_false_r.
  - rewrite IH, scan_container_split. simpl. by rewrite orb_assoc.
Qed.

Variable pick : Resources → option (gmap string string).

(** An entry of the filled dictionary is a GPU key declared by a container,
    or was there before. *)
Lemma scan_dict_sound (containers : list Container) (out : gmap string string)
    (k v : string) :
  scan_dict pick out containers !! k = Some v →
  out !! k = Some v
  ∨ (is_gpu_resource k = true
     ∧ ∃ container res items,
         In container containers ∧ container_resources container = Some res
         ∧ pick res = Some items ∧ items !! k = Some v).
Proof.
  revert out. induction containers as [|c cs IH]; intros out; simpl; [by left |].
  intros H. apply IH in H as [H | (Hk & c' & res & items & Hin & Hres' & Hpick' & Hget')].
  - destruct (container_resources c) as [res|] eqn:Hres; [| by left].
    rewrite dict_collect_opt_lookup in H.
    destruct (pick res) as [m|] eqn:Hpick; [| by left].
    destruct (is_gpu_resource k) eqn:Hk; [| by left].
    destruct (m !! k) as [v'|] eqn:Hget; [| by left].
    right. split; [done |]. exists c, res, m. injection H as <-. by repeat split; [left | ..].
  - right. split; [done |]. exists c', res, items. by repeat split; [right | ..].
Qed.

(** Keys are never removed. *)
Lemma scan_dict_grows (containers : list Container) (out : gmap string string)
    (k : string) :
  is_Some (out !! k) → is_Some (scan_dict pick out containers !! k).
Proof.
  revert out. induction containers as [|c cs IH]; intros out Hk; simpl; [done |].
  apply IH. destruct (container_resources c) as [res|]; [| done].
  rewrite dict_collect_opt_lookup.
  destruct (pick res) as [m|]; [| done].
  destruct (is_gpu_resource k); [| done].
  by destruct (m !! k).
Qed.

(** Every declared GPU key is in the filled dictionary. *)
Lemma scan_dict_complete (containers : list Container) (out : gmap string string)
    (k v : string) (container : Container) (res : Resources)
    (items : gmap string string) :
  is_gpu_resource k = true →
  In container containers → container_resources container = Some res →
  pick res = Some items → items !! k = Some v →
  is_Some (scan_dict pick out containers !! k).
Proof.
  intros Hk Hin Hres Hpick Hget. revert out.
  induction containers as [|c cs IH]; intros out; [done |].
  destruct Hin as [<- | Hin]; simpl.
  - apply scan_dict_grows. rewrite Hres, dict_collect_opt_lookup, Hpick, Hk, Hget. by eexists.
  - by apply IH.
Qed.

End GpuScan.

Lemma container_hits_spec (containers : list Container) :
  existsb container_hits containers = true
  ↔ ∃ container res items k v,
      In container containers ∧ container_resources container = Some res
      ∧ (res_requests res = Some items ∨ res_limits res = Some items)
      ∧ items !! k = Some v ∧ is_gpu_resource k = true.
Proof.
  rewrite existsb_exists. split.
  - intros (c & Hin & Hhit). unfold container_hits in Hhit.
    destruct (container_resources c) as [res|] eqn:Hres; [| done].
    apply orb_true_iff in Hhit as [H | H];
      apply dict_hits_spec in H as (m & k & v & Hm & Hget & Hk);
      exists c, res, m, k, v; eauto 10.
  - intros (c & res & m & k & v & Hin & Hres & Hm & Hget & Hk).
    exists c. split; [done |]. unfold container_hits. rewrite Hres.
    apply orb_true_iff.
    destruct Hm as [Hm | Hm]; [left | right]; apply dict_hits_spec; eauto 10.
Qed.

Lemma scan_has_gpu_spec (pod : Pod) :
  scan_has_gpu (scan_pod pod) = true ↔ declares_gpu pod.
Proof.
  unfold scan_pod. rewrite scan_split. simpl. rewrite container_hits_spec.
  unfold declares_gpu, declares. split.
  - intros (c & res & m & k & v & Hin & Hres & [Hm | Hm] & Hget & Hk);
      exists k, v; (split; [by apply is_gpu_resource_spec |]);
      [left | right]; by exists c, res, m.
  - intros (k & v & Hk & [H | H]); destruct H as (c & res & m & Hin & Hres & Hm & Hget);
      exists c, res, m, k, v; apply is_gpu_resource_spec in Hk; eauto 10.
Qed.

Lemma gpu_requests_lookup (pod : Pod) (k v : string) :
  gp_gpu_requests (gpu_pod_info pod) !! k = Some v →
  gpu_key k ∧ declares res_requests pod k v.
Proof.
  simpl. unfold scan_pod. rewrite scan_split. simpl. intros H.
  apply scan_dict_sound in H as [H | [Hk H]]; [by rewrite lookup_empty in H |].
  split; [by apply is_gpu_resource_spec | exact H].
Qed.

Lemma gpu_limits_lookup (pod : Pod) (k v : string) :
  gp_gpu_limits (gpu_pod_info pod) !! k = Some v →
  gpu_key k ∧ declares res_limits pod k v.
Proof.
  simpl. unfold scan_pod. rewrite scan_split. simpl. intros H.
  apply scan_dict_sound in H as [H | [Hk H]]; [by rewrite lookup_empty in H |].
  split; [by apply is_gpu_resource_spec | exact H].
Qed.

Lemma gpu_requests_complete (pod : Pod) (k v : string) :
  gpu_key k → declares res_requests pod k v →
  is_Some (gp_gpu_requests (gpu_pod_info pod) !! k).
Proof.
  intros Hk (c & res & m & Hin & Hres & Hm & Hget).
  simpl. unfold scan_pod. rewrite scan_split. simpl.
  apply is_gpu_resource_spec in Hk. by eapply scan_dict_complete.
Qed.

Lemma gpu_limits_complete (pod : Pod) (k v : string) :
  gpu_key k → declares res_limits pod k v →
  is_Some (gp_gpu_limits (gpu_pod_info pod) !! k).
Proof.
  intros Hk (c & res & m & Hin & Hres & Hm & Hget).
  simpl. unfold scan_pod. rewrite scan_split. simpl.
  apply is_gpu_resource_spec in Hk. by eapply scan_dict_complete.
Qed.

Lemma gpu_workloads_of_member (pods : list Pod) (e : GpuPodInfo) :
  In e (gpu_workloads_of pods)
  ↔ ∃ pod, In pod pods ∧ declares_gpu pod ∧ e = gpu_pod_info pod.
Proof.
  unfold gpu_workloads_of. rewrite in_flat_map. split.
  - intros (pod & Hin & He).
    destruct (scan_has_gpu (scan_pod pod)) eqn:Hgpu; [| done].
    destruct He as [<- | []]. exists pod. by rewrite <- scan_has_gpu_spec.
  - intros (pod & Hin & Hgpu & ->). exists pod. split; [done |].
    apply scan_has_gpu_spec in Hgpu. rewrite Hgpu. by left.
Qed.

(** C10. [get_gpu_workloads] lists a pod exactly when one of its containers
    declares a request or a limit whose key contains "nvidia.com" or, in any
    letter case, "gpu".  Every listed entry has a request or a limit in its
    two dictionaries, and these hold the matching keys of the containers and
    no other key, each with a quantity that a container declares for it. *)
Theorem gpu_workloads_exact (gw : Gateway) (project : string) (pods : list Pod) :
  is_available gw = true →
  pods_in gw project = Ok pods →
  get_gpu_workloads gw project = Json (gpu_workloads_of pods)
  ∧ (∀ e, In e (gpu_workloads_of pods)
          ↔ ∃ pod, In pod pods ∧ declares_gpu pod ∧ e = gpu_pod_info pod)
  ∧ (∀ e, In e (gpu_workloads_of pods) →
          gp_gpu_requests e ≠ ∅ ∨ gp_gpu_limits e ≠ ∅)
  ∧ (∀ pod k v,
       (gp_gpu_requests (gpu_pod_info pod) !! k = Some v →
        gpu_key k ∧ declares res_requests pod k v)
       ∧ (gp_gpu_limits (gpu_pod_info pod) !! k = Some v →
          gpu_key k ∧ declares res_limits pod k v))
  ∧ (∀ pod k v,
       gpu_key k →
       (declares res_requests pod k v →
        is_Some (gp_gpu_requests (gpu_pod_info pod) !! k))
       ∧ (declares res_limits pod k v →
          is_Some (gp_gpu_limits (gpu_pod_info pod) !! k))).
Proof.
  intros Hav Hpods. split; [| split; [| split; [| split]]].
  - unfold get_gpu_workloads, when_available. rewrite Hav, Hpods. reflexivity.
  - intros e. apply gpu_workloads_of_member.
  - intros e He.
    apply gpu_workloads_of_member in He as (pod & _ & (k & v & Hk & Hdecl) & ->).
    destruct Hdecl as [Hd | Hd].
    + left. intros Hempty.
      destruct (gpu_requests_complete pod k v Hk Hd) as [v' Hv'].
      by rewrite Hempty, lookup_empty in Hv'.
    + right. intros Hempty.
      destruct (gpu_limits_complete pod k v Hk Hd) as [v' Hv'].
      by rewrite Hempty, lookup_empty in Hv'.
  - intros pod k v. split; [apply gpu_requests_lookup | apply gpu_limits_lookup].
  - intros pod k v Hk.
    split; [by apply gpu_requests_complete | by apply gpu_limits_complete].
Qed.

Lemma gpu_workloads_exact_witness :
  get_gpu_workloads gpu_cluster "apps" = Json [gpu_pod_info trainer_pod]
  ∧ gp_gpu_limits (gpu_pod_info trainer_pod) = {[ "nvidia.com/gpu" := "1" ]}
  ∧ gp_gpu_requests (gpu_pod_info trainer_pod) = ∅.
Proof.
  destruct (gpu_workloads_exact gpu_cluster "apps" [trainer_pod; plain_pod]
              eq_refl eq_refl) as [Hout _].
  rewrite Hout. repeat split; vm_compute; reflexivity.
Defined.

(** ** Capability filters *)

Lemma gpu_node_selected_spec (node : Node) :
  gpu_node_selected (gpu_node_info node) = true
  ↔ (∃ items k v, node_allocatable node = Some items ∧ items !! k = Some v
                  ∧ is_gpu_resource k = true)
    ∨ (∃ items k v, node_labels node = Some items ∧ items !! k = Some v
                    ∧ is_nvidia_label k = true).
Proof.
  unfold gpu_node_selected. simpl. rewrite orb_true_iff, !dict_true_spec.
  split; (intros [H | H]; [left | right]).
  - destruct H as (k & v & H). apply dict_collect_opt_empty in H as (m & ? & ? & ?).
    by exists m, k, v.
  - destruct H as (k & v & H). apply dict_collect_opt_empty in H as (m & ? & ? & ?).
    by exists m, k, v.
  - destruct H as (m & k & v & ? & ? & ?). exists k, v.
    apply dict_collect_opt_empty. by exists m.
  - destruct H as (m & k & v & ? & ? & ?). exists k, v.
    apply dict_collect_opt_empty. by exists m.
Qed.

Lemma is_nvidia_operator_spec (operator : OperatorEntry) :
  is_nvidia_operator operator = true
  ↔ ∃ keyword,
      In keyword ["nvidia"; "gpu"; "cuda"; "mellanox"; "connectx"]
      ∧ (str_in keyword (lower (op_name operator)) = true
         ∨ str_in keyword (lower (op_package operator)) = true
         ∨ str_in keyword (op_display_name_lower operator) = true).
Proof.
  unfold is_nvidia_operator. rewrite existsb_exists.
  split; intros (keyword & Hin & H); exists keyword; (split; [done |]).
  - apply orb_true_iff in H as [H | H]; [| by right; right].
    apply orb_true_iff in H as [H | H]; [by left | by right; left].
  - rewrite !orb_true_iff. tauto.
Qed.

(** C6, as the code has it.  Each call site has its own test on keys.
    [get_gpu_nodes] keeps a node when an allocatable resource key contains
    "nvidia.com", or "gpu" in any letter case, or when a label key contains
    "nvidia" or "gpu" in any letter case.  [get_gpu_workloads] keeps a pod when
    a request or limit key of a container contains "nvidia.com", or "gpu" in any
    letter case.  [get_nvidia_operators] keeps an operator when its lower-cased
    name, package or CSV display name contains one of "nvidia", "gpu", "cuda",
    "mellanox", "connectx".  Names of nodes and pods, label values and
    annotations are not read. *)
Theorem capability_filters_as_coded :
  (∀ node,
     gpu_node_selected (gpu_node_info node) = true
     ↔ (∃ items k v, node_allocatable node = Some items ∧ items !! k = Some v
                     ∧ (str_in "nvidia.com" k = true ∨ str_in "gpu" (lower k) = true))
       ∨ (∃ items k v, node_labels node = Some items ∧ items !! k = Some v
                       ∧ (str_in "nvidia" (lower k) = true
                          ∨ str_in "gpu" (lower k) = true)))
  ∧ (∀ pod,
       scan_has_gpu (scan_pod pod) = true
       ↔ ∃ container res items k v,
           In container (containers_of pod)
           ∧ container_resources container = Some res
           ∧ (res_requests res = Some items ∨ res_limits res = Some items)
           ∧ items !! k = Some v
           ∧ (str_in "nvidia.com" k = true ∨ str_in "gpu" (lower k) = true))
  ∧ (∀ operator,
       is_nvidia_operator operator = true
       ↔ ∃ keyword,
           In keyword ["nvidia"; "gpu"; "cuda"; "mellanox"; "connectx"]
           ∧ (str_in keyword (lower (op_name operator)) = true
              ∨ str_in keyword (lower (op_package operator)) = true
              ∨ str_in keyword (op_display_name_lower operator) = true))
  ∧ (∀ gw nodes pods project,
       is_available gw = true →
       (list_node gw = Ok nodes →
        get_gpu_nodes gw
        = Json (List.filter gpu_node_selected (List.map gpu_node_info nodes)))
       ∧ (pods_in gw project = Ok pods →
          get_gpu_workloads gw project
          = Json (List.map gpu_pod_info
                    (List.filter (fun pod => scan_has_gpu (scan_pod pod)) pods)))
       ∧ get_nvidia_operators gw project
         = Json (List.filter is_nvidia_operator
                   (olm_operators gw project ++ helm_operators gw
                    ++ custom_operators gw project))).
Proof.
  split; [| split; [| split]].
  - intros node. rewrite gpu_node_selected_spec.
    unfold is_gpu_resource, is_nvidia_label.
    by setoid_rewrite orb_true_iff.
  - intros pod. unfold scan_pod. rewrite scan_split. simpl.
    rewrite container_hits_spec. unfold is_gpu_resource.
    by setoid_rewrite orb_true_iff.
  - apply is_nvidia_operator_spec.
  - intros gw nodes pods project Hav. split; [| split].
    + intros Hnodes. unfold get_gpu_nodes, when_available. by rewrite Hav, Hnodes.
    + intros Hpods. unfold get_gpu_workloads, when_available.
      rewrite Hav, Hpods. simpl. f_equal. apply flat_map_singleton_if.
    + unfold get_nvidia_operators, get_all_operators, when_available.
      by rewrite Hav.
Qed.

Lemma capability_filters_as_coded_witness :
  get_gpu_workloads gpu_cluster "apps" = Json [gpu_pod_info trainer_pod]
  ∧ get_gpu_nodes gpu_named_cluster = Json [].
Proof.
  destruct capability_filters_as_coded as (_ & _ & _ & Htools).
  destruct (Htools gpu_cluster [] [trainer_pod; plain_pod] "apps" eq_refl)
    as (_ & Hpods & _).
  destruct (Htools gpu_named_cluster [gpu_named_node] [] "apps" eq_refl)
    as (Hnodes & _ & _).
  split; [by rewrite Hpods | by rewrite Hnodes].
Defined.

(** C6, as the claim states it, fails.  A node that is a GPU node by its
    name and by a label value matches the spec's classifier and is not
    listed by [get_gpu_nodes]; and the key "nvidia-device" passes the label
    test of [get_gpu_nodes] and fails the resource test that
    [get_gpu_nodes] and [get_gpu_workloads] apply. *)
Lemma classifier_is_not_uniform :
  spec_classify (node_candidate gpu_named_node) gpu_taxonomy = true
  ∧ list_node gpu_named_cluster = Ok [gpu_named_node]
  ∧ get_gpu_nodes gpu_named_cluster = Json []
  ∧ is_nvidia_label "nvidia-device" = true
  ∧ is_gpu_resource "nvidia-device" = false.
Proof. repeat split; vm_compute; reflexivity. Qed.

(** ** Health reports *)

Section Health.

Variable gw : Gateway.
Hypothesis available : is_available gw = true.

Lemma get_nvidia_operators_available (project : string) :
  get_nvidia_operators gw project
  = Json (List.filter is_nvidia_operator
            (olm_operators gw project ++ helm_operators gw
             ++ custom_operators gw project)).
Proof.
  unfold get_nvidia_operators, get_all_operators, when_available.
  by rewrite available.
Qed.

Lemma search_all_logs_json (query project resource_types : string) (lines : Z) :
  ∃ hits, search_all_logs gw query project resource_types lines = Json hits.
Proof. unfold search_all_logs, when_available. rewrite available. by eexists. Qed.

Lemma search_gpu_logs_json (query log_type : string) (lines : Z) :
  ∃ hits, search_gpu_logs gw query log_type lines = Json hits.
Proof. unfold search_gpu_logs, when_available. rewrite available. by eexists. Qed.

(** The DPU report exists as soon as nodes and pods can be listed. *)
Lemma dpu_health_body_ok (nodes : list Node) (pods : list Pod) :
  list_node gw = Ok nodes →
  list_pod_for_all_namespaces gw = Ok pods →
  ∃ r, dpu_health_body gw = Ok r
       ∧ dh_network_operator_status r
         = first_operator "network-operator"
             (List.filter is_nvidia_operator
                (olm_operators gw "all" ++ helm_operators gw
                 ++ custom_operators gw "all")).
Proof.
  intros Hnodes Hpods. unfold dpu_health_body.
  rewrite get_nvidia_operators_available. simpl.
  unfold get_bluefield_dpu_nodes, get_bluefield_dpu_workloads, when_available.
  rewrite available. simpl. unfold pods_in. simpl. rewrite Hnodes. simpl.
  rewrite Hpods. simpl.
  destruct (search_gpu_logs_json "ERROR" "all" 50) as [h1 ->].
  destruct (search_gpu_logs_json "ofed" "all" 20) as [h2 ->].
  destruct (search_gpu_logs_json "rdma" "all" 20) as [h3 ->].
  simpl. by eexists.
Qed.

(** The GPU report exists when nodes can be listed and no GPU operator
    was discovered. *)
Lemma gpu_health_body_ok (now : string) (nodes : list Node) :
  list_node gw = Ok nodes →
  first_operator "gpu-operator"
    (List.filter is_nvidia_operator
       (olm_operators gw "all" ++ helm_operators gw ++ custom_operators gw "all"))
  = None →
  ∃ r, gpu_health_body gw now = Ok r ∧ gh_operator_status r = None.
Proof.
  intros Hnodes Hnone. unfold gpu_health_body.
  rewrite get_nvidia_operators_available. simpl. rewrite Hnone. simpl.
  destruct (search_all_logs_json "ERROR" "nvidia-gpu-operator" "all" 50) as [h1 ->].
  destruct (search_all_logs_json "nvidia-driver" "nvidia-gpu-operator" "pod" 20) as [h2 ->].
  destruct (search_all_logs_json "device-plugin" "nvidia-gpu-operator" "pod" 20) as [h3 ->].
  unfold get_gpu_nodes, when_available. rewrite available, Hnodes. simpl.
  by eexists.
Qed.

End Health.

Lemma bind_ok {A B} (m : exc A) (f : A → exc B) (b : B) :
  m ≫= f = Ok b → ∃ a, m = Ok a ∧ f a = Ok b.
Proof. destruct m as [a|e]; [by exists a | done]. Qed.

Lemma catch_all_json {A} (prefix : string) (body : exc A) (a : A) :
  catch_all prefix body = Json a → body = Ok a.
Proof. destruct body; simpl; congruence. Qed.

Lemma when_available_json {A} (gw : Gateway) (body : tool_out A) (a : A) :
  when_available gw body = Json a → is_available gw = true ∧ body = Json a.
Proof. unfold when_available. by destruct (is_available gw). Qed.

(** The summary of every DPU report. *)
Lemma dpu_report_summary (gw : Gateway) (r : DpuHealthReport) :
  get_bluefield_dpu_health gw = Json r →
  dh_summary r
  = dpu_summary (dh_network_operator_status r) (dh_dpu_nodes r)
                (dh_dpu_workloads r) (dh_recent_dpu_errors r).
Proof.
  intros H. apply when_available_json in H as [_ H].
  apply catch_all_json in H. unfold dpu_health_body in H.
  repeat (apply bind_ok in H as (? & _ & H)).
  by injection H as <-.
Qed.

(** The summary of every GPU report. *)
Lemma gpu_report_summary (gw : Gateway) (now : string) (r : GpuHealthReport) :
  get_gpu_operator_health gw now = Json r →
  ∃ healthy,
    gh_summary r
    = gpu_summary now (gh_operator_status r) healthy (gh_pods_status r)
                  (gh_gpu_nodes r) (gh_recent_errors r).
Proof.
  intros H. apply when_available_json in H as [_ H].
  apply catch_all_json in H. unfold gpu_health_body in H.
  repeat (apply bind_ok in H as (? & _ & H)).
  injection H as <-. by eexists.
Qed.

(** C7, as the code has it.  The summary of [get_bluefield_dpu_health] has
    the label [health_status], "degraded" when [recent_dpu_errors] is not
    empty and "healthy" otherwise, also when no network operator was
    discovered, and then [network_operator_installed] is false.  The summary
    of [get_gpu_operator_health] has no [health_status]; when no GPU operator
    was discovered it is still computed, with [operator_installed] and
    [operator_healthy] false. *)
Theorem health_summaries_as_coded (gw : Gateway) (now : string)
    (nodes : list Node) (pods : list Pod) :
  is_available gw = true →
  list_node gw = Ok nodes →
  list_pod_for_all_namespaces gw = Ok pods →
  (∃ r, get_bluefield_dpu_health gw = Json r)
  ∧ (∀ r, get_bluefield_dpu_health gw = Json r →
          dh_summary r !! "health_status"
          = Some (SStr (match dh_recent_dpu_errors r with
                        | [] => "healthy"
                        | _ :: _ => "degraded"
                        end))
          ∧ (dh_network_operator_status r = None →
             dh_summary r !! "network_operator_installed" = Some (SBool false)))
  ∧ (∀ r, get_gpu_operator_health gw now = Json r →
          gh_summary r !! "health_status" = None
          ∧ (gh_operator_status r = None →
             gh_summary r !! "operator_installed" = Some (SBool false)))
  ∧ (first_operator "gpu-operator"
       (List.filter is_nvidia_operator
          (olm_operators gw "all" ++ helm_operators gw ++ custom_operators gw "all"))
     = None →
     ∃ r, get_gpu_operator_health gw now = Json r
          ∧ gh_operator_status r = None
          ∧ gh_summary r !! "operator_installed" = Some (SBool false)
          ∧ gh_summary r !! "operator_healthy" = Some (SBool false)
          ∧ gh_summary r !! "total_pods" = Some (SInt 0)).
Proof.
  intros Hav Hnodes Hpods. split; [| split; [| split]].
  - destruct (dpu_health_body_ok gw Hav nodes pods Hnodes Hpods) as (r & Hr & _).
    exists r. unfold get_bluefield_dpu_health, when_available. by rewrite Hav, Hr.
  - intros r Hr. rewrite (dpu_report_summary gw r Hr). split; [reflexivity |].
    by intros ->.
  - intros r Hr. destruct (gpu_report_summary gw now r Hr) as [healthy ->].
    split; [reflexivity |]. by intros ->.
  - intros Hnone.
    destruct (gpu_health_body_ok gw Hav now nodes Hnodes Hnone) as (r & Hr & Hop).
    exists r.
    assert (get_gpu_operator_health gw now = Json r) as Hjson.
    { unfold get_gpu_operator_health, when_available. by rewrite Hav, Hr. }
    split; [done |]. split; [done |].
    (* the summary of this report *)
    unfold gpu_health_body in Hr.
    rewrite get_nvidia_operators_available in Hr by done. simpl in Hr.
    rewrite Hnone in Hr. simpl in Hr.
    repeat (apply bind_ok in Hr as (? & _ & Hr)). simpl in Hr.
    injection Hr as <-. simpl. by repeat split.
Qed.

Lemma health_summaries_as_coded_witness :
  ∃ r, get_bluefield_dpu_health three_pod_cluster = Json r
       ∧ dh_recent_dpu_errors r ≠ []
       ∧ dh_network_operator_status r = None
       ∧ dh_summary r !! "health_status" = Some (SStr "degraded")
       ∧ dh_summary r !! "network_operator_installed" = Some (SBool false).
Proof.
  destruct (health_summaries_as_coded three_pod_cluster sample_now []
              [sample_pod "p1" None None; sample_pod "p2" None None;
               sample_pod "p3" None None] eq_refl eq_refl eq_refl)
    as ([r Hr] & Hdpu & _).
  exists r. destruct (Hdpu r Hr) as [Hstatus Hinstalled].
  vm_compute in Hr. injection Hr as <-.
  split; [reflexivity |]. split; [discriminate |]. split; [reflexivity |].
  split; [exact Hstatus | by apply Hinstalled].
Defined.

(** C7, as the claim states it, fails: on a cluster whose pods log errors
    the GPU health call computes a summary, and no [health_status] is in
    it. *)
Lemma gpu_summary_has_no_health_status :
  match get_gpu_operator_health three_pod_cluster sample_now with
  | Json r =>
      gh_recent_errors r ≠ []
      ∧ gh_summary r !! "health_status" = None
      ∧ gh_summary r !! "recent_errors_count" = Some (SInt 2)
  | _ => False
  end.
Proof. vm_compute. by repeat split. Qed.

(** ** Managed-cluster requests *)

Section Ocm.

Import OCM.

Variable env : Env.

Lemma listing_none {A} (nothing : string) (row : json → exc A) :
  listing None nothing row = Ok (Text nothing).
Proof. reflexivity. Qed.

Lemma make_request_unavailable (url : string) :
  is_available env = false → make_request env url = Ok None.
Proof. intros H. unfold make_request. by rewrite H. Qed.

Lemma make_request_fails (url : string) (refresh : option string) :
  refresh_token env = Ok refresh →
  request_fails env url refresh →
  make_request env url = Ok None.
Proof.
  intros Hrefresh Hfail. unfold make_request.
  destruct (negb (is_available env)); [done |].
  rewrite Hrefresh. simpl.
  destruct Hfail as [[e He] | (token & e & Htoken & Hget)].
  - by rewrite He.
  - rewrite Htoken. simpl. by rewrite Hget.
Qed.

End Ocm.

(** C9. When the token exchange fails, or the authenticated GET after it,
    [make_request] returns [None] and raises nothing; [ocm_get_clusters] and
    [ocm_get_cluster_logs] then answer with their "nothing found" text (or
    with "OCM API not available" without credentials), and raise nothing. *)
Theorem ocm_failure_is_unavailable (env : OCM.Env) (cluster_id : string)
    (refresh : option string) :
  OCM.refresh_token env = Ok refresh →
  (∀ url, request_fails env url refresh → OCM.make_request env url = Ok None)
  ∧ (request_fails env (clusters_url env) refresh →
     OCM.ocm_get_clusters env
     = Ok (OCM.Text
             (if OCM.is_available env
              then "No clusters found or invalid response."
              else "OCM API not available. Set OCM_CLIENT_ID, OCM_OFFLINE_TOKEN, and ACCESS_TOKEN_URL.")))
  ∧ (request_fails env (cluster_logs_url env cluster_id) refresh →
     OCM.ocm_get_cluster_logs env cluster_id
     = Ok (OCM.Text
             (if OCM.is_available env
              then "No logs found or invalid response."
              else "OCM API not available"))).
Proof.
  intros Hrefresh. split; [| split].
  - intros url. by apply make_request_fails.
  - intros Hfail. unfold OCM.ocm_get_clusters.
    destruct (OCM.is_available env); [| done]. simpl.
    fold (clusters_url env).
    by rewrite (make_request_fails env _ refresh).
  - intros Hfail. unfold OCM.ocm_get_cluster_logs.
    destruct (OCM.is_available env); [| done]. simpl.
    fold (cluster_logs_url env cluster_id).
    by rewrite (make_request_fails env _ refresh).
Qed.

Lemma ocm_failure_is_unavailable_witness :
  (OCM.make_request sso_down (clusters_url sso_down) = Ok None
   ∧ OCM.ocm_get_clusters sso_down
     = Ok (OCM.Text "No clusters found or invalid response."))
  ∧ (OCM.make_request api_refuses (cluster_logs_url api_refuses "c1") = Ok None
     ∧ OCM.ocm_get_cluster_logs api_refuses "c1"
       = Ok (OCM.Text "No logs found or invalid response.")).
Proof.
  split.
  - destruct (ocm_failure_is_unavailable sso_down "c1" (Some "offline") eq_refl)
      as (Hreq & Hclusters & _).
    assert (request_fails sso_down (clusters_url sso_down) (Some "offline")) as Hfail.
    { left. by exists "ConnectTimeout". }
    split; [by apply Hreq | by apply Hclusters].
  - destruct (ocm_failure_is_unavailable api_refuses "c1" (Some "offline") eq_refl)
      as (Hreq & _ & Hlogs).
    assert (request_fails api_refuses (cluster_logs_url api_refuses "c1")
              (Some "offline")) as Hfail.
    { right. by exists (OCM.JStr "bearer"), "401 Unauthorized". }
    split; [by apply Hreq | by apply Hlogs].
Defined.

Example ocm_up_lists_clusters :
  ∃ rows, OCM.ocm_get_clusters ocm_up = Ok (OCM.Dumped rows)
          ∧ List.map OCM.cl_name rows = [OCM.JStr "prod"].
Proof. eexists. split; reflexivity. Qed.

(** * Further properties of the code *)

(** ** Search results *)

Section SearchHits.

Variable gw : Gateway.
Variable query : string.



Lemma pod_log_hit_shape (lines : Z) (pod : Pod) (h : Hit) :
  In h (pod_log_hit gw query lines pod) →
  ∃ logs,
    read_namespaced_pod_log gw (pod_name pod) (pod_namespace pod) lines = Ok logs
    ∧ str_in (lower query) (lower logs) = true
    ∧ h = PodLogHit (source_ref (pod_namespace pod) (pod_name pod))
                    (slice_to 5 (matching_lines query logs)).
Proof.
  unfold pod_log_hit.
  destruct (read_namespaced_pod_log _ _ _ _) as [logs|e]; [| done].
  destruct (in_lower query logs) eqn:Hin; [| done].
  intros [<- | []]. by exists logs.
Qed.

(** Where each kind of entry of the sources comes from. *)
Lemma search_pod_logs_member (project : string) (lines : Z) (h : Hit) :
  In h (search_pod_logs gw query project lines) →
  (∃ e, pods_in gw project = Raise e
        ∧ h = ErrorHit ("Pod log search error: " +:+ e))
  ∨ (∃ pods pod, pods_in gw project = Ok pods ∧ In pod (slice_to 20 pods)
                 ∧ In h (pod_log_hit gw query lines pod)).
Proof.
  unfold search_pod_logs. destruct (pods_in gw project) as [pods|e].
  - rewrite in_flat_map. intros (pod & Hpod & Hh). right. by exists pods, pod.
  - intros [<- | []]. left. by exists e.
Qed.

Lemma search_events_member (project : string) (h : Hit) :
  In h (search_events gw query project) →
  (∃ e, events_in gw project = Raise e
        ∧ h = ErrorHit ("Event search error: " +:+ e))
  ∨ (∃ events event, events_in gw project = Ok events ∧ In event events
                     ∧ in_lower query (ev_message event) = true
                     ∧ h = ErrorHit "Event search error: 'CoreV1Event' object has no attribute 'namespace'").
Proof.
  rewrite search_events_spec. destruct (events_in gw project) as [events|e].
  - destruct (existsb _ events) eqn:Hsome; [| done].
    apply existsb_exists in Hsome as (event & Hin & Hmatch).
    intros [<- | []]. right. by exists events, event.
  - intros [<- | []]. left. by exists e.
Qed.

Lemma search_all_logs_member (project resource_types : string) (lines : Z)
    (hits : list Hit) (h : Hit) :
  search_all_logs gw query project resource_types lines = Json hits →
  In h hits →
  In h (search_pod_logs gw query project lines)
  ∨ In h (search_events gw query project).
Proof.
  intros Hjson Hin. apply when_available_json in Hjson as [_ [= <-]].
  rewrite search_build_logs_nothing in Hin.
  rewrite !in_app_iff in Hin.
  destruct Hin as [Hin | [Hin | Hin]];
    [destruct (wants resource_types "pod") | destruct (wants resource_types "event")
     | destruct (wants resource_types "build")]; try done; tauto.
Qed.

End SearchHits.



(** ** Caps, unknown kinds and failing sources *)

Section SearchSources.

Variable gw : Gateway.
Variables query project : string.
Variable lines : Z.

Lemma flat_map_length_le {A B} (body : A → list B) (l : list A) :
  (∀ x, (List.length (body x) <= 1)%nat) →
  (List.length (flat_map body l) <= List.length l)%nat.
Proof.
  intros Hbody. induction l as [|x l IH]; simpl; [lia |].
  rewrite length_app. specialize (Hbody x). lia.
Qed.

Lemma pod_log_hit_length (pod : Pod) :
  (List.length (pod_log_hit gw query lines pod) <= 1)%nat.
Proof.
  unfold pod_log_hit. destruct (read_namespaced_pod_log _ _ _ _); simpl; [| lia].
  destruct (in_lower _ _); simpl; lia.
Qed.

Lemma build_log_hit_length (build : Build) :
  (List.length (build_log_hit gw query build) <= 1)%nat.
Proof. rewrite build_log_hit_nothing. simpl. lia. Qed.

Lemma slice_exact {A} (n : nat) (first rest : list A) :
  List.length first = n → slice_to n (first ++ rest) = first.
Proof.
  intros <-. unfold slice_to. rewrite firstn_app, Nat.sub_diag, firstn_all. simpl.
  apply app_nil_r.
Qed.

End SearchSources.

(** X2. Only the first twenty pods and the first ten builds of a listing are
    read: whatever follows them has no effect on the answer, and one call
    gives at most twenty pod-log entries and ten build-log entries. *)
Theorem search_reads_a_bounded_prefix (gw : Gateway) (query project : string)
    (lines : Z) :
  (∀ first rest,
     pods_in gw project = Ok (first ++ rest) → List.length first = 20 →
     search_pod_logs gw query project lines
     = flat_map (pod_log_hit gw query lines) first)
  ∧ (∀ first rest,
       builds_in gw project = Ok (first ++ rest) → List.length first = 10 →
       search_build_logs gw query project
       = flat_map (build_log_hit gw query) first)
  ∧ (List.length (search_pod_logs gw query project lines) <= 20)%nat
  ∧ (List.length (search_build_logs gw query project) <= 10)%nat.
Proof.
  split; [| split; [| split]].
  - intros first rest Hpods Hlen. unfold search_pod_logs.
    by rewrite Hpods, slice_exact.
  - intros first rest Hbuilds Hlen. unfold search_build_logs.
    by rewrite Hbuilds, slice_exact.
  - unfold search_pod_logs. destruct (pods_in gw project) as [pods|e]; simpl; [| lia].
    transitivity (List.length (slice_to 20 pods));
      [apply flat_map_length_le, pod_log_hit_length |].
    unfold slice_to. rewrite length_firstn. lia.
  - unfold search_build_logs. destruct (builds_in gw project) as [builds|e]; simpl; [| lia].
    transitivity (List.length (slice_to 10 builds));
      [apply flat_map_length_le, build_log_hit_length |].
    unfold slice_to. rewrite length_firstn. lia.
Qed.

Lemma search_reads_a_bounded_prefix_witness :
  search_pod_logs crowded_cluster "memory" "apps" 10
  = flat_map (pod_log_hit crowded_cluster "memory" 10) (letter_pods 20)
  ∧ List.length (search_pod_logs crowded_cluster "memory" "apps" 10) = 20
  ∧ pod_log_hit crowded_cluster "memory" 10 (sample_pod "u" None None)
    = [PodLogHit "apps/u" ["ERROR out of memory"]].
Proof.
  destruct (search_reads_a_bounded_prefix crowded_cluster "memory" "apps" 10)
    as (Hpods & _).
  split; [| split; reflexivity].
  apply (Hpods (letter_pods 20) [sample_pod "u" None None]); reflexivity.
Defined.


(** X4. A resource kind other than "all", "pod", "event" and "build" is no
    error: the answer is the empty list, and nothing is fetched. *)
Theorem unknown_kind_finds_nothing (gw : Gateway)
    (query project resource_types : string) (lines : Z) :
  is_available gw = true →
  resource_types ≠ "all" → resource_types ≠ "pod" →
  resource_types ≠ "event" → resource_types ≠ "build" →
  search_all_logs gw query project resource_types lines = Json [].
Proof.
  intros Hav Hall Hpod Hevent Hbuild.
  rewrite search_all_logs_available by done. unfold wants.
  apply String.eqb_neq in Hall, Hpod, Hevent, Hbuild.
  by rewrite Hall, Hpod, Hevent, Hbuild.
Qed.

Lemma unknown_kind_finds_nothing_witness :
  search_all_logs three_pod_cluster "Error" "apps" "pods" 50 = Json [].
Proof.
  apply (unknown_kind_finds_nothing three_pod_cluster "Error" "apps" "pods" 50);
    [reflexivity | discriminate ..].
Defined.


(** ** Queries and lines *)

Section Lines.



Lemma lower_ascii_newline (c : ascii) :
  Ascii.eqb (lower_ascii c) newline = Ascii.eqb c newline.
Proof.
  destruct c as [[] [] [] [] [] [] [] []]; reflexivity.
Qed.

Lemma split_lines_cons (c : ascii) (s : string) :
  split_lines (String c s)
  = if Ascii.eqb c newline then EmptyString :: split_lines s
    else match split_lines s with
         | [] => [String c EmptyString]
         | l :: ls => String c l :: ls
         end.
Proof. reflexivity. Qed.

Lemma split_lines_lower (s : string) :
  split_lines (lower s) = List.map lower (split_lines s).
Proof.
  induction s as [|c s IH]; [done |].
  change (lower (String c s)) with (String (lower_ascii c) (lower s)).
  rewrite !split_lines_cons, lower_ascii_newline, IH.
  destruct (Ascii.eqb c newline); [done |].
  by destruct (split_lines s).
Qed.

Lemma one_line_lower (s : string) : one_line (lower s) = one_line s.
Proof.
  induction s as [|c s IH]; [done |]. simpl. by rewrite lower_ascii_newline, IH.
Qed.

Lemma prefix_empty (s : string) : String.prefix EmptyString s = true.
Proof. by destruct s. Qed.

Lemma prefix_cons (c d : ascii) (p s : string) :
  String.prefix (String c p) (String d s) = Ascii.eqb c d && String.prefix p s.
Proof.
  simpl. destruct (Ascii.ascii_dec c d) as [-> | Hne].
  - by rewrite Ascii.eqb_refl.
  - apply Ascii.eqb_neq in Hne. by rewrite Hne.
Qed.

(** A one-line prefix of a text is a prefix of its first line. *)
Lemma prefix_first_line (q hay : string) :
  one_line q = true → String.prefix q hay = true →
  ∃ l ls, split_lines hay = l :: ls ∧ String.prefix q l = true.
Proof.
  revert hay. induction q as [|c q IH]; intros hay Hq Hpre.
  - destruct hay as [|d hay].
    + by exists EmptyString, [].
    + rewrite split_lines_cons. destruct (Ascii.eqb d newline).
      * exists EmptyString, (split_lines hay). done.
      * destruct (split_lines hay) as [|l ls]; eexists _, _; split; try done;
          apply prefix_empty.
  - destruct hay as [|d hay]; [done |].
    rewrite prefix_cons in Hpre. apply andb_true_iff in Hpre as [Hcd Hpre].
    apply Ascii.eqb_eq in Hcd. subst d.
    simpl in Hq. apply andb_true_iff in Hq as [Hc Hq].
    apply negb_true_iff in Hc.
    destruct (IH hay Hq Hpre) as (l & ls & Hsplit & Hl).
    rewrite split_lines_cons, Hc, Hsplit. exists (String c l), ls.
    split; [done |]. by rewrite prefix_cons, Ascii.eqb_refl.
Qed.

(** A one-line text inside a longer text is inside one of its lines. *)
Lemma str_in_some_line (q hay : string) :
  one_line q = true → str_in q hay = true →
  existsb (str_in q) (split_lines hay) = true.
Proof.
  intros Hq. induction hay as [|c hay IH]; intros Hin.
  - rewrite str_in_nil in Hin. destruct q; [done | by destruct q].
  - rewrite str_in_cons in Hin. apply orb_true_iff in Hin as [Hpre | Hin].
    + destruct (prefix_first_line q (String c hay) Hq Hpre) as (l & ls & -> & Hl).
      cbn [existsb]. apply orb_true_iff. left.
      apply str_in_spec. apply prefix_spec in Hl as [t ->]. by exists EmptyString, t.
    + specialize (IH Hin). rewrite split_lines_cons.
      destruct (Ascii.eqb c newline); [cbn [existsb]; by rewrite IH, orb_true_r |].
      destruct (split_lines hay) as [|l ls]; [done |].
      cbn [existsb] in IH |- *. apply orb_true_iff in IH as [Hl | Hls].
      * by rewrite str_in_cons, Hl, orb_true_r.
      * by rewrite Hls, orb_true_r.
Qed.

Lemma matching_lines_nonempty (query text : string) :
  one_line query = true → in_lower query text = true →
  matching_lines query text ≠ [].
Proof.
  intros Hq Hin. unfold in_lower in Hin.
  rewrite <- one_line_lower in Hq.
  pose proof (str_in_some_line _ _ Hq Hin) as Hex.
  rewrite split_lines_lower in Hex.
  apply existsb_exists in Hex as (l' & Hl' & Hmatch).
  apply in_map_iff in Hl' as (line & <- & Hline).
  intros Hnil.
  assert (In line (matching_lines query text)) as Hmem.
  { unfold matching_lines. apply filter_In. by split. }
  by rewrite Hnil in Hmem.
Qed.

End Lines.



(** X6. A pod-log or build-log entry for a query without a line break shows
    at least one line.  (A query with a line break can give an entry
    without any line, since lines are matched one by one.) *)
Theorem one_line_query_shows_a_line (gw : Gateway)
    (query project resource_types : string) (lines : Z) (hits : list Hit) (h : Hit) :
  one_line query = true →
  search_all_logs gw query project resource_types lines = Json hits →
  In h hits →
  match h with
  | PodLogHit _ matches => matches ≠ []
  | BuildLogHit _ matches => matches ≠ []
  | _ => True
  end.
Proof.
  intros Hq Hjson Hin.
  assert (∀ n text, in_lower query text = true →
                    slice_to (S n) (matching_lines query text) ≠ []) as Hslice.
  { intros n text Htext. pose proof (matching_lines_nonempty query text Hq Htext).
    by destruct (matching_lines query text). }
  destruct (search_all_logs_member gw query project resource_types lines hits h
              Hjson Hin) as [H | H].
  - apply search_pod_logs_member in H as [(e & _ & ->) | (pods & pod & _ & _ & H)];
      [done |].
    apply pod_log_hit_shape in H as (logs & _ & Hlogs & ->). by apply Hslice.
  - by apply search_events_member in H
      as [(e & _ & ->) | (events & event & _ & _ & _ & ->)].
Qed.

Lemma one_line_query_shows_a_line_witness :
  ["ERROR disk full"] ≠ []
  ∧ search_all_logs two_line_cluster two_line_query "apps" "pod" 50
    = Json [PodLogHit "apps/p1" []].
Proof.
  split; [| reflexivity].
  exact (one_line_query_shows_a_line three_pod_cluster "Error" "apps" "all" 50
           [PodLogHit "apps/p1" ["ERROR disk full"];
            PodLogHit "apps/p3" ["error: retrying"]]
           (PodLogHit "apps/p1" ["ERROR disk full"]) eq_refl eq_refl
           (or_introl eq_refl)).
Defined.

(** ** Tagged searches *)

Section Tagged.

Variable gw : Gateway.

Lemma json_loads_ok {A} (t : tool_out A) (a : A) :
  json_loads t = Ok a → t = Json a.
Proof. destruct t; simpl; congruence. Qed.

Lemma tagged_search_member (source_type : string) (answer : tool_out (list Hit))
    (th : TaggedHit) :
  In th (tagged_search source_type answer) →
  th_source_type th = source_type
  ∧ ∃ hits, answer = Json hits ∧ In (th_hit th) hits.
Proof.
  unfold tagged_search. destruct answer as [|hits|e]; simpl; try done.
  rewrite in_map_iff. intros (h & <- & Hh). split; [done |]. by exists hits.
Qed.

Lemma keyword_mentioned (keywords : list string) (query : string) :
  Forall (fun keyword => lower keyword = keyword) keywords →
  existsb (fun keyword => in_lower keyword query) keywords = true
  ↔ mentions keywords query.
Proof.
  intros Hlow. unfold mentions. rewrite existsb_exists. split.
  - intros (keyword & Hin & Hmatch). unfold in_lower in Hmatch.
    rewrite Forall_forall in Hlow. rewrite (Hlow keyword) in Hmatch
      by (by apply list_elem_of_In).
    apply str_in_spec in Hmatch as (a & b & Hab). by exists keyword, a, b.
  - intros (keyword & a & b & Hin & Hab). exists keyword. split; [done |].
    unfold in_lower. rewrite Forall_forall in Hlow.
    rewrite (Hlow keyword) by (by apply list_elem_of_In).
    apply str_in_spec. by exists a, b.
Qed.

Lemma gpu_keywords_lower : Forall (fun keyword => lower keyword = keyword) gpu_keywords.
Proof. by repeat constructor. Qed.

Lemma dpu_keywords_lower : Forall (fun keyword => lower keyword = keyword) dpu_keywords.
Proof. by repeat constructor. Qed.

Lemma search_gpu_logs_parts (query log_type : string) (lines : Z)
    (tagged : list TaggedHit) :
  search_gpu_logs gw query log_type lines = Json tagged →
  tagged
  = tagged_search "nvidia-gpu-operator"
      (search_all_logs gw query "nvidia-gpu-operator" log_type lines)
    ++ tagged_search "opendatahub"
         (search_all_logs gw query "opendatahub" log_type lines)
    ++ (if existsb (fun keyword => in_lower keyword query) gpu_keywords
        then tagged_search "cluster-wide"
               (search_all_logs gw query "all" log_type (lines / 5))
        else []).
Proof.
  intros H. apply when_available_json in H as [_ H].
  injection H as H. exact (eq_sym H).
Qed.

Lemma search_bluefield_dpu_logs_parts (query log_type : string) (lines : Z)
    (tagged : list TaggedHit) :
  search_bluefield_dpu_logs gw query log_type lines = Json tagged →
  tagged
  = tagged_search "nvidia-network-operator"
      (search_all_logs gw query "nvidia-network-operator" log_type lines)
    ++ tagged_search "openshift-sriov-network-operator"
         (search_all_logs gw query "openshift-sriov-network-operator" log_type lines)
    ++ (if existsb (fun keyword => in_lower keyword query) dpu_keywords
        then tagged_search "cluster-wide"
               (search_all_logs gw query "all" log_type (lines / 7))
        else []).
Proof.
  intros H. apply when_available_json in H as [_ H].
  injection H as H. exact (eq_sym H).
Qed.

End Tagged.

(** X7. [search_gpu_logs] searches the namespaces "nvidia-gpu-operator" and
    "opendatahub" with the given window and tags each entry with its
    namespace.  It adds a cluster-wide search only for a query that mentions
    "gpu", "nvidia", "cuda", "dcgm" or "mig", and then with a fifth of the
    window. *)
Theorem gpu_search_scopes (gw : Gateway) (query log_type : string) (lines : Z)
    (tagged : list TaggedHit) (th : TaggedHit) :
  search_gpu_logs gw query log_type lines = Json tagged →
  In th tagged →
  (th_source_type th = "nvidia-gpu-operator"
   ∧ found_in gw query "nvidia-gpu-operator" log_type lines (th_hit th))
  ∨ (th_source_type th = "opendatahub"
     ∧ found_in gw query "opendatahub" log_type lines (th_hit th))
  ∨ (th_source_type th = "cluster-wide"
     ∧ mentions ["gpu"; "nvidia"; "cuda"; "dcgm"; "mig"] query
     ∧ found_in gw query "all" log_type (lines / 5) (th_hit th)).
Proof.
  intros Hjson Hin. apply search_gpu_logs_parts in Hjson as ->.
  rewrite !in_app_iff in Hin. destruct Hin as [Hin | [Hin | Hin]].
  - left. by apply tagged_search_member in Hin.
  - right. left. by apply tagged_search_member in Hin.
  - right. right.
    destruct (existsb _ gpu_keywords) eqn:Hkw; [| done].
    apply (keyword_mentioned gpu_keywords query gpu_keywords_lower) in Hkw.
    apply tagged_search_member in Hin as [Htag Hfound]. by repeat split.
Qed.

Lemma gpu_search_scopes_witness :
  mentions ["gpu"; "nvidia"; "cuda"; "dcgm"; "mig"] "CUDA"
  ∧ found_in (one_log_cluster "cuda error 700") "CUDA" "all" "pod" 10
             (PodLogHit "apps/p1" ["cuda error 700"]).
Proof.
  destruct (gpu_search_scopes (one_log_cluster "cuda error 700") "CUDA" "pod" 50
              [tag "nvidia-gpu-operator" (PodLogHit "apps/p1" ["cuda error 700"]);
               tag "opendatahub" (PodLogHit "apps/p1" ["cuda error 700"]);
               tag "cluster-wide" (PodLogHit "apps/p1" ["cuda error 700"])]
              (tag "cluster-wide" (PodLogHit "apps/p1" ["cuda error 700"]))
              eq_refl (or_intror (or_intror (or_introl eq_refl))))
    as [[Htag _] | [[Htag _] | [_ H]]]; [discriminate Htag .. | exact H].
Defined.

(** X8. [search_bluefield_dpu_logs] searches the namespaces
    "nvidia-network-operator" and "openshift-sriov-network-operator" with
    the given window, and the whole cluster only for a query that mentions
    a DPU keyword, then with a seventh of the window. *)
Theorem dpu_search_scopes (gw : Gateway) (query log_type : string) (lines : Z)
    (tagged : list TaggedHit) (th : TaggedHit) :
  search_bluefield_dpu_logs gw query log_type lines = Json tagged →
  In th tagged →
  (th_source_type th = "nvidia-network-operator"
   ∧ found_in gw query "nvidia-network-operator" log_type lines (th_hit th))
  ∨ (th_source_type th = "openshift-sriov-network-operator"
     ∧ found_in gw query "openshift-sriov-network-operator" log_type lines (th_hit th))
  ∨ (th_source_type th = "cluster-wide"
     ∧ mentions ["bluefield"; "dpu"; "mellanox"; "connectx"; "ofed"; "rdma"; "sriov"]
                query
     ∧ found_in gw query "all" log_type (lines / 7) (th_hit th)).
Proof.
  intros Hjson Hin. apply search_bluefield_dpu_logs_parts in Hjson as ->.
  rewrite !in_app_iff in Hin. destruct Hin as [Hin | [Hin | Hin]].
  - left. by apply tagged_search_member in Hin.
  - right. left. by apply tagged_search_member in Hin.
  - right. right.
    destruct (existsb _ dpu_keywords) eqn:Hkw; [| done].
    apply (keyword_mentioned dpu_keywords query dpu_keywords_lower) in Hkw.
    apply tagged_search_member in Hin as [Htag Hfound]. by repeat split.
Qed.


Lemma dpu_search_scopes_witness :
  mentions ["bluefield"; "dpu"; "mellanox"; "connectx"; "ofed"; "rdma"; "sriov"] "RDMA"
  ∧ found_in (one_log_cluster "rdma link down") "RDMA" "all" "pod" 7
             (PodLogHit "apps/p1" ["rdma link down"]).
Proof.
  destruct (dpu_search_scopes (one_log_cluster "rdma link down") "RDMA" "pod" 50
              [tag "nvidia-network-operator" (PodLogHit "apps/p1" ["rdma link down"]);
               tag "openshift-sriov-network-operator"
                   (PodLogHit "apps/p1" ["rdma link down"]);
               tag "cluster-wide" (PodLogHit "apps/p1" ["rdma link down"])]
              (tag "cluster-wide" (PodLogHit "apps/p1" ["rdma link down"]))
              eq_refl (or_intror (or_intror (or_introl eq_refl))))
    as [[Htag _] | [[Htag _] | [_ H]]]; [discriminate Htag .. | exact H].
Defined.

(** ** Operators and health reports *)

Section Reports.

Variable gw : Gateway.

Lemma dpu_report_parts (r : DpuHealthReport) :
  get_bluefield_dpu_health gw = Json r →
  get_nvidia_operators gw "all" = Json
    (List.filter is_nvidia_operator
       (olm_operators gw "all" ++ helm_operators gw ++ custom_operators gw "all"))
  ∧ get_bluefield_dpu_nodes gw = Json (dh_dpu_nodes r)
  ∧ get_bluefield_dpu_workloads gw "all" = Json (dh_dpu_workloads r)
  ∧ search_gpu_logs gw "ERROR" "all" 50 = Json (dh_recent_dpu_errors r)
  ∧ search_gpu_logs gw "ofed" "all" 20 = Json (dh_ofed_driver_status r)
  ∧ search_gpu_logs gw "rdma" "all" 20 = Json (dh_rdma_device_status r).
Proof.
  intros H. apply when_available_json in H as [Hav H].
  apply catch_all_json in H. unfold dpu_health_body in H.
  apply bind_ok in H as (ops & Hops & H).
  apply bind_ok in H as (nodes & Hnodes & H).
  apply bind_ok in H as (workloads & Hworkloads & H).
  apply bind_ok in H as (errors & Herrors & H).
  apply bind_ok in H as (ofed & Hofed & H).
  apply bind_ok in H as (rdma & Hrdma & H).
  injection H as <-. simpl.
  apply json_loads_ok in Hnodes, Hworkloads, Herrors, Hofed, Hrdma.
  repeat split; try done. by apply get_nvidia_operators_available.
Qed.

Lemma gpu_report_parts (now : string) (r : GpuHealthReport) :
  get_gpu_operator_health gw now = Json r →
  ∃ healthy,
    gh_operator_status r
    = first_operator "gpu-operator"
        (List.filter is_nvidia_operator
           (olm_operators gw "all" ++ helm_operators gw ++ custom_operators gw "all"))
    ∧ operator_healthy (gh_operator_status r) = Ok healthy
    ∧ match gh_operator_status r with
      | Some operator =>
          get_operator_pods gw "gpu-operator"
            (op_namespace "nvidia-gpu-operator" operator) = Json (gh_pods_status r)
      | None => gh_pods_status r = []
      end
    ∧ search_all_logs gw "ERROR" "nvidia-gpu-operator" "all" 50
      = Json (gh_recent_errors r)
    ∧ get_gpu_nodes gw = Json (gh_gpu_nodes r)
    ∧ gh_summary r
      = gpu_summary now (gh_operator_status r) healthy (gh_pods_status r)
                    (gh_gpu_nodes r) (gh_recent_errors r).
Proof.
  intros H. apply when_available_json in H as [Hav H].
  apply catch_all_json in H. unfold gpu_health_body in H.
  rewrite get_nvidia_operators_available in H by done. simpl in H.
  apply bind_ok in H as (pods & Hpods & H).
  apply bind_ok in H as (errors & Herrors & H).
  apply bind_ok in H as (nodes & Hnodes & H).
  apply bind_ok in H as (driver & Hdriver & H).
  apply bind_ok in H as (device & Hdevice & H).
  apply bind_ok in H as (healthy & Hhealthy & H).
  injection H as <-. simpl. exists healthy.
  apply json_loads_ok in Herrors, Hnodes.
  repeat split; try done.
  destruct (first_operator _ _); [by apply json_loads_ok in Hpods | by injection Hpods].
Qed.

Lemma is_nvidia_operator_error (message : string) :
  is_nvidia_operator (OperatorError message) = false.
Proof. reflexivity. Qed.

End Reports.

(** X9. The three search facets of [get_bluefield_dpu_health] come from
    [search_gpu_logs] with the queries "ERROR", "ofed" and "rdma", none of
    which mentions a GPU keyword: every entry of them was found in the
    namespace "nvidia-gpu-operator" or "opendatahub". *)
Theorem dpu_health_reads_gpu_namespaces (gw : Gateway) (r : DpuHealthReport)
    (th : TaggedHit) :
  get_bluefield_dpu_health gw = Json r →
  In th (dh_recent_dpu_errors r ++ dh_ofed_driver_status r ++ dh_rdma_device_status r) →
  th_source_type th = "nvidia-gpu-operator" ∨ th_source_type th = "opendatahub".
Proof.
  intros Hr Hin.
  destruct (dpu_report_parts gw r Hr) as (_ & _ & _ & Herrors & Hofed & Hrdma).
  apply search_gpu_logs_parts in Herrors, Hofed, Hrdma.
  change (existsb _ gpu_keywords) with false in Herrors, Hofed, Hrdma.
  rewrite app_nil_r in Herrors, Hofed, Hrdma.
  rewrite Herrors, Hofed, Hrdma in Hin. rewrite !in_app_iff in Hin.
  destruct Hin as [[H | H] | [[H | H] | [H | H]]];
    apply tagged_search_member in H as [Htag _]; (by left) || (by right).
Qed.

Lemma dpu_health_reads_gpu_namespaces_witness :
  match get_bluefield_dpu_health three_pod_cluster with
  | Json r =>
      dh_recent_dpu_errors r ≠ []
      ∧ ∀ th, In th (dh_recent_dpu_errors r) →
              th_source_type th = "nvidia-gpu-operator"
              ∨ th_source_type th = "opendatahub"
  | _ => False
  end.
Proof.
  destruct (get_bluefield_dpu_health three_pod_cluster) as [|r|e] eqn:Hr;
    [vm_compute in Hr; discriminate Hr | | vm_compute in Hr; discriminate Hr].
  split.
  - vm_compute in Hr. injection Hr as <-. discriminate.
  - intros th Hin.
    apply (dpu_health_reads_gpu_namespaces three_pod_cluster r th Hr).
    apply in_app_iff. by left.
Defined.

(** X10. [get_nvidia_operators] never passes on an entry of type "error" of
    [get_all_operators]: when neither subscriptions nor deployments can be
    listed, its answer is just the NVIDIA entries of the Helm source, with
    no sign of the two failures. *)
Theorem nvidia_filter_hides_errors (gw : Gateway) (project : string)
    (operators : list OperatorEntry) :
  get_nvidia_operators gw project = Json operators →
  (∀ operator message, In operator operators → operator ≠ OperatorError message)
  ∧ (∀ e1 e2,
       (if String.eqb project "all" then list_subscription_for_all_namespaces gw
        else list_namespaced_subscription gw project) = Raise e1 →
       (if String.eqb project "all" then list_deployment_for_all_namespaces gw
        else list_namespaced_deployment gw project) = Raise e2 →
       operators = List.filter is_nvidia_operator (helm_operators gw)).
Proof.
  intros Hjson. pose proof Hjson as Hav.
  apply when_available_json in Hav as [Hav _].
  rewrite get_nvidia_operators_available in Hjson by done.
  injection Hjson as <-. split.
  - intros operator message Hin ->.
    apply filter_In in Hin as [_ Hin]. by rewrite is_nvidia_operator_error in Hin.
  - intros e1 e2 Hsubs Hdeps.
    unfold olm_operators, custom_operators. rewrite Hsubs, Hdeps.
    rewrite !List.filter_app. simpl. by rewrite app_nil_r.
Qed.

Lemma nvidia_filter_hides_errors_witness :
  get_all_operators blind_cluster "all"
  = Json [OperatorError "Error getting OLM operators: 403 Forbidden";
          OperatorError "Error getting custom operators: 403 Forbidden"]
  ∧ ∀ operator message, In operator [] → operator ≠ OperatorError message.
Proof.
  split; [reflexivity |].
  by destruct (nvidia_filter_hides_errors blind_cluster "all" [] eq_refl) as [H _].
Defined.

(** X11. When the GPU operator that was discovered is a subscription whose
    CSV could not be read, [get_gpu_operator_health] builds no report: the
    answer is an error text, whatever the other facets found. *)
Theorem gpu_health_needs_csv_info (gw : Gateway) (now : string)
    (name namespace package channel source source_namespace created : string)
    (installed_csv : option string) :
  is_available gw = true →
  first_operator "gpu-operator"
    (List.filter is_nvidia_operator
       (olm_operators gw "all" ++ helm_operators gw ++ custom_operators gw "all"))
  = Some (OlmOperator name namespace package channel source source_namespace
                      installed_csv None created) →
  ∃ e, get_gpu_operator_health gw now
       = ErrorText ("Error getting GPU operator health: " +:+ e).
Proof.
  intros Hav Hfirst. unfold get_gpu_operator_health, when_available.
  rewrite Hav. simpl. unfold gpu_health_body.
  rewrite get_nvidia_operators_available by done. simpl. rewrite Hfirst. simpl.
  destruct (json_loads (get_operator_pods _ _ _)) as [pods|e]; simpl; [| by eexists].
  destruct (json_loads (search_all_logs gw "ERROR" _ _ _)) as [errors|e]; simpl;
    [| by eexists].
  destruct (json_loads (get_gpu_nodes gw)) as [nodes|e]; simpl; [| by eexists].
  destruct (json_loads (search_all_logs gw "nvidia-driver" _ _ _)) as [driver|e];
    simpl; [| by eexists].
  destruct (json_loads (search_all_logs gw "device-plugin" _ _ _)) as [device|e];
    simpl; by eexists.
Qed.

Lemma gpu_health_needs_csv_info_witness :
  get_gpu_operator_health subscribed_cluster sample_now
  = ErrorText "Error getting GPU operator health: 'NoneType' object has no attribute 'get'".
Proof.
  destruct (gpu_health_needs_csv_info subscribed_cluster sample_now
              "gpu-operator-certified" "nvidia-gpu-operator" "gpu-operator-certified"
              "stable" "certified-operators" "openshift-marketplace"
              "2024-01-01T00:00:00Z" (Some "gpu-operator-certified.v24.3.0")
              eq_refl eq_refl) as [e He].
  rewrite He. vm_compute in He. by injection He as <-.
Defined.

(** X12. In every report of [get_gpu_operator_health] the summary agrees
    with the facets: the counts are the lengths of the pod, node and error
    lists, the running pods are among the pods, [operator_healthy] is true
    exactly for a subscription entry whose CSV phase is "Succeeded", and
    without an operator the pod list is empty. *)
Theorem gpu_summary_agrees_with_facets (gw : Gateway) (now : string)
    (r : GpuHealthReport) :
  get_gpu_operator_health gw now = Json r →
  count_of (gh_summary r) "total_pods" = Some (len (gh_pods_status r))
  ∧ count_of (gh_summary r) "gpu_nodes_count" = Some (len (gh_gpu_nodes r))
  ∧ count_of (gh_summary r) "recent_errors_count" = Some (len (gh_recent_errors r))
  ∧ (∃ running, count_of (gh_summary r) "running_pods" = Some running
                ∧ (0 <= running <= len (gh_pods_status r))%Z)
  ∧ gh_summary r !! "operator_installed" = Some (SBool (is_some (gh_operator_status r)))
  ∧ (gh_summary r !! "operator_healthy" = Some (SBool true)
     ↔ ∃ name namespace package channel source source_namespace installed info created,
         gh_operator_status r
         = Some (OlmOperator name namespace package channel source source_namespace
                             installed (Some info) created)
         ∧ ci_phase info = "Succeeded")
  ∧ (gh_operator_status r = None → gh_pods_status r = []).
Proof.
  intros Hr.
  destruct (gpu_report_parts gw now r Hr)
    as (healthy & _ & Hhealthy & Hpods & _ & _ & ->).
  split; [reflexivity |]. split; [reflexivity |]. split; [reflexivity |].
  split; [| split; [reflexivity | split]].
  - eexists. split; [reflexivity |]. unfold len.
    pose proof (filter_length_le (fun p => String.eqb (pe_status p) "Running")
                  (gh_pods_status r)). lia.
  - change (gpu_summary now (gh_operator_status r) healthy (gh_pods_status r)
              (gh_gpu_nodes r) (gh_recent_errors r) !! "operator_healthy")
      with (Some (SBool healthy)).
    unfold operator_healthy in Hhealthy. split.
    + intros [= ->].
      destruct (gh_operator_status r) as [[? ? ? ? ? ? ? [info|] ?| | |]|]; try done.
      injection Hhealthy as Hphase. apply String.eqb_eq in Hphase.
      by eexists _, _, _, _, _, _, _, _, _.
    + intros (? & ? & ? & ? & ? & ? & ? & info & ? & Hop & Hphase).
      rewrite Hop in Hhealthy. injection Hhealthy as <-.
      apply String.eqb_eq in Hphase. by rewrite Hphase.
  - intros Hnone. by rewrite Hnone in Hpods.
Qed.

(** X13. In every report of [get_bluefield_dpu_health] the counts of the
    summary are the lengths of the node, workload and error lists, and
    [health_status] is "healthy" exactly when [recent_errors_count] is 0. *)
Theorem dpu_summary_agrees_with_facets (gw : Gateway) (r : DpuHealthReport) :
  get_bluefield_dpu_health gw = Json r →
  count_of (dh_summary r) "dpu_nodes_count" = Some (len (dh_dpu_nodes r))
  ∧ count_of (dh_summary r) "dpu_workloads_count" = Some (len (dh_dpu_workloads r))
  ∧ count_of (dh_summary r) "recent_errors_count" = Some (len (dh_recent_dpu_errors r))
  ∧ (dh_summary r !! "health_status" = Some (SStr "healthy")
     ↔ count_of (dh_summary r) "recent_errors_count" = Some 0%Z)
  ∧ (dh_summary r !! "health_status" = Some (SStr "degraded")
     ↔ ∃ n, count_of (dh_summary r) "recent_errors_count" = Some n ∧ (0 < n)%Z).
Proof.
  intros Hr. rewrite (dpu_report_summary gw r Hr).
  split; [reflexivity |]. split; [reflexivity |]. split; [reflexivity |].
  change (dpu_summary _ _ _ (dh_recent_dpu_errors r) !! "health_status")
    with (Some (SStr (match dh_recent_dpu_errors r with
                      | [] => "healthy"
                      | _ :: _ => "degraded"
                      end))).
  change (count_of (dpu_summary _ _ _ (dh_recent_dpu_errors r)) "recent_errors_count")
    with (Some (len (dh_recent_dpu_errors r))).
  unfold len. destruct (dh_recent_dpu_errors r) as [|th ths]; simpl; split; split;
    try done.
  - intros [n [[= <-] Hn]]. lia.
  - intros _. eexists. split; [done |]. lia.
Qed.

Lemma gpu_summary_agrees_with_facets_witness :
  match get_gpu_operator_health three_pod_cluster sample_now with
  | Json r =>
      count_of (gh_summary r) "recent_errors_count" = Some (len (gh_recent_errors r))
      ∧ len (gh_recent_errors r) = 2%Z
      ∧ gh_summary r !! "operator_installed" = Some (SBool false)
  | _ => False
  end.
Proof.
  destruct (get_gpu_operator_health three_pod_cluster sample_now) as [|r|e] eqn:Hr;
    [vm_compute in Hr; discriminate Hr | | vm_compute in Hr; discriminate Hr].
  destruct (gpu_summary_agrees_with_facets three_pod_cluster sample_now r Hr)
    as (_ & _ & Herrors & _ & Hinstalled & _).
  vm_compute in Hr. injection Hr as <-.
  split; [exact Herrors |]. split; [reflexivity | exact Hinstalled].
Defined.

Lemma dpu_summary_agrees_with_facets_witness :
  match get_bluefield_dpu_health quiet_gateway with
  | Json r =>
      dh_summary r !! "health_status" = Some (SStr "healthy")
      ∧ count_of (dh_summary r) "recent_errors_count" = Some 0%Z
  | _ => False
  end.
Proof.
  destruct (get_bluefield_dpu_health quiet_gateway) as [|r|e] eqn:Hr;
    [vm_compute in Hr; discriminate Hr | | vm_compute in Hr; discriminate Hr].
  destruct (dpu_summary_agrees_with_facets quiet_gateway r Hr)
    as (_ & _ & Hcount & Hhealthy & _).
  assert (count_of (dh_summary r) "recent_errors_count" = Some 0%Z) as Hzero.
  { rewrite Hcount. vm_compute in Hr. by injection Hr as <-. }
  split; [by apply Hhealthy | exact Hzero].
Defined.

(** ** Nodes *)

Lemma is_nvidia_label_spec (key : string) :
  is_nvidia_label key = true
  ↔ (∃ a b, lower key = a +:+ "nvidia" +:+ b) ∨ (∃ a b, lower key = a +:+ "gpu" +:+ b).
Proof. unfold is_nvidia_label. by rewrite orb_true_iff, !str_in_spec. Qed.

Lemma conditions_of_member (types : list string) (conds : option (list Condition))
    (c : Condition) :
  In c (conditions_of types conds)
  ↔ ∃ cs, conds = Some cs ∧ In c cs ∧ In (cond_type c) types.
Proof.
  unfold conditions_of. destruct conds as [cs|].
  - rewrite filter_In, existsb_exists. split.
    + intros [Hin (t & Ht & Heq)]. apply String.eqb_eq in Heq. subst t. by exists cs.
    + intros (cs' & [= <-] & Hin & Ht). split; [done |].
      exists (cond_type c). split; [done | apply String.eqb_refl].
  - split; [done | intros (cs & ? & _); congruence].
Qed.

(** X14. Every entry of [get_gpu_nodes] describes a listed node: its
    [gpu_resources] are exactly the allocatable resources of the node whose
    key contains "nvidia.com" or, in any letter case, "gpu", with their
    quantities; its [nvidia_labels] are exactly the labels whose key contains
    "nvidia" or "gpu" in any letter case; its conditions are those of type
    "Ready", "GPUReady" or "NvidiaGPU". *)
Theorem gpu_node_entries (gw : Gateway) (infos : list GpuNodeInfo) (info : GpuNodeInfo) :
  get_gpu_nodes gw = Json infos →
  In info infos →
  ∃ nodes node,
    list_node gw = Ok nodes ∧ In node nodes ∧ gn_name info = node_name node
    ∧ (∀ k v, gn_gpu_resources info !! k = Some v
              ↔ ∃ items, node_allocatable node = Some items ∧ items !! k = Some v
                         ∧ gpu_key k)
    ∧ (∀ k v, gn_nvidia_labels info !! k = Some v
              ↔ ∃ items, node_labels node = Some items ∧ items !! k = Some v
                         ∧ ((∃ a b, lower k = a +:+ "nvidia" +:+ b)
                            ∨ (∃ a b, lower k = a +:+ "gpu" +:+ b)))
    ∧ (∀ c, In c (gn_conditions info)
            ↔ ∃ cs, node_conditions node = Some cs ∧ In c cs
                    ∧ In (cond_type c) ["Ready"; "GPUReady"; "NvidiaGPU"]).
Proof.
  intros Hjson Hin. apply when_available_json in Hjson as [_ Hjson].
  apply catch_all_json in Hjson.
  apply bind_ok in Hjson as (nodes & Hnodes & [= <-]).
  apply filter_In in Hin as [Hin _].
  apply in_map_iff in Hin as (node & <- & Hnode).
  exists nodes, node. split; [done |]. split; [done |]. split; [done |].
  split; [| split].
  - intros k v. simpl. rewrite dict_collect_opt_empty.
    by setoid_rewrite is_gpu_resource_spec.
  - intros k v. simpl. rewrite dict_collect_opt_empty.
    by setoid_rewrite is_nvidia_label_spec.
  - intros c. apply conditions_of_member.
Qed.

Lemma gpu_node_entries_witness :
  ∃ info, get_gpu_nodes node_cluster = Json [info]
          ∧ gn_name info = "worker-2"
          ∧ gn_gpu_resources info = {[ "nvidia.com/gpu" := "8" ]}
          ∧ List.map cond_type (gn_conditions info) = ["Ready"].
Proof.
  exists (gpu_node_info gpu_node).
  destruct (gpu_node_entries node_cluster [gpu_node_info gpu_node]
              (gpu_node_info gpu_node) eq_refl (or_introl eq_refl))
    as (nodes & node & _ & _ & Hname & _).
  repeat split; vm_compute; reflexivity.
Defined.

Lemma dpu_node_selected_spec (node : Node) :
  dpu_node_selected (dpu_node_info node) = true
  ↔ (∃ items k v, node_allocatable node = Some items ∧ items !! k = Some v
                  ∧ (is_dpu_resource k = true ∨ is_network_resource k = true))
    ∨ (∃ items k v, node_labels node = Some items ∧ items !! k = Some v
                    ∧ is_bluefield_label k = true).
Proof.
  unfold dpu_node_selected. simpl. rewrite !orb_true_iff, !dict_true_spec.
  split.
  - intros [[(k & v & H) | (k & v & H)] | (k & v & H)];
      apply dict_collect_opt_empty in H as (m & ? & ? & ?);
      [left | right | left]; exists m, k, v; eauto.
  - intros [(m & k & v & ? & ? & [? | ?]) | (m & k & v & ? & ? & ?)].
    + left. left. exists k, v. apply dict_collect_opt_empty. by exists m.
    + right. exists k, v. apply dict_collect_opt_empty. by exists m.
    + left. right. exists k, v. apply dict_collect_opt_empty. by exists m.
Qed.

(** X15. [get_bluefield_dpu_nodes] lists a node exactly when an allocatable
    resource key contains "nvidia.com/dpu", "nvidia.com/bluefield",
    "nvidia.com/sriov" or "mellanox.com", or contains "sriov", "rdma" or "net"
    in any letter case, or when a label key contains "bluefield", "dpu",
    "mellanox" or "connectx" in any letter case.  The annotations fill
    [dpu_info] and do not decide the listing. *)
Theorem dpu_node_listing (gw : Gateway) (nodes : list Node) :
  is_available gw = true →
  list_node gw = Ok nodes →
  ∃ infos,
    get_bluefield_dpu_nodes gw = Json infos
    ∧ ∀ info,
        In info infos
        ↔ ∃ node,
            In node nodes ∧ info = dpu_node_info node
            ∧ ((∃ items k v,
                  node_allocatable node = Some items ∧ items !! k = Some v
                  ∧ (str_in "nvidia.com/dpu" k = true
                     ∨ str_in "nvidia.com/bluefield" k = true
                     ∨ str_in "nvidia.com/sriov" k = true
                     ∨ str_in "mellanox.com" k = true
                     ∨ str_in "sriov" (lower k) = true
                     ∨ str_in "rdma" (lower k) = true
                     ∨ str_in "net" (lower k) = true))
               ∨ (∃ items k v,
                    node_labels node = Some items ∧ items !! k = Some v
                    ∧ (str_in "bluefield" (lower k) = true
                       ∨ str_in "dpu" (lower k) = true
                       ∨ str_in "mellanox" (lower k) = true
                       ∨ str_in "connectx" (lower k) = true))).
Proof.
  intros Hav Hnodes. eexists. split.
  - unfold get_bluefield_dpu_nodes, when_available. by rewrite Hav, Hnodes.
  - intros info. rewrite filter_In, in_map_iff. split.
    + intros [(node & <- & Hnode) Hsel]. exists node. split; [done |]. split; [done |].
      apply dpu_node_selected_spec in Hsel.
      destruct Hsel as [(m & k & v & ? & ? & Hk) | (m & k & v & ? & ? & Hk)].
      * left. exists m, k, v. split; [done |]. split; [done |].
        unfold is_dpu_resource, is_network_resource in Hk.
        rewrite !orb_true_iff in Hk. tauto.
      * right. exists m, k, v. split; [done |]. split; [done |].
        unfold is_bluefield_label in Hk. rewrite !orb_true_iff in Hk. tauto.
    + intros (node & Hnode & -> & Hsel). split; [by exists node |].
      apply dpu_node_selected_spec.
      destruct Hsel as [(m & k & v & ? & ? & Hk) | (m & k & v & ? & ? & Hk)].
      * left. exists m, k, v. split; [done |]. split; [done |].
        unfold is_dpu_resource, is_network_resource.
        rewrite !orb_true_iff. tauto.
      * right. exists m, k, v. split; [done |]. split; [done |].
        unfold is_bluefield_label. rewrite !orb_true_iff. tauto.
Qed.

Lemma dpu_node_listing_witness :
  get_bluefield_dpu_nodes node_cluster = Json []
  ∧ dn_dpu_info (dpu_node_info annotated_node) = {[ "nvidia.com/dpu-mode" := "embedded" ]}.
Proof.
  destruct (dpu_node_listing node_cluster [annotated_node; gpu_node] eq_refl eq_refl)
    as (infos & Hjson & _).
  split; [| vm_compute; reflexivity].
  rewrite Hjson. vm_compute in Hjson. by injection Hjson as <-.
Defined.

(** ** DPU workloads *)

Section DpuScan.

Lemma keep_exclusive (key : string) :
  (keep_dpu key = true → keep_sriov key = false ∧ keep_rdma key = false)
  ∧ (keep_sriov key = true → keep_rdma key = false).
Proof.
  unfold keep_sriov, keep_rdma.
  destruct (keep_dpu key), (str_in "sriov" (lower key)); simpl; by repeat split.
Qed.

Lemma keep_any_spec (key : string) :
  keep_any key = true
  ↔ str_in "nvidia.com/dpu" key = true ∨ str_in "nvidia.com/bluefield" key = true
    ∨ str_in "sriov" (lower key) = true ∨ str_in "rdma" (lower key) = true.
Proof.
  unfold keep_any, keep_sriov, keep_rdma, keep_dpu.
  destruct (str_in "nvidia.com/dpu" key), (str_in "nvidia.com/bluefield" key),
    (str_in "sriov" (lower key)), (str_in "rdma" (lower key)); simpl; tauto.
Qed.

(** One resource key: the three dictionaries and the flag. *)
Lemma dpu_item_split (st : DpuDicts * bool) (kv : string * string) :
  dpu_item st kv
  = ({| dd_dpu := collect_step keep_dpu (dd_dpu st.1) kv;
        dd_sriov := collect_step keep_sriov (dd_sriov st.1) kv;
        dd_rdma := collect_step keep_rdma (dd_rdma st.1) kv |},
     st.2 || keep_any kv.1).
Proof.
  destruct st as [[d s r] flag], kv as [k v].
  unfold dpu_item, collect_step, keep_any, keep_sriov, keep_rdma, keep_dpu. simpl.
  destruct (str_in "nvidia.com/dpu" k), (str_in "nvidia.com/bluefield" k),
    (str_in "sriov" (lower k)), (str_in "rdma" (lower k)); simpl;
    by rewrite ?orb_true_r, ?orb_false_r.
Qed.

Lemma dpu_items_loop_split (items : option (gmap string string))
    (out : DpuDicts) (flag : bool) :
  dpu_items_loop items (out, flag)
  = ({| dd_dpu := dict_collect_opt keep_dpu items (dd_dpu out);
        dd_sriov := dict_collect_opt keep_sriov items (dd_sriov out);
        dd_rdma := dict_collect_opt keep_rdma items (dd_rdma out) |},
     flag || dict_hits keep_any items).
Proof.
  destruct items as [m|]; simpl; [| destruct out; by rewrite orb_false_r].
  unfold dict_collect. generalize (map_to_list m) as l. intros l.
  revert out flag. induction l as [|kv l IH]; intros out flag.
  - destruct out. simpl. by rewrite orb_false_r.
  - cbn [foldl existsb]. rewrite dpu_item_split, IH. simpl. by rewrite orb_assoc.
Qed.

Lemma dpu_scan_split (containers : list Container) (st : DpuScan) :
  foldl dpu_scan_container st containers
  = {| ds_requests := scan_dicts res_requests (ds_requests st) containers;
       ds_limits := scan_dicts res_limits (ds_limits st) containers;
       ds_has_dpu := ds_has_dpu st || existsb dpu_container_hits containers |}.
Proof.
  revert st. induction containers as [|c cs IH]; intros st.
  - destruct st as [[] [] ?]. simpl. by rewrite orb_false_r.
  - cbn [foldl existsb]. rewrite IH. unfold dpu_scan_container, dpu_container_hits.
    destruct (container_resources c) as [res|] eqn:Hres.
    + rewrite !dpu_items_loop_split. unfold scan_dicts, scan_with. simpl.
      rewrite Hres. by rewrite !orb_assoc.
    + unfold scan_dicts, scan_with. simpl. by rewrite Hres.
Qed.

Variable keep : string → bool.
Variable pick : Resources → option (gmap string string).

(** An entry of a filled dictionary passes the test of that dictionary and
    is declared by a container, or was there before. *)
Lemma scan_with_sound (containers : list Container) (out : gmap string string)
    (k v : string) :
  scan_with keep pick out containers !! k = Some v →
  out !! k = Some v
  ∨ (keep k = true
     ∧ ∃ container res items,
         In container containers ∧ container_resources container = Some res
         ∧ pick res = Some items ∧ items !! k = Some v).
Proof.
  revert out. induction containers as [|c cs IH]; intros out; simpl; [by left |].
  intros H. apply IH in H as [H | (Hk & c' & res & items & Hin & Hres' & Hpick' & Hget')].
  - destruct (container_resources c) as [res|] eqn:Hres; [| by left].
    rewrite dict_collect_opt_lookup in H.
    destruct (pick res) as [m|] eqn:Hpick; [| by left].
    destruct (keep k) eqn:Hk; [| by left].
    destruct (m !! k) as [v'|] eqn:Hget; [| by left].
    right. split; [done |]. exists c, res, m. injection H as <-.
    by repeat split; [left | ..].
  - right. split; [done |]. exists c', res, items. by repeat split; [right | ..].
Qed.

End DpuScan.

Lemma dpu_container_hits_spec (containers : list Container) :
  existsb dpu_container_hits containers = true
  ↔ ∃ container res items k v,
      In container containers ∧ container_resources container = Some res
      ∧ (res_requests res = Some items ∨ res_limits res = Some items)
      ∧ items !! k = Some v ∧ keep_any k = true.
Proof.
  rewrite existsb_exists. split.
  - intros (c & Hin & Hhit). unfold dpu_container_hits in Hhit.
    destruct (container_resources c) as [res|] eqn:Hres; [| done].
    apply orb_true_iff in Hhit as [H | H];
      apply dict_hits_spec in H as (m & k & v & Hm & Hget & Hk);
      exists c, res, m, k, v; eauto 10.
  - intros (c & res & m & k & v & Hin & Hres & Hm & Hget & Hk).
    exists c. split; [done |]. unfold dpu_container_hits. rewrite Hres.
    apply orb_true_iff.
    destruct Hm as [Hm | Hm]; [left | right]; apply dict_hits_spec; eauto 10.
Qed.

Lemma ds_has_dpu_spec (pod : Pod) :
  ds_has_dpu (dpu_scan_pod pod) = true
  ↔ ∃ k v, keep_any k = true
           ∧ (declares res_requests pod k v ∨ declares res_limits pod k v).
Proof.
  unfold dpu_scan_pod. rewrite dpu_scan_split. simpl. rewrite dpu_container_hits_spec.
  unfold declares. split.
  - intros (c & res & m & k & v & Hin & Hres & [Hm | Hm] & Hget & Hk);
      exists k, v; (split; [done |]); [left | right]; by exists c, res, m.
  - intros (k & v & Hk & [H | H]); destruct H as (c & res & m & Hin & Hres & Hm & Hget);
      exists c, res, m, k, v; eauto 10.
Qed.

Lemma scan_dicts_kept (pick : Resources → option (gmap string string))
    (containers : list Container) (k : string) :
  let d := scan_dicts pick no_dicts containers in
  (is_Some (dd_dpu d !! k) → keep_dpu k = true)
  ∧ (is_Some (dd_sriov d !! k) → keep_sriov k = true)
  ∧ (is_Some (dd_rdma d !! k) → keep_rdma k = true).
Proof.
  simpl. repeat split; intros [v Hv];
    apply scan_with_sound in Hv as [Hv | [Hk _]]; try done;
    by rewrite lookup_empty in Hv.
Qed.

(** X16. [get_bluefield_dpu_workloads] lists a pod exactly when a container
    declares a request or limit whose key contains "nvidia.com/dpu" or
    "nvidia.com/bluefield", or "sriov" or "rdma" in any letter case.  In a
    listed entry a key is filed under one heading only: the DPU test comes
    first, then SR-IOV, then RDMA, for the requests and for the limits. *)
Theorem dpu_workload_listing (gw : Gateway) (project : string) (pods : list Pod) :
  is_available gw = true →
  pods_in gw project = Ok pods →
  ∃ entries,
    get_bluefield_dpu_workloads gw project = Json entries
    ∧ (∀ entry,
         In entry entries
         ↔ ∃ pod k v,
             In pod pods ∧ entry = dpu_pod_info pod
             ∧ (declares res_requests pod k v ∨ declares res_limits pod k v)
             ∧ (str_in "nvidia.com/dpu" k = true
                ∨ str_in "nvidia.com/bluefield" k = true
                ∨ str_in "sriov" (lower k) = true
                ∨ str_in "rdma" (lower k) = true))
    ∧ (∀ entry dicts k,
         In entry entries →
         dicts = dp_requests entry ∨ dicts = dp_limits entry →
         ¬ (is_Some (dd_dpu dicts !! k) ∧ is_Some (dd_sriov dicts !! k))
         ∧ ¬ (is_Some (dd_dpu dicts !! k) ∧ is_Some (dd_rdma dicts !! k))
         ∧ ¬ (is_Some (dd_sriov dicts !! k) ∧ is_Some (dd_rdma dicts !! k))).
Proof.
  intros Hav Hpods. eexists. split; [| split].
  - unfold get_bluefield_dpu_workloads, when_available. by rewrite Hav, Hpods.
  - intros entry. rewrite in_flat_map. split.
    + intros (pod & Hpod & Hentry).
      destruct (ds_has_dpu (dpu_scan_pod pod)) eqn:Hdpu; [| done].
      destruct Hentry as [<- | []].
      apply ds_has_dpu_spec in Hdpu as (k & v & Hk & Hdecl).
      exists pod, k, v. by rewrite <- keep_any_spec.
    + intros (pod & k & v & Hpod & -> & Hdecl & Hk). exists pod. split; [done |].
      assert (ds_has_dpu (dpu_scan_pod pod) = true) as ->; [| by left].
      apply ds_has_dpu_spec. exists k, v. by rewrite keep_any_spec.
  - intros entry dicts k Hentry Hdicts.
    apply in_flat_map in Hentry as (pod & _ & Hentry).
    destruct (ds_has_dpu (dpu_scan_pod pod)); [| done].
    destruct Hentry as [<- | []].
    assert (∃ pick, dicts = scan_dicts pick no_dicts (containers_of pod))
      as [pick ->].
    { simpl in Hdicts. unfold dpu_scan_pod in Hdicts. rewrite dpu_scan_split in Hdicts.
      destruct Hdicts as [-> | ->]; by eexists. }
    destruct (scan_dicts_kept pick (containers_of pod) k) as (Hd & Hs & Hr).
    destruct (keep_exclusive k) as [Hds Hsr].
    repeat split; intros [H1 H2].
    + apply Hd, Hds in H1 as [H1 _]. apply Hs in H2. congruence.
    + apply Hd, Hds in H1 as [_ H1]. apply Hr in H2. congruence.
    + apply Hs, Hsr in H1. apply Hr in H2. congruence.
Qed.

Lemma dpu_workload_listing_witness :
  get_bluefield_dpu_workloads bluefield_cluster "apps" = Json [dpu_pod_info bluefield_pod]
  ∧ dd_dpu (dp_requests (dpu_pod_info bluefield_pod))
    = {[ "nvidia.com/bluefield-3" := "1" ]}
  ∧ dd_sriov (dp_limits (dpu_pod_info bluefield_pod))
    = {[ "openshift.io/sriov-rdma" := "2" ]}
  ∧ dd_rdma (dp_limits (dpu_pod_info bluefield_pod)) = ∅.
Proof.
  destruct (dpu_workload_listing bluefield_cluster "apps" [bluefield_pod; plain_pod]
              eq_refl eq_refl) as (entries & Hjson & _).
  split; [| repeat split; vm_compute; reflexivity].
  rewrite Hjson. vm_compute in Hjson. injection Hjson as <-. vm_compute. reflexivity.
Defined.

Lemma append_assoc (a b c : string) : (a +:+ b) +:+ c = a +:+ (b +:+ c).
Proof.
  induction a as [|x a IH]; [done |]. by rewrite !append_cons, IH.
Qed.

Lemma str_in_trans (a b c : string) :
  str_in a b = true → str_in b c = true → str_in a c = true.
Proof.
  rewrite !str_in_spec. intros (x & y & ->) (u & w & ->).
  exists (u +:+ x), (y +:+ w). by rewrite !append_assoc.
Qed.

(** X17. A pod that declares a resource whose key contains "nvidia.com/dpu"
    or "nvidia.com/bluefield" is listed twice: by [get_gpu_workloads], since
    the key contains "nvidia.com", and by [get_bluefield_dpu_workloads]. *)
Theorem dpu_pods_are_gpu_workloads (gw : Gateway) (project : string)
    (pods : list Pod) (pod : Pod) (k v : string) :
  is_available gw = true →
  pods_in gw project = Ok pods →
  In pod pods →
  declares res_requests pod k v ∨ declares res_limits pod k v →
  str_in "nvidia.com/dpu" k = true ∨ str_in "nvidia.com/bluefield" k = true →
  (∃ entries, get_gpu_workloads gw project = Json entries
              ∧ In (gpu_pod_info pod) entries)
  ∧ (∃ entries, get_bluefield_dpu_workloads gw project = Json entries
                ∧ In (dpu_pod_info pod) entries).
Proof.
  intros Hav Hpods Hpod Hdecl Hk. split.
  - eexists. split.
    + unfold get_gpu_workloads, when_available. by rewrite Hav, Hpods.
    + apply gpu_workloads_of_member. exists pod. split; [done |]. split; [| done].
      exists k, v. split; [| done]. apply is_gpu_resource_spec.
      unfold is_gpu_resource. apply orb_true_iff. left.
      destruct Hk as [Hk | Hk]; by eapply str_in_trans; [| exact Hk].
  - eexists. split.
    + unfold get_bluefield_dpu_workloads, when_available. by rewrite Hav, Hpods.
    + apply in_flat_map. exists pod. split; [done |].
      assert (ds_has_dpu (dpu_scan_pod pod) = true) as ->; [| by left].
      apply ds_has_dpu_spec. exists k, v. split; [| done].
      apply keep_any_spec. tauto.
Qed.

Lemma dpu_pods_are_gpu_workloads_witness :
  get_gpu_workloads bluefield_cluster "apps" = Json [gpu_pod_info bluefield_pod]
  ∧ ∃ entries, get_bluefield_dpu_workloads bluefield_cluster "apps" = Json entries
               ∧ In (dpu_pod_info bluefield_pod) entries.
Proof.
  split; [vm_compute; reflexivity |].
  refine (proj2 (dpu_pods_are_gpu_workloads bluefield_cluster "apps"
                   [bluefield_pod; plain_pod] bluefield_pod
                   "nvidia.com/bluefield-3" "1" eq_refl eq_refl (or_introl eq_refl)
                   _ (or_intror eq_refl))).
  left. eexists _, _, _. repeat split; [by left | reflexivity | reflexivity |].
  vm_compute. reflexivity.
Defined.

(** ** Resolved pods *)

Lemma pod_entry_ready (pod : Pod) :
  (pe_ready (pod_entry pod) <= pe_containers (pod_entry pod))%nat.
Proof.
  unfold pod_entry. cbn [pe_ready pe_containers].
  destruct (pod_container_statuses pod) as [[|c cs]|]; try lia.
  apply filter_length_le.
Qed.

Lemma owner_chain_pods_member (deploys : list Deployment) (pods : list Pod)
    (e : PodEntry) :
  In e (owner_chain_pods deploys pods) →
  ∃ pod owners owner,
    In pod pods ∧ e = pod_entry pod ∧ pod_owner_references pod = Some owners
    ∧ In owner owners ∧ owner_kind owner = "ReplicaSet".
Proof.
  unfold owner_chain_pods. rewrite in_flat_map. intros (pod & Hpod & Hin).
  destruct (pod_owner_references pod) as [owners|] eqn:Hown; [| done].
  apply in_flat_map in Hin as (owner & Howner & Hin).
  destruct (String.eqb (owner_kind owner) "ReplicaSet") eqn:Hkind; [| done].
  apply in_flat_map in Hin as (deploy & _ & Hin).
  destruct (startswith _ _); [| done]. destruct Hin as [<- | []].
  apply String.eqb_eq in Hkind. by exists pod, owners, owner.
Qed.

Lemma method1_member (gw : Gateway) (operator_name project : string)
    (entries : list PodEntry) (e : PodEntry) :
  method1 gw operator_name project = Ok entries → In e entries →
  ∃ pods pod owners owner,
    list_namespaced_pod gw project = Ok pods ∧ In pod pods ∧ e = pod_entry pod
    ∧ pod_owner_references pod = Some owners ∧ In owner owners
    ∧ owner_kind owner = "ReplicaSet".
Proof.
  unfold method1. intros H Hin.
  apply bind_ok in H as (csvs & _ & H).
  destruct (find_target_csv operator_name csvs) as [target|].
  - apply bind_ok in H as (deployments & _ & H).
    apply bind_ok in H as (pods & Hpods & [= <-]).
    apply owner_chain_pods_member in Hin as (pod & owners & owner & ? & ? & ? & ? & ?).
    by exists pods, pod, owners, owner.
  - injection H as <-. destruct Hin.
Qed.

(** X18. Every entry of an answer of [get_operator_pods] describes a pod of
    the project listing that has an owner reference of kind "ReplicaSet" or
    a name that contains the operator name, letter case ignored; its count
    of ready containers is at most its count of containers. *)
Theorem resolved_entries_are_pods (gw : Gateway) (operator_name project : string)
    (entries : list PodEntry) (e : PodEntry) :
  get_operator_pods gw operator_name project = Json entries →
  In e entries →
  (pe_ready e <= pe_containers e)%nat
  ∧ ∃ pods pod,
      list_namespaced_pod gw project = Ok pods ∧ In pod pods ∧ e = pod_entry pod
      ∧ ((∃ owners owner, pod_owner_references pod = Some owners ∧ In owner owners
                          ∧ owner_kind owner = "ReplicaSet")
         ∨ str_in (lower operator_name) (lower (pod_name pod)) = true).
Proof.
  intros Hjson Hin. apply when_available_json in Hjson as [_ Hjson].
  apply catch_all_json in Hjson.
  apply bind_ok in Hjson as (found & Hm1 & Hm2).
  assert (∃ pods pod,
            list_namespaced_pod gw project = Ok pods ∧ In pod pods ∧ e = pod_entry pod
            ∧ ((∃ owners owner, pod_owner_references pod = Some owners
                                ∧ In owner owners ∧ owner_kind owner = "ReplicaSet")
               ∨ str_in (lower operator_name) (lower (pod_name pod)) = true))
    as (pods & pod & Hpods & Hpod & -> & Hwhy).
  { destruct found as [|first more].
    - unfold method2 in Hm2. apply bind_ok in Hm2 as (pods & Hpods & [= <-]).
      unfold name_match_pods in Hin. apply in_flat_map in Hin as (pod & Hpod & Hin).
      destruct (in_lower operator_name (pod_name pod)) eqn:Hname; [| done].
      destruct Hin as [<- | []]. exists pods, pod.
      split; [done |]. split; [done |]. split; [done |]. by right.
    - injection Hm2 as <-.
      destruct (method1_member gw operator_name project _ e Hm1 Hin)
        as (pods & pod & owners & owner & ? & ? & ? & ? & ? & ?).
      exists pods, pod. split; [done |]. split; [done |]. split; [done |].
      left. by exists owners, owner. }
  split; [apply pod_entry_ready |]. by exists pods, pod.
Qed.

Lemma resolved_entries_are_pods_witness :
  (pe_ready (pod_entry web_pod) <= pe_containers (pod_entry web_pod))%nat
  ∧ get_operator_pods web_cluster "web" "apps" = Json [pod_entry web_pod].
Proof.
  split; [| reflexivity].
  by destruct (resolved_entries_are_pods web_cluster "web" "apps" [pod_entry web_pod]
                 (pod_entry web_pod) eq_refl (or_introl eq_refl)) as [H _].
Defined.

(** ** Operator discovery *)

Lemma custom_not_olm (gw : Gateway) (project : string) (name namespace : string)
    (replicas : Z) (ready : option Z) (image : option string) (created : string) :
  ¬ In (CustomOperator name namespace replicas ready image created)
       (olm_operators gw project ++ helm_operators gw).
Proof.
  rewrite in_app_iff. unfold olm_operators, helm_operators. intros [H | H].
  - destruct (if String.eqb project "all" then _ else _) as [subs|e].
    + apply in_map_iff in H as (sub & Heq & _). discriminate Heq.
    + by destruct H.
  - destruct (list_helm_chart_repository gw) as [repos|e]; [| done].
    apply in_map_iff in H as (repo & Heq & _). discriminate Heq.
Qed.

Section CustomLoop.

(** The test of the loop holds for the name or for the label. *)
Lemma looks_like_operator_true (deploy : Deployment) :
  looks_like_operator deploy = Ok true
  ↔ str_in "operator" (lower (dep_name deploy)) = true
    ∨ str_in "controller" (lower (dep_name deploy)) = true
    ∨ ∃ labels, dep_labels deploy = Some labels
                ∧ labels !! "app.kubernetes.io/component" = Some "operator".
Proof.
  unfold looks_like_operator.
  destruct (str_in "operator" _); [split; [by left | done] |].
  destruct (str_in "controller" _); [split; [right; by left | done] |].
  cbn [orb]. destruct (dep_labels deploy) as [labels|].
  - split.
    + intros [= Hb]. apply bool_decide_eq_true in Hb. right. right. by exists labels.
    + intros [? | [? | (l & [= <-] & Hl)]]; try done.
      f_equal. by apply bool_decide_eq_true.
  - split; [done |]. by intros [? | [? | (l & ? & _)]].
Qed.

(** Without a matching name and without labels the test raises. *)
Lemma looks_like_operator_raises (deploy : Deployment) :
  str_in "operator" (lower (dep_name deploy)) = false →
  str_in "controller" (lower (dep_name deploy)) = false →
  dep_labels deploy = None →
  looks_like_operator deploy = Raise "'NoneType' object has no attribute 'get'".
Proof. intros H1 H2 H3. unfold looks_like_operator. by rewrite H1, H2, H3. Qed.

Lemma looks_like_operator_readable (deploy : Deployment) :
  str_in "operator" (lower (dep_name deploy)) = true
  ∨ str_in "controller" (lower (dep_name deploy)) = true
  ∨ dep_labels deploy ≠ None →
  ∃ b, looks_like_operator deploy = Ok b.
Proof.
  intros H. unfold looks_like_operator.
  destruct (str_in "operator" _); [by eexists |].
  destruct (str_in "controller" _); [by eexists |].
  cbn [orb]. destruct (dep_labels deploy); [by eexists |].
  by destruct H as [? | [? | ?]].
Qed.

(** The loop over deployments whose test does not raise, and what follows
    them. *)
Lemma custom_loop_member (before rest : list Deployment) (entry : OperatorEntry) :
  (∀ deploy, In deploy before →
     str_in "operator" (lower (dep_name deploy)) = true
     ∨ str_in "controller" (lower (dep_name deploy)) = true
     ∨ dep_labels deploy ≠ None) →
  In entry (custom_loop (before ++ rest))
  ↔ (∃ deploy, In deploy before ∧ looks_like_operator deploy = Ok true
               ∧ entry = custom_entry deploy)
    ∨ In entry (custom_loop rest).
Proof.
  induction before as [|deploy before IH]; intros Hread.
  - split; [by right | by intros [(? & [] & _) | ?]].
  - cbn [app custom_loop].
    destruct (looks_like_operator_readable deploy (Hread deploy (or_introl eq_refl)))
      as [b Hb].
    assert (∀ d, In d before →
              str_in "operator" (lower (dep_name d)) = true
              ∨ str_in "controller" (lower (dep_name d)) = true
              ∨ dep_labels d ≠ None) as Hrest
      by (intros d Hd; apply Hread; by right).
    specialize (IH Hrest). rewrite Hb. destruct b.
    + cbn [In]. rewrite IH. split.
      * intros [<- | [(d & Hd & Hok & ->) | Hin]].
        -- left. exists deploy. split; [by left | done].
        -- left. exists d. split; [by right | done].
        -- by right.
      * intros [(d & [<- | Hd] & Hok & ->) | Hin].
        -- by left.
        -- right. left. by exists d.
        -- right. by right.
    + rewrite IH. split.
      * intros [(d & Hd & Hok & ->) | Hin]; [left | by right].
        exists d. split; [by right | done].
      * intros [(d & [<- | Hd] & Hok & ->) | Hin]; [congruence | | by right].
        left. by exists d.
Qed.

(** The entry of the failed label read comes from neither of the two
    earlier parts of the answer. *)
Lemma label_error_not_olm (gw : Gateway) (project : string) :
  ¬ In (OperatorError "Error getting custom operators: 'NoneType' object has no attribute 'get'")
       (olm_operators gw project ++ helm_operators gw).
Proof.
  rewrite in_app_iff. unfold olm_operators, helm_operators. intros [H | H].
  - destruct (if String.eqb project "all" then _ else _) as [subs|e].
    + apply in_map_iff in H as (sub & Heq & _). discriminate Heq.
    + by destruct H as [[= H] | []].
  - destruct (list_helm_chart_repository gw) as [repos|e]; [| done].
    apply in_map_iff in H as (repo & Heq & _). discriminate Heq.
Qed.

End CustomLoop.

(** X19. [get_all_operators] goes through the listed deployments in order
    and reports one as a custom operator when its name contains "operator"
    or "controller", letter case ignored, or its label
    "app.kubernetes.io/component" is "operator"; the entry carries the name,
    namespace, replica counts, image and creation time of the deployment.
    The labels are read only when the name does not decide, and a
    deployment without labels then ends the loop: the deployments [before]
    it are reported as said, the answer gets the entry of the failed read,
    and the deployments after it are not looked at. *)
Theorem custom_operator_detection (gw : Gateway) (project : string)
    (before rest : list Deployment) :
  is_available gw = true →
  (if String.eqb project "all" then list_deployment_for_all_namespaces gw
   else list_namespaced_deployment gw project) = Ok (before ++ rest) →
  (∀ deploy, In deploy before →
     str_in "operator" (lower (dep_name deploy)) = true
     ∨ str_in "controller" (lower (dep_name deploy)) = true
     ∨ dep_labels deploy ≠ None) →
  match rest with
  | [] => True
  | deploy :: _ =>
      str_in "operator" (lower (dep_name deploy)) = false
      ∧ str_in "controller" (lower (dep_name deploy)) = false
      ∧ dep_labels deploy = None
  end →
  ∃ operators,
    get_all_operators gw project = Json operators
    ∧ (∀ name namespace replicas ready image created,
         In (CustomOperator name namespace replicas ready image created) operators
         ↔ ∃ deploy,
             In deploy before
             ∧ name = dep_name deploy ∧ namespace = dep_namespace deploy
             ∧ replicas = dep_replicas deploy ∧ ready = dep_ready_replicas deploy
             ∧ image = dep_image deploy ∧ created = dep_creation_timestamp deploy
             ∧ (str_in "operator" (lower (dep_name deploy)) = true
                ∨ str_in "controller" (lower (dep_name deploy)) = true
                ∨ ∃ labels,
                    dep_labels deploy = Some labels
                    ∧ labels !! "app.kubernetes.io/component" = Some "operator"))
    ∧ (In (OperatorError "Error getting custom operators: 'NoneType' object has no attribute 'get'") operators
       ↔ rest ≠ []).
Proof.
  intros Hav Hdeps Hread Hrest. eexists. split; [| split].
  - unfold get_all_operators, when_available. by rewrite Hav.
  - intros name namespace replicas ready image created.
    rewrite app_assoc, in_app_iff. unfold custom_operators. rewrite Hdeps.
    rewrite (custom_loop_member before rest _ Hread). split.
    + intros [H | [(deploy & Hin & Hok & [= -> -> -> -> -> ->]) | H]].
      * by apply custom_not_olm in H.
      * exists deploy. repeat (split; [done |]). by apply looks_like_operator_true.
      * destruct rest as [|bad after]; [done |]. destruct Hrest as (H1 & H2 & H3).
        cbn [custom_loop] in H. rewrite (looks_like_operator_raises bad H1 H2 H3) in H.
        by destruct H.
    + intros (deploy & Hin & -> & -> & -> & -> & -> & -> & Hlooks). right. left.
      exists deploy. split; [done |]. split; [| done].
      by apply looks_like_operator_true.
  - rewrite app_assoc, in_app_iff. unfold custom_operators. rewrite Hdeps.
    rewrite (custom_loop_member before rest _ Hread). split.
    + intros [H | [(deploy & _ & _ & Heq) | H]].
      * by apply label_error_not_olm in H.
      * discriminate Heq.
      * by destruct rest.
    + intros Hne. right. right. destruct rest as [|bad after]; [done |].
      destruct Hrest as (H1 & H2 & H3). cbn [custom_loop].
      rewrite (looks_like_operator_raises bad H1 H2 H3). by left.
Qed.

Lemma custom_operator_detection_witness :
  get_all_operators unlabelled_cluster "apps"
  = Json [CustomOperator "cert-manager-operator" "apps" 1 (Some 1%Z) None "2024-01-01";
          OperatorError "Error getting custom operators: 'NoneType' object has no attribute 'get'"]
  ∧ get_all_operators controller_cluster "apps"
    = Json [CustomOperator "cert-manager-Controller" "apps" 1 (Some 1%Z) None
              "2024-01-01"].
Proof.
  split.
  - destruct (custom_operator_detection unlabelled_cluster "apps"
                [sample_deployment "cert-manager-operator" None]
                [bare_deployment "web"; sample_deployment "node-controller" None]
                eq_refl eq_refl) as (operators & Hjson & _).
    + intros deploy [<- | []]. by left.
    + by repeat split.
    + rewrite Hjson. vm_compute in Hjson. injection Hjson as <-. reflexivity.
  - destruct (custom_operator_detection controller_cluster "apps"
                [sample_deployment "cert-manager-Controller" None;
                 sample_deployment "web" None] []
                eq_refl eq_refl) as (operators & Hjson & _).
    + intros deploy [<- | [<- | []]]; [right; by left | right; by right].
    + done.
    + rewrite Hjson. vm_compute in Hjson. injection Hjson as <-. reflexivity.
Defined.

(** ** Managed-cluster answers *)

Section OcmAnswers.

Import OCM.

Lemma nested_get_ok (fields : list (string * json)) (outer inner : string) :
  (nested_ok fields outer = true → ∃ v, nested_get (JObj fields) outer inner = Ok v)
  ∧ (nested_ok fields outer = false → ∃ e, nested_get (JObj fields) outer inner = Raise e).
Proof.
  unfold nested_ok, nested_get. simpl.
  destruct (obj_lookup outer fields) as [[| | | | |fs]|]; simpl; split; try done;
    intros _; by eexists.
Qed.

Lemma cluster_row_ok (cluster : json) :
  (cluster_ok cluster = true → ∃ row, cluster_row cluster = Ok row)
  ∧ (cluster_ok cluster = false → ∃ e, cluster_row cluster = Raise e).
Proof.
  destruct cluster as [| | | | |fields]; simpl;
    try (split; [done | intros _; by eexists]).
  unfold cluster_row.
  change (dict_get (JObj fields) ?k ?d) with
    (Ok (match obj_lookup k fields with Some v => v | None => d end) : exc json).
  cbn [mbind exc_bind].
  destruct (nested_ok fields "api") eqn:H1;
    [destruct (proj1 (nested_get_ok fields "api" "url") H1) as [v1 ->]
    | destruct (proj2 (nested_get_ok fields "api" "url") H1) as [e1 ->]];
    cbn [mbind exc_bind andb]; [| split; [done | by eexists]].
  destruct (nested_ok fields "console") eqn:H2;
    [destruct (proj1 (nested_get_ok fields "console" "url") H2) as [v2 ->]
    | destruct (proj2 (nested_get_ok fields "console" "url") H2) as [e2 ->]];
    cbn [mbind exc_bind andb]; [| split; [done | by eexists]].
  destruct (nested_ok fields "product") eqn:H3;
    [destruct (proj1 (nested_get_ok fields "product" "id") H3) as [v3 ->]
    | destruct (proj2 (nested_get_ok fields "product" "id") H3) as [e3 ->]];
    cbn [mbind exc_bind andb]; [| split; [done | by eexists]].
  destruct (nested_ok fields "cloud_provider") eqn:H4;
    [destruct (proj1 (nested_get_ok fields "cloud_provider" "id") H4) as [v4 ->]
    | destruct (proj2 (nested_get_ok fields "cloud_provider" "id") H4) as [e4 ->]];
    cbn [mbind exc_bind andb]; [| split; [done | by eexists]].
  destruct (nested_ok fields "region") eqn:H5;
    [destruct (proj1 (nested_get_ok fields "region" "id") H5) as [v5 ->]
    | destruct (proj2 (nested_get_ok fields "region" "id") H5) as [e5 ->]];
    cbn [mbind exc_bind andb]; split; try done; intros _; by eexists.
Qed.

Lemma rows_of_all {A} (row : json → exc A) (items : list json) :
  (∀ x, In x items → ∃ r, row x = Ok r) →
  ∃ rows, rows_of row items = Ok rows
          ∧ Forall2 (fun x r => row x = Ok r) items rows.
Proof.
  induction items as [|x items IH]; intros Hall.
  - exists []. by split.
  - destruct (Hall x (or_introl eq_refl)) as [r Hr].
    destruct IH as (rows & Hrows & Hall2); [intros y Hy; apply Hall; by right |].
    exists (r :: rows). split; [| by constructor].
    simpl. rewrite Hr. simpl. by rewrite Hrows.
Qed.

Lemma rows_of_some_fails {A} (row : json → exc A) (items : list json) (x : json) :
  In x items → (∃ e, row x = Raise e) → ∃ e, rows_of row items = Raise e.
Proof.
  induction items as [|y items IH]; intros Hin Hx; [done |].
  simpl. destruct (row y) as [r|e] eqn:Hy; simpl; [| by eexists].
  destruct Hin as [-> | Hin]; [destruct Hx; congruence |].
  destruct (IH Hin Hx) as [e ->]. by eexists.
Qed.

End OcmAnswers.

(** X20. With an answer that is an object whose "items" is an array,
    [ocm_get_clusters] gives one row per item, in order, when every item is
    an object whose "api", "console", "product", "cloud_provider" and
    "region" are objects or absent; an absent name, id or state reads "N/A".
    With any other item the call raises. *)
Theorem cluster_rows (env : OCM.Env) (fields : list (string * OCM.json))
    (items : list OCM.json) :
  OCM.is_available env = true →
  OCM.make_request env (clusters_url env) = Ok (Some (OCM.JObj fields)) →
  OCM.obj_lookup "items" fields = Some (OCM.JArr items) →
  (forallb cluster_ok items = true →
   ∃ rows,
     OCM.ocm_get_clusters env = Ok (OCM.Dumped rows)
     ∧ Forall2 (fun item row =>
                  ∃ item_fields,
                    item = OCM.JObj item_fields
                    ∧ OCM.cl_name row
                      = default (OCM.JStr "N/A") (OCM.obj_lookup "name" item_fields)
                    ∧ OCM.cl_id row
                      = default (OCM.JStr "N/A") (OCM.obj_lookup "id" item_fields)
                    ∧ OCM.cl_state row
                      = default (OCM.JStr "N/A") (OCM.obj_lookup "state" item_fields))
               items rows)
  ∧ (forallb cluster_ok items = false → ∃ e, OCM.ocm_get_clusters env = Raise e).
Proof.
  intros Hav Hreq Hitems.
  assert (OCM.ocm_get_clusters env
          = rows ← OCM.rows_of OCM.cluster_row items; Ok (OCM.Dumped rows)) as Hcall.
  { unfold OCM.ocm_get_clusters. rewrite Hav. simpl. fold (clusters_url env).
    rewrite Hreq. simpl. unfold OCM.listing.
    assert (fields ≠ []) as Hne by (intros ->; discriminate Hitems).
    destruct fields as [|f fs]; [done |]. cbn [OCM.truthy negb].
    cbn [OCM.contains_key OCM.getitem]. rewrite Hitems. reflexivity. }
  rewrite Hcall. split.
  - intros Hok. rewrite forallb_forall in Hok.
    destruct (rows_of_all OCM.cluster_row items) as (rows & -> & Hall).
    { intros x Hx. by apply cluster_row_ok, Hok. }
    exists rows. split; [done |].
    eapply Forall2_impl; [exact Hall |]. intros item row Hrow.
    destruct item as [| | | | |item_fields]; try discriminate Hrow.
    exists item_fields. split; [done |].
    unfold OCM.cluster_row in Hrow. simpl in Hrow.
    repeat (apply bind_ok in Hrow as (? & ? & Hrow)).
    injection Hrow as <-. simpl.
    repeat split;
      match goal with
      | H : Ok _ = Ok ?x |- ?x = _ => injection H as <-
      end; by destruct (OCM.obj_lookup _ item_fields).
  - intros Hbad.
    assert (∃ x, In x items ∧ cluster_ok x = false) as (x & Hx & Hxbad).
    { clear -Hbad. induction items as [|y items IH]; [done |]. simpl in Hbad.
      apply andb_false_iff in Hbad as [Hy | Hrest].
      - exists y. split; [by left | done].
      - destruct (IH Hrest) as (x & ? & ?). exists x. split; [by right | done]. }
    destruct (rows_of_some_fails OCM.cluster_row items x Hx) as [e ->];
      [by apply cluster_row_ok | by eexists].
Qed.

Lemma cluster_rows_witness :
  ∃ rows,
    OCM.ocm_get_clusters (ocm_answering (OCM.JObj [("items", OCM.JArr two_clusters)]))
    = Ok (OCM.Dumped rows)
    ∧ List.map OCM.cl_name rows = [OCM.JStr "prod"; OCM.JStr "N/A"]
    ∧ List.map OCM.cl_api_url rows = [OCM.JStr "https://api.prod:6443"; OCM.JStr "N/A"].
Proof.
  destruct (cluster_rows (ocm_answering (OCM.JObj [("items", OCM.JArr two_clusters)]))
              [("items", OCM.JArr two_clusters)] two_clusters
              eq_refl eq_refl eq_refl) as [Hgood _].
  destruct (Hgood eq_refl) as (rows & Hrows & _).
  exists rows. split; [done |].
  vm_compute in Hrows. injection Hrows as <-. by split.
Defined.

(** X21. What [ocm_get_clusters] does with an answer that has no list of
    items.  An empty or false answer, and an object without the key
    "items", give the text "No clusters found or invalid response.".  A
    number other than 0, the value [true], and an array that contains the
    text "items" pass the guard or break it, and the call raises. *)
Theorem cluster_answer_without_items (env : OCM.Env) (data : OCM.json) :
  OCM.is_available env = true →
  OCM.make_request env (clusters_url env) = Ok (Some data) →
  (OCM.truthy data = false
   ∨ (∃ fields, data = OCM.JObj fields ∧ OCM.obj_lookup "items" fields = None)
   ∨ (∃ items, data = OCM.JArr items ∧ existsb (OCM.is_str "items") items = false) →
   OCM.ocm_get_clusters env = Ok (OCM.Text "No clusters found or invalid response."))
  ∧ ((∃ n, data = OCM.JNum n ∧ n ≠ 0%Z) ∨ data = OCM.JBool true
     ∨ (∃ items, data = OCM.JArr items ∧ existsb (OCM.is_str "items") items = true) →
     ∃ e, OCM.ocm_get_clusters env = Raise e).
Proof.
  intros Hav Hreq.
  assert (OCM.ocm_get_clusters env
          = OCM.listing (Some data) "No clusters found or invalid response."
              OCM.cluster_row) as ->.
  { unfold OCM.ocm_get_clusters. rewrite Hav. simpl. fold (clusters_url env).
    by rewrite Hreq. }
  unfold OCM.listing. split.
  - intros [Hfalse | [(fields & -> & Hnone) | (items & -> & Hnone)]].
    + by rewrite Hfalse.
    + destruct (negb (OCM.truthy (OCM.JObj fields))); [done |].
      cbn [OCM.contains_key]. by rewrite Hnone.
    + destruct (negb (OCM.truthy (OCM.JArr items))); [done |].
      cbn [OCM.contains_key]. by rewrite Hnone.
  - intros [(n & -> & Hn) | [-> | (items & -> & Hsome)]].
    + cbn [OCM.truthy]. apply Z.eqb_neq in Hn. rewrite Hn. simpl. by eexists.
    + simpl. by eexists.
    + assert (OCM.truthy (OCM.JArr items) = true) as ->
        by (destruct items; [discriminate Hsome | done]).
      cbn [negb OCM.contains_key]. rewrite Hsome. simpl. by eexists.
Qed.

Lemma cluster_answer_without_items_witness :
  OCM.ocm_get_clusters (ocm_answering (OCM.JObj [("kind", OCM.JStr "ClusterList")]))
  = Ok (OCM.Text "No clusters found or invalid response.")
  ∧ OCM.ocm_get_clusters (ocm_answering (OCM.JNum 404))
    = Raise "argument is not iterable".
Proof.
  split.
  - destruct (cluster_answer_without_items
                (ocm_answering (OCM.JObj [("kind", OCM.JStr "ClusterList")]))
                (OCM.JObj [("kind", OCM.JStr "ClusterList")]) eq_refl eq_refl)
      as [Htext _].
    apply Htext. right. left. by eexists.
  - destruct (cluster_answer_without_items (ocm_answering (OCM.JNum 404))
                (OCM.JNum 404) eq_refl eq_refl) as [_ Hraise].
    destruct Hraise as [e He]; [left; by exists 404%Z |].
    rewrite He. vm_compute in He. by injection He as <-.
Defined.

(** X22. Where the refresh token comes from.  Without credentials
    [make_request] returns [None] before any token is read.  On the stdio
    transport the stored offline token is taken.  On another transport the
    token is read from the header of the current request, before the [try]:
    an exception of that lookup is not caught, it leaves [make_request],
    [ocm_get_clusters] and [ocm_get_cluster_logs]. *)
Theorem refresh_token_source (env : OCM.Env) (url cluster_id : string) :
  (OCM.is_available env = false → OCM.make_request env url = Ok None)
  ∧ (OCM.mcp_transport env = "stdio" →
     OCM.refresh_token env = Ok (OCM.offline_token env))
  ∧ (∀ e, OCM.mcp_transport env ≠ "stdio" →
          OCM.is_available env = true →
          OCM.header_offline_token env = Raise e →
          OCM.make_request env url = Raise e
          ∧ OCM.ocm_get_clusters env = Raise e
          ∧ OCM.ocm_get_cluster_logs env cluster_id = Raise e).
Proof.
  split; [| split].
  - by apply make_request_unavailable.
  - intros Hstdio. unfold OCM.refresh_token. by rewrite Hstdio.
  - intros e Hother Hav Hheader. apply String.eqb_neq in Hother.
    assert (∀ u, OCM.make_request env u = Raise e) as Hreq.
    { intros u. unfold OCM.make_request, OCM.refresh_token.
      by rewrite Hav, Hother, Hheader. }
    split; [apply Hreq |].
    unfold OCM.ocm_get_clusters, OCM.ocm_get_cluster_logs.
    rewrite Hav. simpl. by rewrite !Hreq.
Qed.

Lemma refresh_token_source_witness :
  OCM.ocm_get_clusters sse_env = Raise "Context is not available outside of a request"
  ∧ OCM.refresh_token ocm_up = Ok (Some "offline").
Proof.
  destruct (refresh_token_source sse_env "u" "c1") as (_ & _ & Hsse).
  destruct (refresh_token_source ocm_up "https://api.openshift.com/x" "c1")
    as (_ & Hstdio & _).
  split.
  - by apply (Hsse "Context is not available outside of a request").
  - by apply Hstdio.
Defined.

(** ** Comprehensive logs *)

Section Comprehensive.

Variable gw : Gateway.
Variable list_events : string → exc (list Event).
Variables resource_type resource_name project : string.
Variable lines : Z.

Lemma operator_pod_section_headed (pod : PodEntry) :
  headed pod (operator_pod_section gw lines pod).
Proof.
  unfold headed, operator_pod_section.
  destruct (read_namespaced_pod_log _ _ _ _) as [logs|e]; by eexists.
Qed.

Lemma get_comprehensive_logs_available (log_type : string) :
  is_available gw = true →
  get_comprehensive_logs gw list_events resource_type resource_name project
    log_type lines
  = match comprehensive_sections gw list_events resource_type resource_name
            project log_type lines with
    | [] => no_logs_found resource_type resource_name project
    | section :: more => join_lines (section :: more)
    end.
Proof. intros Hav. unfold get_comprehensive_logs. by rewrite Hav. Qed.

End Comprehensive.

(** X23. For an operator and the log type "pod", [get_comprehensive_logs]
    writes one section per pod that [get_operator_pods] resolved, in that
    order, each under the heading of its pod: a pod whose log cannot be read
    keeps its section, with the error in it.  When the resolver answers with
    an error text, the only section is one line "Error getting pod logs". *)
Theorem operator_logs_keep_every_pod (gw : Gateway)
    (list_events : string → exc (list Event))
    (resource_name project : string) (lines : Z) :
  is_available gw = true →
  (∀ pods,
     get_operator_pods gw resource_name project = Json pods →
     Forall2 headed pods
       (comprehensive_sections gw list_events "operator" resource_name project
          "pod" lines)
     ∧ ∀ pod e,
         In pod pods →
         read_namespaced_pod_log gw (pe_name pod) (pe_namespace pod) lines = Raise e →
         In ("=== Operator Pod: " +:+ pe_name pod +:+ " ===" +:+ nl
             +:+ "Error: " +:+ e +:+ nl)
            (comprehensive_sections gw list_events "operator" resource_name project
               "pod" lines))
  ∧ (∀ text,
       get_operator_pods gw resource_name project = ErrorText text →
       get_comprehensive_logs gw list_events "operator" resource_name project
         "pod" lines
       = "Error getting pod logs: Expecting value: line 1 column 1 (char 0)").
Proof.
  intros Hav.
  assert (∀ answer,
            get_operator_pods gw resource_name project = answer →
            comprehensive_sections gw list_events "operator" resource_name project
              "pod" lines
            = match json_loads answer with
              | Ok pods => List.map (operator_pod_section gw lines) pods
              | Raise e => ["Error getting pod logs: " +:+ e]
              end) as Hsections.
  { intros answer <-. unfold comprehensive_sections, pod_log_sections. simpl.
    rewrite app_nil_r. by destruct (json_loads _). }
  split.
  - intros pods Hpods. rewrite (Hsections _ Hpods). simpl. split.
    + clear Hpods. induction pods as [|pod pods IH]; constructor; [| done].
      apply operator_pod_section_headed.
    + intros pod e Hin Hfail. apply in_map_iff. exists pod. split; [| done].
      unfold operator_pod_section. by rewrite Hfail.
  - intros text Htext. rewrite get_comprehensive_logs_available by done.
    by rewrite (Hsections _ Htext).
Qed.

Lemma operator_logs_keep_every_pod_witness :
  comprehensive_sections operator_cluster (fun _ => Ok []) "operator" "op" "apps"
    "pod" 20
  = ["=== Operator Pod: op-a ===" +:+ nl +:+ "started" +:+ nl;
     "=== Operator Pod: op-b ===" +:+ nl +:+ "Error: NotFound" +:+ nl]
  ∧ Forall2 headed [pod_entry operator_pod_a; pod_entry operator_pod_b]
      (comprehensive_sections operator_cluster (fun _ => Ok []) "operator" "op" "apps"
         "pod" 20).
Proof.
  split; [reflexivity |].
  destruct (operator_logs_keep_every_pod operator_cluster (fun _ => Ok []) "op" "apps"
              20 eq_refl) as [Hpods _].
  by destruct (Hpods [pod_entry operator_pod_a; pod_entry operator_pod_b] eq_refl).
Defined.

(** X24. [get_comprehensive_logs] answers "No logs found for <type>/<name> in
    project <project>" for a log type other than "all", "pod", "events" and
    "build", and for the log type "pod" with a resource type other than "pod"
    and "operator": nothing is fetched in either case. *)
Theorem nothing_to_report (gw : Gateway) (list_events : string → exc (list Event))
    (resource_type resource_name project log_type : string) (lines : Z) :
  is_available gw = true →
  (log_type ≠ "all" ∧ log_type ≠ "pod" ∧ log_type ≠ "events" ∧ log_type ≠ "build")
  ∨ (log_type = "pod" ∧ resource_type ≠ "pod" ∧ resource_type ≠ "operator") →
  get_comprehensive_logs gw list_events resource_type resource_name project
    log_type lines
  = "No logs found for " +:+ resource_type +:+ "/" +:+ resource_name
    +:+ " in project " +:+ project.
Proof.
  intros Hav Hcase. rewrite get_comprehensive_logs_available by done.
  unfold comprehensive_sections, log_type_in.
  destruct Hcase as [(Hall & Hpod & Hevents & Hbuild) | (-> & Hpod & Hop)].
  - apply String.eqb_neq in Hall, Hpod, Hevents, Hbuild.
    by rewrite Hall, Hpod, Hevents, Hbuild.
  - simpl. unfold pod_log_sections. apply String.eqb_neq in Hpod, Hop.
    by rewrite Hpod, Hop.
Qed.

Lemma nothing_to_report_witness :
  get_comprehensive_logs operator_cluster (fun _ => Ok []) "deployment" "op" "apps"
    "pod" 20
  = "No logs found for deployment/op in project apps".
Proof.
  apply (nothing_to_report operator_cluster (fun _ => Ok []) "deployment" "op" "apps"
           "pod" 20 eq_refl).
  right. by repeat split.
Defined.

Lemma build_sections_nothing (gw : Gateway) (resource_name project : string)
    (builds : list Build) :
  build_sections gw resource_name project builds = [].
Proof.
  induction builds as [|build rest IH]; [done |].
  cbn [build_sections]. by destruct (in_lower resource_name (build_name build)).
Qed.

(** X25. No build log reaches an answer.  The fetch of a build log is called
    without the resource it has to name and raises for every build: the
    loop of [search_all_logs] skips every build, and the loop of
    [get_comprehensive_logs] ends at the first build with a matching name.
    So the build source gives no entry and no section, and for builds alone
    the two tools answer the empty list and "No logs found for <type>/<name>
    in project <project>", whatever builds the cluster has. *)
Theorem build_logs_never_show (gw : Gateway) (list_events : string → exc (list Event))
    (query resource_type resource_name project : string) (lines : Z) :
  is_available gw = true →
  search_build_logs gw query project = []
  ∧ build_log_sections gw resource_name project = []
  ∧ search_all_logs gw query project "build" lines = Json []
  ∧ get_comprehensive_logs gw list_events resource_type resource_name project
      "build" lines
    = "No logs found for " +:+ resource_type +:+ "/" +:+ resource_name
      +:+ " in project " +:+ project.
Proof.
  intros Hav.
  assert (build_log_sections gw resource_name project = []) as Hsections.
  { unfold build_log_sections.
    destruct (list_namespaced_build gw project); [apply build_sections_nothing | done]. }
  split; [apply search_build_logs_nothing |]. split; [done |]. split.
  - rewrite search_all_logs_available by done.
    change (wants "build" "pod") with false. change (wants "build" "event") with false.
    change (wants "build" "build") with true. cbn iota.
    by rewrite search_build_logs_nothing.
  - rewrite get_comprehensive_logs_available by done.
    unfold comprehensive_sections.
    change (log_type_in "build" "pod") with false.
    change (log_type_in "build" "events") with false.
    change (log_type_in "build" "build") with true. cbn iota.
    by rewrite Hsections.
Qed.

Lemma build_logs_never_show_witness :
  search_all_logs build_cluster "error" "apps" "build" 50 = Json []
  ∧ get_comprehensive_logs build_cluster (fun _ => Ok []) "build" "app" "apps"
      "build" 100
    = "No logs found for build/app in project apps".
Proof.
  destruct (build_logs_never_show build_cluster (fun _ => Ok []) "error" "build" "app"
              "apps" 50 eq_refl) as (_ & _ & Hsearch & _).
  destruct (build_logs_never_show build_cluster (fun _ => Ok []) "error" "build" "app"
              "apps" 100 eq_refl) as (_ & _ & _ & Hlogs).
  split; [exact Hsearch | exact Hlogs].
Defined.
